(** * PyMagento: the request executor, the paginator and the error mapping

    A shallow embedding of [src/magento/client.py]: the constructor
    [Magento.__init__], [raise_for_response], [Magento.request_api],
    the generator [Magento.get_paginated] and [Magento.get_product_by_query];
    then [escape_path], the write calls [delete_product], [save_attribute],
    [create_order_invoice], [save_order] and [set_order_status], the store
    lookups [get_current_store_group_id] and [get_root_category_id], and
    the source items up to [delete_default_source_items].

    Python values are modelled as follows.
    - JSON documents are the inductive [JSON]; numbers are integers
      (floating point numbers are outside the model).
    - A dict that the client builds and mutates (a [Query]) lives in a store
      of dict objects addressed by locations, so that [query.copy()] and
      item assignment have their aliasing behaviour.
    - The HTTP session of the [api_session]/[requests] libraries is a
      transport: a state and a function answering one request; a read-only
      session refuses a write before sending it.
    - Effects (HTTP calls, [time.sleep], logging, the dict store, raised
      exceptions) are threaded through a state-and-exception monad.
    - A generator is a resumable state machine stepped by [gen_next]. *)

From Stdlib Require Import ZArith String Ascii List Lia.
From stdpp Require Import base option gmap strings list pretty.

Set Warnings "-register-all".
Local Open Scope string_scope.
Local Open Scope list_scope.
Local Open Scope Z_scope.

(** ** JSON values and the Python operations the client applies to them *)

Inductive JSON : Type :=
| JNull
| JBool (b : bool)
| JNum (n : Z)
| JStr (s : string)
| JArr (l : list JSON)
| JObj (o : list (string * JSON)).

(** A decoded JSON object, in key order; a key occurs once. *)
Fixpoint obj_get (k : string) (o : list (string * JSON)) : option JSON :=
  match o with
  | [] => None
  | (k', v) :: o' => if String.eqb k k' then Some v else obj_get k o'
  end.

(** Python truth value: [not v] is [negb (truthy v)]. *)
Definition truthy (v : JSON) : bool :=
  match v with
  | JNull => false
  | JBool b => b
  | JNum n => negb (n =? 0)
  | JStr s => negb (String.eqb s "")
  | JArr l => match l with [] => false | _ => true end
  | JObj o => match o with [] => false | _ => true end
  end.

Fixpoint chars (s : string) : list JSON :=
  match s with
  | EmptyString => []
  | String c s' => JStr (String c EmptyString) :: chars s'
  end.

(** [for item in v]: the elements of a list, the characters of a string,
    the keys of a dict; anything else is not iterable. *)
Definition py_iter (v : JSON) : option (list JSON) :=
  match v with
  | JArr l => Some l
  | JStr s => Some (chars s)
  | JObj o => Some (map (fun kv => JStr (fst kv)) o)
  | _ => None
  end.

(** [count >= v] for an int [count]: defined on numbers and booleans. *)
Definition py_int_ge (count : Z) (v : JSON) : option bool :=
  match v with
  | JNum n => Some (n <=? count)
  | JBool b => Some ((if b then 1 else 0) <=? count)
  | _ => None
  end.

(** [a or b] on optional strings: [None] and [""] are false. *)
Definition str_truthy (o : option string) : bool :=
  match o with
  | Some s => negb (String.eqb s "")
  | None => false
  end.

Definition py_or (a b : option string) : option string :=
  if str_truthy a then a else b.

(** ** The [requests] library's response, as far as the client observes it *)

Module Requests.

Record Response : Type := {
  status_code : Z;
  text : string;
  json : option JSON   (* the result of [.json()]; [None] when decoding fails *)
}.

(** [raise_for_status] raises for a status in 400..599, [ok] is its
    negation. *)
Definition is_error_status (r : Response) : bool :=
  (400 <=? status_code r) && (status_code r <? 600).

Definition ok (r : Response) : bool := negb (is_error_status r).

End Requests.
Export Requests.

(** ** Dict objects, requests, exceptions and observable events *)

Abbreviation dict := (gmap string JSON).
Abbreviation loc := positive.

Record Request : Type := {
  req_method : string;
  req_path : string;
  req_params : option dict;
  req_base_url : string;
  req_authorization : string;
  req_user_agent : string
}.

Inductive exn : Type :=
| MagentoException (message parameters trace : JSON) (response : Response)
| HTTPError (response : Response)
| JSONDecodeError
| KeyError (key : string)
| TypeError
| AttributeError
| AssertionError
| RuntimeError (msg : string)
| MagentoAssertionError (query : loc).

Inductive log_record : Type :=
| LogRequest (method full_path : string)
| LogLoaded (count : Z).

Inductive event : Type :=
| EvHttp (req : Request) (resp : Response)
| EvSleep (seconds : Z)
| EvLog (msg : log_record).

Definition http_requests (t : list event) : list Request :=
  omap (fun e => match e with EvHttp q _ => Some q | _ => None end) t.

Definition sleeps (t : list event) : list Z :=
  omap (fun e => match e with EvSleep s => Some s | _ => None end) t.

(** ** The client object *)

Record Magento : Type := {
  base_url : string;
  scope : string;
  token : string;
  user_agent : string;
  read_only : bool;
  logger : bool;      (* whether a logger was given *)
  PAGE_SIZE : Z
}.

Definition DEFAULT_SCOPE : string := "all".
Definition DEFAULT_PAGE_SIZE : Z := 1000.

Definition USER_AGENT (version : string) : string :=
  "Bixoto/PyMagento " +:+ version +:+ " +git.io/JDp0h".

Inductive result (A : Type) : Type :=
| Ok (a : A)
| Raise (e : exn).
Arguments Ok {A} a.
Arguments Raise {A} e.

Record init_args : Type := {
  arg_token : option string;
  arg_base_url : option string;
  arg_scope : option string;
  arg_logger : bool;
  arg_read_only : bool;
  arg_user_agent : option string;
  arg_batch_page_size : option Z
}.

(** [s.rstrip("/")]: [s] without its trailing slashes. *)
Fixpoint rstrip_slash (s : string) : string :=
  match s with
  | EmptyString => EmptyString
  | String c s' =>
    match rstrip_slash s' with
    | EmptyString => if Ascii.eqb c "/" then EmptyString else String c EmptyString
    | t => String c t
    end
  end.

(** [Magento.__init__]; [environ] is [os.environ]. The base URL, the user
    agent and the read-only flag go to [APISession.__init__], which keeps
    the base URL as [base_url.rstrip("/")]. *)
Definition Magento_init (version : string) (environ : gmap string string)
    (a : init_args) : result Magento :=
  let token := py_or (arg_token a) (environ !! "PYMAGENTO_TOKEN") in
  let base_url := py_or (arg_base_url a) (environ !! "PYMAGENTO_BASE_URL") in
  let scope := py_or (py_or (arg_scope a) (environ !! "PYMAGENTO_SCOPE"))
                     (Some DEFAULT_SCOPE) in
  let user_agent := py_or (py_or (arg_user_agent a) (environ !! "PYMAGENTO_USER_AGENT"))
                          (Some (USER_AGENT version)) in
  match token with
  | None => Raise (RuntimeError "Missing API token")
  | Some token =>
    match base_url with
    | None => Raise (RuntimeError "Missing API base URL")
    | Some base_url =>
      Ok {| base_url := rstrip_slash base_url;
            scope := default DEFAULT_SCOPE scope;
            token := token;
            user_agent := default (USER_AGENT version) user_agent;
            read_only := arg_read_only a;
            logger := arg_logger a;
            PAGE_SIZE := default DEFAULT_PAGE_SIZE (arg_batch_page_size a) |}
    end
  end.

(** ** The dict store and the requests handed to the session *)

(** The contents of the dict object at [l]. *)
Definition dict_read (l : loc) (h : gmap loc dict) : dict := default ∅ (h !! l).

(** What the session sends for [method], [full_path] and the dict [params],
    read in the store [h] at the time of the call. *)
Definition session_request (self : Magento) (method full_path : string)
    (params : option loc) (h : gmap loc dict) : Request :=
  {| req_method := method;
     req_path := full_path;
     req_params := (fun l => dict_read l h) <$> params;
     req_base_url := base_url self;
     req_authorization := "Bearer " +:+ token self;
     req_user_agent := user_agent self |}.

(** A read-only session refuses, by an assertion and before anything is
    sent, a call whose method is not a read method, unless the call passes
    [bypass_read_only]; no call modelled here passes it. Of the methods
    the client's calls use, [get] is a read method and [post], [put] and
    [delete] are not; [head] and [options] are taken as read methods too,
    and method names are compared without case. *)
Definition lower (c : ascii) : ascii :=
  let n := N_of_ascii c in
  if ((65 <=? n) && (n <=? 90))%N then ascii_of_N (n + 32) else c.

Fixpoint lowercase (s : string) : string :=
  match s with
  | EmptyString => EmptyString
  | String c s' => String (lower c) (lowercase s')
  end.

Definition read_method (method : string) : bool :=
  let m := lowercase method in
  String.eqb m "get" || String.eqb m "head" || String.eqb m "options".

Definition refused (self : Magento) (method : string) : bool :=
  read_only self && negb (read_method method).

(** ** The world the client runs in, and the monad of its effects *)

Section Client.

(** The session of the [api_session] library: [handle] is the HTTP
    exchange of [APISession.request_api(method, full_path, ...,
    throw=False)] with a server whose state is [St], for a call that the
    session accepts. *)
Variable St : Type.
Variable handle : Request -> St -> Response * St.

Record world : Type := {
  w_server : St;
  w_heap : gmap loc dict;
  w_trace : list event
}.

Definition M (A : Type) : Type := world -> result A * world.

Definition ret {A} (a : A) : M A := fun w => (Ok a, w).
Definition raise {A} (e : exn) : M A := fun w => (Raise e, w).
Definition bind {A B} (m : M A) (k : A -> M B) : M B :=
  fun w => match m w with
           | (Ok a, w') => k a w'
           | (Raise e, w') => (Raise e, w')
           end.

Notation "x <~ m ;; k" := (bind m (fun x => k))
  (at level 100, m at next level, right associativity).
Notation "m ;;; k" := (bind m (fun _ => k))
  (at level 100, right associativity).

Definition emit (e : event) : M unit :=
  fun w => (Ok tt, {| w_server := w_server w; w_heap := w_heap w;
                      w_trace := w_trace w ++ [e] |}).

Definition when (b : bool) (m : M unit) : M unit := if b then m else ret tt.

(** *** The dict store *)

Definition dict_alloc (d : dict) : M loc :=
  fun w => let l := fresh (dom (w_heap w)) in
           (Ok l, {| w_server := w_server w; w_heap := <[l := d]> (w_heap w);
                     w_trace := w_trace w |}).

(** [d.copy()] *)
Definition dict_copy (l : loc) : M loc :=
  fun w => dict_alloc (dict_read l (w_heap w)) w.

(** [d[k] = v] *)
Definition dict_set (l : loc) (k : string) (v : JSON) : M unit :=
  fun w => (Ok tt, {| w_server := w_server w;
                      w_heap := <[l := <[k := v]> (dict_read l (w_heap w))]> (w_heap w);
                      w_trace := w_trace w |}).

(** *** [raise_for_response] *)

Definition starts_with_brace (s : string) : bool :=
  match s with
  | EmptyString => false
  | String c _ => Ascii.eqb c "{"%char
  end.

Definition raise_for_response (response : Response) : M unit :=
  if ok response then ret tt
  else
    match (if starts_with_brace (text response) then json response else None) with
    | Some (JObj body) =>
      match obj_get "message" body with
      | Some message =>
        raise (MagentoException message
                 (default JNull (obj_get "parameters" body))
                 (default JNull (obj_get "trace" body))
                 response)
      | None => raise (HTTPError response)
      end
    | _ => raise (HTTPError response)
    end.

(** *** [Magento.request_api] *)

Definition super_request_api (self : Magento) (method full_path : string)
    (params : option loc) : M Response :=
  fun w =>
    if refused self method then (Raise AssertionError, w)
    else
      let req := session_request self method full_path params (w_heap w) in
      let '(r, st) := handle req (w_server w) in
      (Ok r, {| w_server := st; w_heap := w_heap w;
                w_trace := w_trace w ++ [EvHttp req r] |}).

(** [while not r.ok and retry > 0]; the counter [retry] decreases by one
    per turn, so the loop is structural in [Z.to_nat retry]. *)
Fixpoint retry_loop (self : Magento) (method full_path : string)
    (params : option loc) (retry : nat) (r : Response) : M Response :=
  match retry with
  | O => ret r
  | S retry' =>
    if ok r then ret r
    else
      emit (EvSleep 10) ;;;
      r' <~ super_request_api self method full_path params ;;
      retry_loop self method full_path params retry' r'
  end.

Definition full_path_of (self : Magento) (async_bulk : bool) (path : string) : string :=
  ("/rest/" +:+ scope self) +:+ (if async_bulk then "/async/bulk" else "") +:+ path.

Definition request_api (self : Magento) (method path : string)
    (params : option loc) (async_bulk throw : bool) (retry : Z) : M Response :=
  if negb (String.prefix "/V1/" path) then raise AssertionError
  else
    let full_path := full_path_of self async_bulk path in
    when (logger self) (emit (EvLog (LogRequest method full_path))) ;;;
    r <~ super_request_api self method full_path params ;;
    r <~ retry_loop self method full_path params (Z.to_nat retry) r ;;
    when throw (raise_for_response r) ;;;
    ret r.

(** [APISession.get_api(path, params, **kwargs)] is
    [self.request_api("get", path, params=params, **kwargs)]. *)
Definition get_api (self : Magento) (path : string) (params : loc)
    (throw : bool) (retry : Z) : M Response :=
  request_api self "get" path (Some params) false throw retry.

Definition response_json (r : Response) : M JSON :=
  match json r with
  | Some v => ret v
  | None => raise JSONDecodeError
  end.

(** *** [Magento.get_paginated], a generator

    The local variables of a started generator. *)
Record frame : Type := {
  f_path : string;
  f_retry : Z;
  f_limit : Z;
  f_is_limited : bool;
  f_page_size : Z;
  f_query : loc;
  f_current_page : Z;
  f_count : Z
}.

Definition set_count (f : frame) (n : Z) : frame :=
  {| f_path := f_path f; f_retry := f_retry f; f_limit := f_limit f;
     f_is_limited := f_is_limited f; f_page_size := f_page_size f;
     f_query := f_query f; f_current_page := f_current_page f; f_count := n |}.

Definition set_current_page (f : frame) (p : Z) : frame :=
  {| f_path := f_path f; f_retry := f_retry f; f_limit := f_limit f;
     f_is_limited := f_is_limited f; f_page_size := f_page_size f;
     f_query := f_query f; f_current_page := p; f_count := f_count f |}.

(** A generator object: created and not yet started, suspended at the
    [yield] with the rest of the page still to iterate, or finished. *)
Inductive gen_state : Type :=
| GenCreated (path : string) (query : option loc) (limit retry : Z)
| GenSuspended (f : frame) (total_count : JSON) (rest : list JSON)
| GenDone.

(** What running the body up to its next suspension point produces:
    a yielded item and the suspended generator, or [None] when the body
    returns. *)
Definition suspension : Type := option (JSON * gen_state).

(** One turn of [for item in items]: the log line, then [yield item]. *)
Definition yield_item (self : Magento) (f : frame) (total_count item : JSON)
    (rest : list JSON) : M suspension :=
  when (logger self && negb (f_count f =? 0) && (f_count f mod 1000 =? 0))
       (emit (EvLog (LogLoaded (f_count f)))) ;;;
  ret (Some (item, GenSuspended f total_count rest)).

(** The [while True] body from [res = ....json()] to the first [yield]
    of the page. A true [items] that can be iterated holds an element
    ([py_iter_truthy]), so the loop over it yields at once. *)
Definition read_page (self : Magento) (f : frame) (r : Response) : M suspension :=
  res <~ response_json r ;;
  match res with
  | JObj res =>
    let items := default (JArr []) (obj_get "items" res) in
    if negb (truthy items) then ret None
    else
      match obj_get "total_count" res with
      | None => raise (KeyError "total_count")
      | Some total_count =>
        match py_iter items with
        | None => raise TypeError
        | Some [] => ret None
        | Some (item :: rest) => yield_item self f total_count item rest
        end
      end
  | _ => raise AttributeError
  end.

(** The head of the [while True] body: the page query, the request, then
    the page read. *)
Definition fetch_page (self : Magento) (f : frame) : M suspension :=
  page_query <~ dict_copy (f_query f) ;;
  dict_set page_query "searchCriteria[currentPage]" (JNum (f_current_page f)) ;;;
  r <~ get_api self (f_path f) page_query true (f_retry f) ;;
  read_page self f r.

(** Resuming after [yield item]: the counter, the two exits, then the
    next turn of the [for] loop or, at its end, the next page. *)
Definition resume (self : Magento) (f : frame) (total_count : JSON)
    (rest : list JSON) : M suspension :=
  let count := f_count f + 1 in
  match py_int_ge count total_count with
  | None => raise TypeError
  | Some true => ret None
  | Some false =>
    if f_is_limited f && (f_limit f <=? count) then ret None
    else
      let f := set_count f count in
      match rest with
      | item :: rest' => yield_item self f total_count item rest'
      | [] => fetch_page self (set_current_page f (f_current_page f + 1))
      end
  end.

(** The body from its entry to the first suspension. *)
Definition start (self : Magento) (path : string) (query : option loc)
    (limit retry : Z) : M suspension :=
  if limit =? 0 then ret None
  else
    let page_size := PAGE_SIZE self in
    let is_limited := 0 <? limit in
    let page_size := if is_limited && (limit <? page_size) then limit else page_size in
    query <~ match query with
             | Some q => dict_copy q
             | None => dict_alloc ∅
             end ;;
    dict_set query "searchCriteria[pageSize]" (JNum page_size) ;;;
    fetch_page self {| f_path := path; f_retry := retry; f_limit := limit;
                       f_is_limited := is_limited; f_page_size := page_size;
                       f_query := query; f_current_page := 1; f_count := 0 |}.

(** [self.get_paginated(path, query=query, limit=limit, retry=retry)]
    only creates the generator object. *)
Definition get_paginated (path : string) (query : option loc)
    (limit retry : Z) : gen_state :=
  GenCreated path query limit retry.

Inductive next_result : Type :=
| Yielded (item : JSON)
| StopIteration
| Raised (e : exn).

(** [next(g)] *)
Definition gen_next (self : Magento) (g : gen_state) (w : world)
    : next_result * gen_state * world :=
  let body := match g with
              | GenCreated path query limit retry => start self path query limit retry
              | GenSuspended f total_count rest => resume self f total_count rest
              | GenDone => ret None
              end in
  match body w with
  | (Ok (Some (item, g')), w') => (Yielded item, g', w')
  | (Ok None, w') => (StopIteration, GenDone, w')
  | (Raise e, w') => (Raised e, GenDone, w')
  end.

(** How a consumer's loop over a generator ended. *)
Inductive status : Type :=
| Exhausted                (* the generator raised [StopIteration] *)
| Failed (e : exn)         (* the generator raised [e] *)
| Pending.                 (* the consumer stopped pulling *)

(** Pull at most [n] items. *)
Fixpoint gen_take (self : Magento) (n : nat) (g : gen_state) (w : world)
    : list JSON * status * gen_state * world :=
  match n with
  | O => ([], Pending, g, w)
  | S n' =>
    match gen_next self g w with
    | (Yielded item, g', w') =>
      let '(items, s, g'', w'') := gen_take self n' g' w' in
      (item :: items, s, g'', w'')
    | (StopIteration, g', w') => ([], Exhausted, g', w')
    | (Raised e, g', w') => ([], Failed e, g', w')
    end
  end.

(** [list(g)], given [fuel] calls of [next]: [None] when the fuel runs
    out before the generator ends. *)
Definition py_list (self : Magento) (fuel : nat) (g : gen_state) : M (option (list JSON)) :=
  fun w => match gen_take self fuel g w with
           | (items, Exhausted, _, w') => (Ok (Some items), w')
           | (_, Failed e, _, w') => (Raise e, w')
           | (_, Pending, _, w') => (Ok None, w')
           end.

(** *** The product getters *)

Definition get_products (limit : Z) (query : option loc) (retry : Z) : gen_state :=
  get_paginated "/V1/products/" query limit retry.

(** [for product in g: return product], then [return None]. *)
Definition first_or_none (self : Magento) (g : gen_state) : M (option JSON) :=
  fun w => match gen_next self g w with
           | (Yielded item, _, w') => (Ok (Some item), w')
           | (StopIteration, _, w') => (Ok None, w')
           | (Raised e, _, w') => (Raise e, w')
           end.

(** [get_product_by_query]; the outer [option] is [None] when [fuel] did
    not suffice for [list(...)]. *)
Definition get_product_by_query (self : Magento) (fuel : nat) (query : loc)
    (expect_one : bool) : M (option (option JSON)) :=
  if negb expect_one then
    p <~ first_or_none self (get_products 1 (Some query) 0) ;;
    ret (Some p)
  else
    products <~ py_list self fuel (get_products 2 (Some query) 0) ;;
    match products with
    | None => ret None
    | Some [] => ret (Some None)
    | Some [p] => ret (Some (Some p))
    | Some _ => raise (MagentoAssertionError query)
    end.

End Client.

Arguments w_server {St} _.
Arguments w_heap {St} _.
Arguments w_trace {St} _.
Arguments ret {St A} _ _.
Arguments raise {St A} _ _.
Arguments bind {St A B} _ _ _.
Arguments emit {St} _ _.
Arguments when {St} _ _ _.
Arguments dict_alloc {St} _ _.
Arguments dict_copy {St} _ _.
Arguments dict_set {St} _ _ _ _.
Arguments raise_for_response {St} _ _.
Arguments response_json {St} _ _.
Arguments super_request_api {St} _ _ _ _ _ _.
Arguments retry_loop {St} _ _ _ _ _ _ _ _.
Arguments request_api {St} _ _ _ _ _ _ _ _ _.
Arguments get_api {St} _ _ _ _ _ _ _.
Arguments yield_item {St} _ _ _ _ _ _.
Arguments read_page {St} _ _ _ _.
Arguments fetch_page {St} _ _ _ _.
Arguments resume {St} _ _ _ _ _ _.
Arguments start {St} _ _ _ _ _ _ _.
Arguments gen_next {St} _ _ _ _.
Arguments gen_take {St} _ _ _ _ _.
Arguments py_list {St} _ _ _ _ _.
Arguments first_or_none {St} _ _ _ _.
Arguments get_product_by_query {St} _ _ _ _ _ _.

(** ** The server side of the pagination contract *)

Definition PAGE_SIZE_KEY : string := "searchCriteria[pageSize]".
Definition CURRENT_PAGE_KEY : string := "searchCriteria[currentPage]".

(** The page size [get_paginated] settles on for a given [limit]. *)
Definition page_size_for (self : Magento) (limit : Z) : Z :=
  if (0 <? limit) && (limit <? PAGE_SIZE self) then limit else PAGE_SIZE self.

(** Page number [page] (from 1) of [db] cut in pages of [size] entities. *)
Definition page_of (db : list JSON) (size page : nat) : list JSON :=
  take size (drop ((page - 1) * size) db).

(** The entities served by pages [1..n]. *)
Definition stream (pages : nat -> list JSON) (n : nat) : list JSON :=
  flat_map pages (seq 1 n).

(** [r] is a successful page response carrying [items] and [total]. *)
Definition is_page (r : Response) (items : list JSON) (total : Z) : Prop :=
  ok r = true /\
  exists body, json r = Some (JObj body) /\
               obj_get "items" body = Some (JArr items) /\
               obj_get "total_count" body = Some (JNum total).

(** The number of pages of [size] that hold [m] entities. *)
Definition pages_for (size m : nat) : nat := (m + size - 1) / size.

Section Contract.

Variable St : Type.
Variable handle : Request -> St -> Response * St.

(** In every state the server answers the GET of page [page] of [url],
    asked with page size [size], with the items [pages page] and the
    fixed count [total]. *)
Definition serves (url : string) (size total : Z) (pages : nat -> list JSON) : Prop :=
  forall (st : St) (req : Request) (params : dict) (page : nat),
    req_method req = "get" ->
    req_path req = url ->
    req_params req = Some params ->
    params !! PAGE_SIZE_KEY = Some (JNum size) ->
    params !! CURRENT_PAGE_KEY = Some (JNum (Z.of_nat page)) ->
    (1 <= page)%nat ->
    is_page (handle req st).1 (pages page) total.

(** The same for the pages [1..bound] only: what the server answers to a
    page after [bound] is left open. *)
Definition serves_upto (bound : nat) (url : string) (size total : Z)
    (pages : nat -> list JSON) : Prop :=
  forall (st : St) (req : Request) (params : dict) (page : nat),
    req_method req = "get" ->
    req_path req = url ->
    req_params req = Some params ->
    params !! PAGE_SIZE_KEY = Some (JNum size) ->
    params !! CURRENT_PAGE_KEY = Some (JNum (Z.of_nat page)) ->
    (1 <= page <= bound)%nat ->
    is_page (handle req st).1 (pages page) total.

(** The server honors the pagination contract on the matching entities
    [db]: whatever positive page size is asked, it serves the pages that
    [db] fills (the first page when [db] is empty), cut at that size, and
    reports [length db]. What it answers to a page past the last one is
    left open: an empty page, the last page again, an error. *)
Definition honors (url : string) (db : list JSON) : Prop :=
  forall size : nat, (0 < size)%nat ->
    serves_upto (Nat.max 1 (pages_for size (length db))) url
                (Z.of_nat size) (Z.of_nat (length db)) (page_of db size).

End Contract.

(** ** The paginator as a function of the served pages

    A reference for what a full run of the generator yields and how many
    pages it asks for, when the server serves [pages] and reports [total]:
    the yielded items, whether the generator ended within [fuel] pulls, and
    the number of page requests. *)

Definition stops (total limit count : Z) : bool :=
  (total <=? count) || ((0 <? limit) && (limit <=? count)).

Fixpoint paginate_from (pages : nat -> list JSON) (total limit : Z) (fuel : nat)
    (count : Z) (rest : list JSON) (page : nat) : list JSON * bool * nat :=
  match fuel with
  | O => ([], false, O)
  | S fuel' =>
    if stops total limit (count + 1) then ([], true, O)
    else
      match rest with
      | item :: rest' =>
        let '(items, ended, n) := paginate_from pages total limit fuel' (count + 1) rest' page in
        (item :: items, ended, n)
      | [] =>
        match pages (S page) with
        | [] => ([], true, 1%nat)
        | item :: rest' =>
          let '(items, ended, n) :=
            paginate_from pages total limit fuel' (count + 1) rest' (S page) in
          (item :: items, ended, S n)
        end
      end
  end.

Definition paginate (pages : nat -> list JSON) (total limit : Z) (fuel : nat)
    : list JSON * bool * nat :=
  match fuel with
  | O => ([], false, O)
  | S fuel' =>
    if limit =? 0 then ([], true, O)
    else
      match pages 1%nat with
      | [] => ([], true, 1%nat)
      | item :: rest =>
        let '(items, ended, n) := paginate_from pages total limit fuel' 0 rest 1%nat in
        (item :: items, ended, S n)
      end
  end.

(** ** Two generators over one query, stepped in any order

    [sched] tells which generator the consumer pulls next ([true] for the
    first). The result lists the requests each generator sent. *)

Section Interleaving.

Variable St : Type.
Variable handle : Request -> St -> Response * St.

Definition new_requests (w w' : world St) : list Request :=
  http_requests (drop (length (w_trace w)) (w_trace w')).

Fixpoint run2 (self : Magento) (sched : list bool) (g1 g2 : gen_state)
    (w : world St) : list Request * list Request * world St :=
  match sched with
  | [] => ([], [], w)
  | true :: sched' =>
    let '(_, g1', w') := gen_next handle self g1 w in
    let '(r1, r2, w'') := run2 self sched' g1' g2 w' in
    (new_requests w w' ++ r1, r2, w'')
  | false :: sched' =>
    let '(_, g2', w') := gen_next handle self g2 w in
    let '(r1, r2, w'') := run2 self sched' g1 g2' w' in
    (r1, new_requests w w' ++ r2, w'')
  end.

End Interleaving.

(** A generator [g] created on the caller's query object [q], whose
    contents are [d], with limit [limit]: once started, its private query
    object holds [d] and the page size. *)
Definition gen_owns {St : Type} (self : Magento) (q : loc) (d : dict) (limit : Z)
    (g : gen_state) (w : world St) : Prop :=
  match g with
  | GenCreated _ query limit' _ => query = Some q /\ limit' = limit
  | GenSuspended f _ _ =>
    w_heap w !! f_query f = Some (<[PAGE_SIZE_KEY := JNum (page_size_for self limit)]> d)
  | GenDone => True
  end.

(** The parameters of a page request built from the caller's query [d]. *)
Definition page_params (d : dict) (page_size : Z) (req : Request) : Prop :=
  exists page : Z,
    req_params req =
      Some (<[CURRENT_PAGE_KEY := JNum page]> (<[PAGE_SIZE_KEY := JNum page_size]> d)).

(** ** What the server answers to repeated attempts

    [serve_seq handle req n st]: the answers to [n] successive sends of
    [req] from server state [st], and the state reached. *)

Section Transport.

Variable St : Type.
Variable handle : Request -> St -> Response * St.

Fixpoint serve_seq (req : Request) (n : nat) (st : St) : list Response * St :=
  match n with
  | O => ([], st)
  | S n' =>
    let '(r, st') := handle req st in
    let '(rs, st'') := serve_seq req n' st' in
    (r :: rs, st'')
  end.

(** The request [request_api] hands to the session. *)
Definition api_request (self : Magento) (method path : string) (params : option loc)
    (async_bulk : bool) (w : world St) : Request :=
  session_request self method (full_path_of self async_bulk path) params (w_heap w).

(** The events of the retries that follow a first attempt. *)
Definition retries (req : Request) (rs : list Response) : list event :=
  flat_map (fun r => [EvSleep 10; EvHttp req r]) rs.

(** The request of the page the generator frame [f] is about to fetch. *)
Definition page_request (self : Magento) (f : frame) (w : world St) : Request :=
  {| req_method := "get";
     req_path := full_path_of self false (f_path f);
     req_params := Some (<[CURRENT_PAGE_KEY := JNum (f_current_page f)]>
                           (dict_read (f_query f) (w_heap w)));
     req_base_url := base_url self;
     req_authorization := "Bearer " +:+ token self;
     req_user_agent := user_agent self |}.

(** The world after the page of frame [f] was asked once and answered
    [r], leaving the server in state [st]. *)
Definition after_fetch (self : Magento) (f : frame) (w : world St)
    (r : Response) (st : St) : world St :=
  {| w_server := st;
     w_heap := <[fresh (dom (w_heap w)) :=
                 <[CURRENT_PAGE_KEY := JNum (f_current_page f)]>
                   (dict_read (f_query f) (w_heap w))]> (w_heap w);
     w_trace := w_trace w
                ++ (if logger self
                    then [EvLog (LogRequest "get" (full_path_of self false (f_path f)))]
                    else [])
                ++ [EvHttp (page_request self f w) r] |}.

End Transport.

(** ** The state of a started generator

    What holds of the frame [f] of a generator that pages through [url]
    with page size [size] and is at page [page]: its private query object
    is allocated and carries the page size. *)

Record frame_ok {St : Type} (self : Magento) (url : string) (size limit : Z)
    (f : frame) (w : world St) (page : nat) : Prop := {
  fo_path : String.prefix "/V1/" (f_path f) = true;
  fo_url : full_path_of self false (f_path f) = url;
  fo_limit : f_limit f = limit;
  fo_limited : f_is_limited f = (0 <? limit);
  fo_query : exists d, w_heap w !! f_query f = Some d /\
                       d !! PAGE_SIZE_KEY = Some (JNum size);
  fo_page : f_current_page f = Z.of_nat page;
  fo_page_pos : (1 <= page)%nat
}.

(** The frame [get_paginated] starts with, its private query object being
    [l], and the world once that object is set up. *)
Definition first_frame (self : Magento) (path : string) (limit retry : Z)
    (l : loc) : frame :=
  {| f_path := path; f_retry := retry; f_limit := limit;
     f_is_limited := 0 <? limit; f_page_size := page_size_for self limit;
     f_query := l; f_current_page := 1; f_count := 0 |}.

Definition started {St : Type} (self : Magento) (query : option loc) (limit : Z)
    (w : world St) : world St :=
  {| w_server := w_server w;
     w_heap := <[fresh (dom (w_heap w)) :=
                 <[PAGE_SIZE_KEY := JNum (page_size_for self limit)]>
                   (match query with
                    | Some q => dict_read q (w_heap w)
                    | None => ∅
                    end)]> (w_heap w);
     w_trace := w_trace w |}.

(** The log line written before the [yield] in frame [f]. *)
Definition log_loaded (self : Magento) (f : frame) : list event :=
  if logger self && negb (f_count f =? 0) && (f_count f mod 1000 =? 0)
  then [EvLog (LogLoaded (f_count f))]
  else [].

Definition status_of (ended : bool) : status := if ended then Exhausted else Pending.

(** ** Example servers *)

Module Servers.

Definition page_body (items : list JSON) (total : Z) : JSON :=
  JObj [("items", JArr items); ("total_count", JNum total)].

Definition quoted (s : string) : string :=
  String (ascii_of_nat 34) s +:+ String (ascii_of_nat 34) "".

(** The text of a JSON document (strings without escapes). *)
Fixpoint render (v : JSON) : string :=
  match v with
  | JNull => "null"
  | JBool b => if b then "true" else "false"
  | JNum n => pretty n
  | JStr s => quoted s
  | JArr l =>
    "[" +:+ (fix go (l : list JSON) : string :=
               match l with
               | [] => ""
               | [x] => render x
               | x :: l' => render x +:+ ", " +:+ go l'
               end) l +:+ "]"
  | JObj o =>
    "{" +:+ (fix go (o : list (string * JSON)) : string :=
               match o with
               | [] => ""
               | [(k, x)] => quoted k +:+ ": " +:+ render x
               | (k, x) :: o' => quoted k +:+ ": " +:+ render x +:+ ", " +:+ go o'
               end) o +:+ "}"
  end.

(** A response whose body is the JSON document [body]. *)
Definition json_response (status : Z) (body : JSON) : Response :=
  {| status_code := status; text := render body; json := Some body |}.

(** The same with a blank before the document, which JSON allows. *)
Definition padded_json_response (status : Z) (body : JSON) : Response :=
  {| status_code := status; text := " " +:+ render body; json := Some body |}.

(** A response whose body is not JSON. *)
Definition plain_response (status : Z) (body : string) : Response :=
  {| status_code := status; text := body; json := None |}.

Definition sku_not_found : JSON :=
  JObj [("message", JStr "SKU not found"); ("parameters", JArr [JStr "X1"])].

Definition page_response (items : list JSON) (total : Z) : Response :=
  json_response 200 (page_body items total).

Definition bad_request : Response := plain_response 400 "".

Definition int_param (k : string) (req : Request) : option Z :=
  match req_params req with
  | Some d => match d !! k with Some (JNum n) => Some n | _ => None end
  | None => None
  end.

(** A stateless server holding the entities [db]. *)
Definition db_server (db : list JSON) (req : Request) (st : unit) : Response * unit :=
  match int_param PAGE_SIZE_KEY req, int_param CURRENT_PAGE_KEY req with
  | Some size, Some page =>
    (page_response (page_of db (Z.to_nat size) (Z.to_nat page)) (Z.of_nat (length db)), st)
  | _, _ => (bad_request, st)
  end.

(** A stateless server holding the entities [db] that, asked for a page
    past the last one, serves the last page again. *)
Definition repeating_server (db : list JSON) (req : Request) (st : unit)
    : Response * unit :=
  match int_param PAGE_SIZE_KEY req, int_param CURRENT_PAGE_KEY req with
  | Some size, Some page =>
    let last := Nat.max 1 (pages_for (Z.to_nat size) (length db)) in
    (page_response (page_of db (Z.to_nat size) (Nat.min (Z.to_nat page) last))
                   (Z.of_nat (length db)), st)
  | _, _ => (bad_request, st)
  end.

(** A stateless server with fixed pages and a fixed reported count. *)
Definition pages_server (total : Z) (pages : list (list JSON)) (req : Request)
    (st : unit) : Response * unit :=
  match int_param CURRENT_PAGE_KEY req with
  | Some page => (page_response (nth (Z.to_nat page - 1) pages []) total, st)
  | None => (bad_request, st)
  end.

(** A server that fails [n] times, then succeeds; its state counts the
    requests still to fail. *)
Definition unavailable : Response := plain_response 503 "Service Unavailable".

Definition success : Response := json_response 200 (JArr []).

Definition flaky_server (req : Request) (failures : nat) : Response * nat :=
  match failures with
  | O => (success, O)
  | S n => (unavailable, n)
  end.

(** A server that always gives the same answer. *)
Definition const_server (r : Response) (req : Request) (st : unit) : Response * unit :=
  (r, st).

Definition three_items : list JSON := [JStr "item1"; JStr "item2"; JStr "item3"].

(** The pages of a server that cuts them as [pages]. *)
Definition nth_page (pages : list (list JSON)) (page : nat) : list JSON :=
  nth (page - 1) pages [].

Definition a_frame : frame :=
  {| f_path := "/V1/products/"; f_retry := 0; f_limit := -1; f_is_limited := false;
     f_page_size := 2; f_query := 1%positive; f_current_page := 1; f_count := 0 |}.

Definition a_query : dict :=
  {["searchCriteria[filter_groups][0][filters][0][field]" := JStr "sku"]}.

(** A world where the caller holds [a_query] at location 1. *)
Definition query_world : world unit :=
  {| w_server := tt; w_heap := {[1%positive := a_query]}; w_trace := [] |}.

Definition client : Magento :=
  {| base_url := "https://shop.example"; scope := "all"; token := "secret";
     user_agent := "test"; read_only := false; logger := false; PAGE_SIZE := 2 |}.

Definition init_world {St} (st : St) : world St :=
  {| w_server := st; w_heap := ∅; w_trace := [] |}.

End Servers.

(** ** What a call leaves in the trace *)

(** The exception [raise_for_response] raises for a failed response. *)
Definition error_of (r : Response) : exn :=
  match (if starts_with_brace (text r) then json r else None) with
  | Some (JObj body) =>
    match obj_get "message" body with
    | Some message =>
      MagentoException message
        (default JNull (obj_get "parameters" body))
        (default JNull (obj_get "trace" body)) r
    | None => HTTPError r
    end
  | _ => HTTPError r
  end.

(** The responses received, oldest first, and the last of them. *)
Definition responses_of (t : list event) : list Response :=
  omap (fun e => match e with EvHttp _ r => Some r | _ => None end) t.

Definition last_response (t : list event) : option Response := last (responses_of t).

(** The page number a request asks for. *)
Definition requested_page (req : Request) : option Z :=
  match req_params req with
  | Some d => match d !! CURRENT_PAGE_KEY with Some (JNum p) => Some p | _ => None end
  | None => None
  end.

(** [climbs p l]: from page [p], each number of [l] is the one before it or
    its successor. *)
Fixpoint climbs (p : Z) (l : list Z) : Prop :=
  match l with
  | [] => True
  | x :: l' => (x = p \/ x = p + 1) /\ climbs x l'
  end.

(** The retry count a generator passes to each page request. *)
Definition gen_retry (g : gen_state) : Z :=
  match g with
  | GenCreated _ _ _ retry => retry
  | GenSuspended f _ _ => f_retry f
  | GenDone => 0
  end.

(** The page a generator asks for at its next fetch. *)
Definition next_page (g : gen_state) : Z :=
  match g with
  | GenCreated _ _ _ _ => 1
  | GenSuspended f _ _ => f_current_page f + 1
  | GenDone => 0
  end.

(** The page a generator is at: none before the first fetch. *)
Definition at_page (p : Z) (g : gen_state) : Prop :=
  match g with
  | GenCreated _ _ _ _ => p = 0
  | GenSuspended f _ _ => f_current_page f = p
  | GenDone => True
  end.

(** A generator created with the positive limit [k]: once started it
    counts below [k]. *)
Definition within_limit (k : Z) (g : gen_state) : Prop :=
  match g with
  | GenCreated _ _ limit _ => limit = k
  | GenSuspended f _ _ => f_limit f = k /\ f_is_limited f = true /\ 0 <= f_count f < k
  | GenDone => True
  end.

(** How many items a generator under the limit [k] can still yield. *)
Definition yields_left (k : Z) (g : gen_state) : nat :=
  match g with
  | GenCreated _ _ _ _ => Z.to_nat k
  | GenSuspended f _ _ => Z.to_nat (k - 1 - f_count f)
  | GenDone => O
  end.

(** How a generator that has just yielded relates to what it was: a
    created one is suspended in its first frame, having sent a request
    ([loud]); a suspended one has counted the item before, was not at its
    limit, and either stays on its page, having sent nothing ([quiet]), or
    is on the next one, having sent a request. *)
Definition pulled (self : Magento) (g g' : gen_state) (quiet loud : Prop) : Prop :=
  match g with
  | GenCreated path _ limit retry =>
    loud /\
    exists l tc rest, g' = GenSuspended (first_frame self path limit retry l) tc rest
  | GenSuspended f _ _ =>
    (f_is_limited f && (f_limit f <=? f_count f + 1)) = false /\
    exists tc rest,
      (g' = GenSuspended (set_count f (f_count f + 1)) tc rest /\ quiet) \/
      (g' = GenSuspended (set_current_page (set_count f (f_count f + 1))
                                           (f_current_page f + 1)) tc rest /\ loud)
  | GenDone => False
  end.

(** ** More Python operations on JSON values *)

(** [v[k]] for a string [k]: only a dict can be indexed by a string. *)
Definition py_getitem (v : JSON) (k : string) : result JSON :=
  match v with
  | JObj o => match obj_get k o with Some x => Ok x | None => Raise (KeyError k) end
  | _ => Raise TypeError
  end.

(** [v == s] for a string [s]. *)
Definition py_eq_str (v : JSON) (s : string) : bool :=
  match v with JStr s' => String.eqb s' s | _ => false end.

(** [d[k] = v] on a dict in key order: the value of a key that is there is
    replaced in place, a new key goes to the end. *)
Fixpoint obj_set (k : string) (v : JSON) (o : list (string * JSON)) : list (string * JSON) :=
  match o with
  | [] => [(k, v)]
  | (k', v') :: o' => if String.eqb k k' then (k, v) :: o' else (k', v') :: obj_set k v o'
  end.

(** [base.update(other)] *)
Definition obj_update (base other : list (string * JSON)) : list (string * JSON) :=
  fold_left (fun acc kv => obj_set kv.1 kv.2 acc) other base.

(** A dict key can be a scalar; as keys, [True] is [1] and [False] is [0]. *)
Definition py_hashable (v : JSON) : bool :=
  match v with JArr _ | JObj _ => false | _ => true end.

Definition py_key_eqb (a b : JSON) : bool :=
  match a, b with
  | JNull, JNull => true
  | JStr s, JStr s' => String.eqb s s'
  | JNum n, JNum m => n =? m
  | JBool x, JBool y => Bool.eqb x y
  | JBool x, JNum n | JNum n, JBool x => n =? (if x then 1 else 0)
  | _, _ => false
  end.

(** A dict with scalar keys, newest binding of a key first. *)
Fixpoint key_get (k : JSON) (d : list (JSON * JSON)) : option JSON :=
  match d with
  | [] => None
  | (k', v) :: d' => if py_key_eqb k k' then Some v else key_get k d'
  end.

(** The key as it shows in a [KeyError]. *)
Definition key_name (k : JSON) : string :=
  match k with
  | JStr s => s
  | JNum n => pretty n
  | JBool true => "True"
  | JBool false => "False"
  | _ => "None"
  end.

(** ** [escape_path]

    [urllib.parse.quote(s, safe="")] on the bytes of [s]: letters, digits
    and [_ . - ~] stay, every other byte becomes [%XX] in upper-case
    hexadecimal. *)

Definition always_safe (c : ascii) : bool :=
  let n := N_of_ascii c in
  ((65 <=? n) && (n <=? 90) || (97 <=? n) && (n <=? 122) || (48 <=? n) && (n <=? 57)
   || (n =? 95) || (n =? 46) || (n =? 45) || (n =? 126))%N.

Definition hex_digit (n : N) : ascii :=
  if (n <? 10)%N then ascii_of_N (48 + n) else ascii_of_N (55 + n).

Definition percent_encode (c : ascii) : string :=
  let n := N_of_ascii c in
  String "%" (String (hex_digit (n / 16)) (String (hex_digit (n mod 16)) EmptyString)).

Fixpoint urlquote (s : string) : string :=
  match s with
  | EmptyString => EmptyString
  | String c s' =>
    (if always_safe c then String c EmptyString else percent_encode c) +:+ urlquote s'
  end.

Definition escape_path (sku : string) : string := urlquote sku.

(** [urllib.parse.unquote] on bytes, the decoding the server applies. *)
Definition hex_value (c : ascii) : option N :=
  let n := N_of_ascii c in
  if ((48 <=? n) && (n <=? 57))%N then Some (n - 48)%N
  else if ((65 <=? n) && (n <=? 70))%N then Some (n - 55)%N
  else if ((97 <=? n) && (n <=? 102))%N then Some (n - 87)%N
  else None.

Fixpoint unquote (s : string) : string :=
  match s with
  | EmptyString => EmptyString
  | String c s' =>
    if Ascii.eqb c "%" then
      match s' with
      | String h (String l rest) =>
        match hex_value h, hex_value l with
        | Some a, Some b => String (ascii_of_N (16 * a + b)) (unquote rest)
        | _, _ => String c (unquote s')
        end
      | _ => String c (unquote s')
      end
    else String c (unquote s')
  end.

(** An id that goes in a path: [PathId = Union[int, str]], formatted as an
    f-string does. *)
Inductive PathId : Type :=
| IdInt (n : Z)
| IdStr (s : string).

Definition format_id (i : PathId) : string :=
  match i with IdInt n => pretty n | IdStr s => s end.

(** ** Calls that carry a JSON body

    The keyword arguments of a call ([json=...]) go unchanged to every
    attempt: [handle_json body] is the session answering a request sent
    with [body]; the GET calls of the paginator are [handle_json None].
    As for the paginator, the session answers every request with a
    response. *)

Definition DEFAULT_ATTRIBUTE_DICT : list (string * JSON) :=
  [("apply_to", JArr []);
   ("backend_type", JStr "int");
   ("custom_attributes", JArr []);
   ("entity_type_id", JStr "4");
   ("extension_attributes", JObj []);
   ("frontend_input", JStr "select");
   ("is_comparable", JBool false);
   ("is_filterable", JBool false);
   ("is_filterable_in_grid", JBool false);
   ("is_filterable_in_search", JBool false);
   ("is_html_allowed_on_front", JBool false);
   ("is_required", JBool false);
   ("is_searchable", JBool false);
   ("is_unique", JBool false);
   ("is_used_for_promo_rules", JBool false);
   ("is_used_in_grid", JBool false);
   ("is_user_defined", JBool true);
   ("is_visible", JBool true);
   ("is_visible_in_advanced_search", JBool false);
   ("is_visible_in_grid", JBool false);
   ("is_visible_on_front", JBool true);
   ("is_wysiwyg_enabled", JBool false);
   ("note", JStr "");
   ("position", JNum 0);
   ("scope", JStr "global");
   ("used_for_sort_by", JBool false);
   ("used_in_product_listing", JBool false);
   ("validation_rules", JArr [])].

Section Calls.

Variable St : Type.
Variable handle_json : option JSON -> Request -> St -> Response * St.

(** The same for a body that is a dict object of the store, sent as it is
    at the time of the call. *)
Variable handle_dict : dict -> Request -> St -> Response * St.

Notation "x <~ m ;; k" := (bind m (fun x => k))
  (at level 100, m at next level, right associativity).
Notation "m ;;; k" := (bind m (fun _ => k))
  (at level 100, right associativity).

(** [APISession.post_api], [put_api] and [delete_api] are
    [self.request_api] with the method. *)
Definition post_api (self : Magento) (path : string) (json : option JSON)
    (async_bulk throw : bool) (retry : Z) : M St Response :=
  request_api (handle_json json) self "post" path None async_bulk throw retry.

Definition put_api (self : Magento) (path : string) (json : option JSON)
    (async_bulk throw : bool) (retry : Z) : M St Response :=
  request_api (handle_json json) self "put" path None async_bulk throw retry.

Definition delete_api (self : Magento) (path : string) (throw : bool) (retry : Z)
    : M St Response :=
  request_api (handle_json None) self "delete" path None false throw retry.

(** Lifting a pure result into the monad. *)
Definition lift {A : Type} (r : result A) : M St A := fun w => (r, w).

(** [Magento.save_attribute] *)
Definition attribute_payload (with_defaults : bool) (attribute : list (string * JSON))
    : list (string * JSON) :=
  if with_defaults then obj_update DEFAULT_ATTRIBUTE_DICT attribute else attribute.

Definition save_attribute (self : Magento) (attribute : list (string * JSON))
    (with_defaults throw : bool) (retry : Z) : M St JSON :=
  let attribute := attribute_payload with_defaults attribute in
  r <~ post_api self "/V1/products/attributes"
                (Some (JObj [("attribute", JObj attribute)])) false throw retry ;;
  response_json r.

(** [payload.setdefault(k, v)] and the value of a dict object. *)
Definition dict_setdefault (l : loc) (k : string) (v : JSON) : M St unit :=
  fun w => match dict_read l (w_heap w) !! k with
           | Some _ => (Ok tt, w)
           | None => dict_set l k v w
           end.

Definition dict_value (l : loc) : M St dict :=
  fun w => (Ok (dict_read l (w_heap w)), w).

(** [Magento.create_order_invoice]: [post_api(path, json=payload,
    throw=True)] with the dict object [payload] as the body. *)
Definition create_order_invoice (self : Magento) (order_id : PathId)
    (payload : option loc) (notify : bool) : M St JSON :=
  payload <~ match payload with
             | Some l => ret l
             | None => dict_alloc ∅
             end ;;
  dict_setdefault payload "notify" (JBool notify) ;;;
  body <~ dict_value payload ;;
  r <~ request_api (handle_dict body) self "post"
         ("/V1/order/" +:+ format_id order_id +:+ "/invoice") None false true 0 ;;
  response_json r.

(** [Magento.save_order] and [Magento.set_order_status] *)
Definition save_order (self : Magento) (order : JSON) : M St Response :=
  post_api self "/V1/orders" (Some (JObj [("entity", order)])) false false 0.

Definition set_order_status (self : Magento) (order : JSON) (status : string)
    (external_order_id : option string) : M St Response :=
  entity_id <~ lift (py_getitem order "entity_id") ;;
  increment_id <~ lift (py_getitem order "increment_id") ;;
  let payload := [("entity_id", entity_id); ("status", JStr status);
                  ("increment_id", increment_id)] in
  let payload := match external_order_id with
                 | Some x => obj_set "ext_order_id" (JStr x) payload
                 | None => payload
                 end in
  save_order self (JObj payload).

(** [Magento.delete_product]: the [try] around the DELETE, then the body.
    Both exceptions it catches carry their response. *)
Definition delete_product (self : Magento) (sku : string)
    (skip_missing throw : bool) (retry : Z) : M St JSON :=
  fun w =>
    match delete_api self ("/V1/products/" +:+ escape_path sku) throw retry w with
    | (Ok response, w') => response_json response w'
    | (Raise e, w') =>
      match e with
      | HTTPError r | MagentoException _ _ _ r =>
        if skip_missing && (status_code r =? 404) then (Ok (JBool false), w')
        else (Raise e, w')
      | _ => (Raise e, w')
      end
    end.

End Calls.

Arguments post_api {St} _ _ _ _ _ _ _ _.
Arguments put_api {St} _ _ _ _ _ _ _ _.
Arguments delete_api {St} _ _ _ _ _ _.
Arguments lift {St A} _ _.
Arguments save_attribute {St} _ _ _ _ _ _ _.
Arguments dict_setdefault {St} _ _ _ _.
Arguments dict_value {St} _ _.
Arguments create_order_invoice {St} _ _ _ _ _ _.
Arguments save_order {St} _ _ _ _.
Arguments set_order_status {St} _ _ _ _ _ _.
Arguments delete_product {St} _ _ _ _ _ _ _.

(** ** Stores

    [get_json_api] is [APISession.get_json_api(path)] of the [api_session]
    library, a GET and the decoding of its answer; [py_repr] is [repr] on
    a [str]. *)

(** [for x in xs: if x["code"] == scope: return x[key]] *)
Fixpoint find_scope (scope key : string) (xs : list JSON) : result (option JSON) :=
  match xs with
  | [] => Ok None
  | x :: xs' =>
    match py_getitem x "code" with
    | Raise e => Raise e
    | Ok code =>
      if py_eq_str code scope then
        match py_getitem x key with
        | Raise e => Raise e
        | Ok v => Ok (Some v)
        end
      else find_scope scope key xs'
    end
  end.

(** The loop of [get_root_category_id] over the store groups: the root
    category of the group named [scope], or the dict built on the way. *)
Fixpoint root_categories (scope : string) (groups : list JSON) (seen : list (JSON * JSON))
    : result (JSON + list (JSON * JSON)) :=
  match groups with
  | [] => Ok (inr seen)
  | g :: groups' =>
    match py_getitem g "root_category_id" with
    | Raise e => Raise e
    | Ok root_category_id =>
      match py_getitem g "code" with
      | Raise e => Raise e
      | Ok code =>
        if py_eq_str code scope then Ok (inl root_category_id)
        else
          match py_getitem g "id" with
          | Raise e => Raise e
          | Ok id =>
            if py_hashable id then root_categories scope groups' ((id, root_category_id) :: seen)
            else Raise TypeError
          end
      end
    end
  end.

Section Stores.

Variable St : Type.
Variable get_json_api : Magento -> string -> M St JSON.
Variable py_repr : string -> string.

Notation "x <~ m ;; k" := (bind m (fun x => k))
  (at level 100, m at next level, right associativity).

Definition get_store_groups (self : Magento) : M St JSON :=
  get_json_api self "/V1/store/storeGroups".

Definition get_store_views (self : Magento) : M St JSON :=
  get_json_api self "/V1/store/storeViews".

Definition get_websites (self : Magento) : M St JSON :=
  get_json_api self "/V1/store/websites".

(** One of the three loops of [get_current_store_group_id] over a decoded
    answer. *)
Definition scan (scope key : string) (v : JSON) : M St (option JSON) :=
  match py_iter v with
  | None => raise TypeError
  | Some xs => lift (find_scope scope key xs)
  end.

(** [Magento.get_current_store_group_id] *)
Definition get_current_store_group_id (self : Magento) (skip_store_groups : bool)
    : M St JSON :=
  found <~ (if skip_store_groups then ret None
            else store_groups <~ get_store_groups self ;;
                 scan (scope self) "id" store_groups) ;;
  match found with
  | Some id => ret id
  | None =>
    websites <~ get_websites self ;;
    found <~ scan (scope self) "default_group_id" websites ;;
    match found with
    | Some id => ret id
    | None =>
      views <~ get_store_views self ;;
      found <~ scan (scope self) "store_group_id" views ;;
      match found with
      | Some id => ret id
      | None =>
        raise (RuntimeError ("Can't determine the store group id of scope "
                             +:+ py_repr (scope self)))
      end
    end
  end.

(** [Magento.get_root_category_id] *)
Definition get_root_category_id (self : Magento) : M St JSON :=
  store_groups <~ get_store_groups self ;;
  match py_iter store_groups with
  | None => raise TypeError
  | Some store_groups =>
    r <~ lift (root_categories (scope self) store_groups []) ;;
    match r with
    | inl root_category_id => ret root_category_id
    | inr store_group_root_category_id =>
      id <~ get_current_store_group_id self true ;;
      if py_hashable id then
        match key_get id store_group_root_category_id with
        | Some root_category_id => ret root_category_id
        | None => raise (KeyError (key_name id))
        end
      else raise TypeError
    end
  end.

End Stores.

Arguments get_store_groups {St} _ _ _.
Arguments get_store_views {St} _ _ _.
Arguments get_websites {St} _ _ _.
Arguments scan {St} _ _ _ _.
Arguments get_current_store_group_id {St} _ _ _ _ _.
Arguments get_root_category_id {St} _ _ _ _.

(** ** Source items

    [make_search_query] is the query builder of [magento.queries]: it
    returns a new dict for a list of filter groups. *)

(** [[{"sku": s["sku"], "source_code": s["source_code"]} for s in source_items]] *)
Fixpoint source_item_keys (source_items : list JSON) : result (list JSON) :=
  match source_items with
  | [] => Ok []
  | s :: rest =>
    match py_getitem s "sku" with
    | Raise e => Raise e
    | Ok sku =>
      match py_getitem s "source_code" with
      | Raise e => Raise e
      | Ok source_code =>
        match source_item_keys rest with
        | Raise e => Raise e
        | Ok l => Ok (JObj [("sku", sku); ("source_code", source_code)] :: l)
        end
      end
    end
  end.

Section SourceItems.

Variable St : Type.
Variable handle_json : option JSON -> Request -> St -> Response * St.
Variable make_search_query : list (list (string * string * string)) -> dict.

Notation "x <~ m ;; k" := (bind m (fun x => k))
  (at level 100, m at next level, right associativity).

(** [Magento.get_source_items]: an ordinary function, the query is built
    when it is called. *)
Definition get_source_items (source_code sku : option string)
    (skus : option (list string)) (query : option loc) (limit retry : Z)
    : M St gen_state :=
  let has_skus := match skus with Some (_ :: _) => true | _ => false end in
  if str_truthy source_code || str_truthy sku || has_skus then
    let by_source := if str_truthy source_code
                     then [[("source_code", default "" source_code, "eq")]]
                     else [] in
    let by_sku := if str_truthy sku then [[("sku", default "" sku, "eq")]]
                  else if has_skus
                       then [[("sku", String.concat "," (default [] skus), "in")]]
                       else [] in
    query <~ dict_alloc (make_search_query (by_source ++ by_sku)) ;;
    ret (get_paginated "/V1/inventory/source-items" (Some query) limit retry)
  else ret (get_paginated "/V1/inventory/source-items" query limit retry).

(** [Magento.save_source_items]; [JNull] is Python's [None]. *)
Definition save_source_items (self : Magento) (source_items : list JSON) : M St JSON :=
  match source_items with
  | [] => ret JNull
  | _ =>
    r <~ post_api handle_json self "/V1/inventory/source-items"
           (Some (JObj [("sourceItems", JArr source_items)])) false true 0 ;;
    response_json r
  end.

(** [Magento.delete_source_items] *)
Definition delete_source_items (self : Magento) (source_items : list JSON)
    (throw : bool) (retry : Z) : M St Response :=
  items <~ lift (source_item_keys source_items) ;;
  post_api handle_json self "/V1/inventory/source-items-delete"
    (Some (JObj [("sourceItems", JArr items)])) false throw retry.

(** [[{"sku": item["sku"], "source_code": "default"} for item in g]],
    given [fuel] calls of [next]: [None] when the fuel runs out. *)
Fixpoint default_source_items (self : Magento) (fuel : nat) (g : gen_state)
    : M St (option (list JSON)) :=
  match fuel with
  | O => ret None
  | S fuel' =>
    fun w =>
      match gen_next (handle_json None) self g w with
      | (Yielded item, g', w') =>
        (sku <~ lift (py_getitem item "sku") ;;
         rest <~ default_source_items self fuel' g' ;;
         ret (option_map (cons (JObj [("sku", sku); ("source_code", JStr "default")])) rest)) w'
      | (StopIteration, _, w') => (Ok (Some []), w')
      | (Raised e, _, w') => (Raise e, w')
      end
  end.

(** [Magento.delete_default_source_items]: the response of the delete
    call, or [None] when there is no default source item; the outer
    [option] is [None] when [fuel] did not suffice. *)
Definition delete_default_source_items (self : Magento) (fuel : nat)
    : M St (option (option Response)) :=
  default_source_items_gen <~ get_source_items (Some "default") None None None (-1) 0 ;;
  source_items <~ default_source_items self fuel default_source_items_gen ;;
  match source_items with
  | None => ret None
  | Some [] => ret (Some None)
  | Some source_items =>
    r <~ delete_source_items self source_items true 0 ;;
    ret (Some (Some r))
  end.

End SourceItems.

Arguments get_source_items {St} _ _ _ _ _ _ _ _.
Arguments save_source_items {St} _ _ _ _.
Arguments delete_source_items {St} _ _ _ _ _ _.
Arguments default_source_items {St} _ _ _ _ _.
Arguments delete_default_source_items {St} _ _ _ _ _.

(** ** Entries of the store listings

    An entry whose [code] is there and is not [scope], one whose [code] is
    [scope], and a store group outside [scope] that gives the dict of
    [get_root_category_id] the binding [e]. *)

Definition other_scope (scope : string) (x : JSON) : Prop :=
  exists code, py_getitem x "code" = Ok code /\ py_eq_str code scope = false.

Definition in_scope (scope : string) (x : JSON) : Prop :=
  exists code, py_getitem x "code" = Ok code /\ py_eq_str code scope = true.

Definition group_entry (scope : string) (g : JSON) (e : JSON * JSON) : Prop :=
  py_getitem g "root_category_id" = Ok e.2 /\
  other_scope scope g /\
  py_getitem g "id" = Ok e.1 /\
  py_hashable e.1 = true.

(** ** Example stock and store listings *)

Module Shop.

(** The source items of the default source. *)
Definition default_items : list JSON :=
  [JObj [("sku", JStr "A1"); ("source_code", JStr "default"); ("quantity", JNum 3)];
   JObj [("sku", JStr "B/2"); ("source_code", JStr "default"); ("quantity", JNum 0)];
   JObj [("sku", JStr "C3"); ("source_code", JStr "default"); ("quantity", JNum 7)]].

(** A server that pages [default_items] on a GET and accepts any body. *)
Definition stock_server (body : option JSON) : Request -> unit -> Response * unit :=
  match body with
  | None => Servers.db_server default_items
  | Some _ => Servers.const_server Servers.success
  end.

(** A query builder that keeps the first filter of the first group. *)
Definition one_filter_query (groups : list (list (string * string * string))) : dict :=
  match groups with
  | ((field, value, condition) :: _) :: _ =>
    {["searchCriteria[filter_groups][0][filters][0][field]" := JStr field;
      "searchCriteria[filter_groups][0][filters][0][value]" := JStr value;
      "searchCriteria[filter_groups][0][filters][0][condition_type]" := JStr condition]}
  | _ => ∅
  end.

(** A server that answers every request, whatever its body, with [r]. *)
Definition answer (r : Response) (body : option JSON) : Request -> unit -> Response * unit :=
  Servers.const_server r.

Definition answer_dict (r : Response) (body : dict) : Request -> unit -> Response * unit :=
  Servers.const_server r.

(** A server that fails every request. *)
Definition down (req : Request) (st : unit) : Response * unit := (Servers.unavailable, st).

Definition store_groups : JSON :=
  JArr [JObj [("id", JNum 1); ("code", JStr "main"); ("root_category_id", JNum 2)];
        JObj [("id", JNum 2); ("code", JStr "outlet"); ("root_category_id", JNum 5)]].

Definition websites : JSON :=
  JArr [JObj [("id", JNum 0); ("code", JStr "admin"); ("default_group_id", JNum 0)];
        JObj [("id", JNum 1); ("code", JStr "base"); ("default_group_id", JNum 1)]].

Definition store_views : JSON :=
  JArr [JObj [("id", JNum 1); ("code", JStr "default"); ("store_group_id", JNum 1)];
        JObj [("id", JNum 2); ("code", JStr "outlet_fr"); ("store_group_id", JNum 2)]].

(** A [get_json_api] that serves the three listings and records the path
    asked. *)
Definition store_api (self : Magento) (path : string) : M unit JSON :=
  fun w =>
    (Ok (if String.eqb path "/V1/store/storeGroups" then store_groups
         else if String.eqb path "/V1/store/websites" then websites
         else if String.eqb path "/V1/store/storeViews" then store_views
         else JNull),
     {| w_server := w_server w; w_heap := w_heap w;
        w_trace := w_trace w ++ [EvLog (LogRequest "get" path)] |}).

(** The world after [store_api] was asked for [paths]. *)
Definition asked (paths : list string) : world unit :=
  {| w_server := tt; w_heap := ∅;
     w_trace := map (fun path => EvLog (LogRequest "get" path)) paths |}.

(** [repr] of a string without quotes or escapes. *)
Definition repr (s : string) : string := "'" +:+ s +:+ "'".

Definition client_of (scope : string) : Magento :=
  {| base_url := "https://shop.example"; scope := scope; token := "secret";
     user_agent := "test"; read_only := false; logger := false; PAGE_SIZE := 2 |}.

Definition read_only_client : Magento :=
  {| base_url := "https://shop.example"; scope := "all"; token := "secret";
     user_agent := "test"; read_only := true; logger := false; PAGE_SIZE := 2 |}.

(** A world where the caller holds an invoice payload at location 1. *)
Definition invoice_world : world unit :=
  {| w_server := tt; w_heap := {[1%positive := {["capture" := JBool true]}]};
     w_trace := [] |}.

Definition an_order : JSON :=
  JObj [("entity_id", JNum 12); ("increment_id", JStr "000000012");
        ("status", JStr "pending")].

Definition some_args : init_args :=
  {| arg_token := Some "secret"; arg_base_url := None; arg_scope := Some "";
     arg_logger := false; arg_read_only := true; arg_user_agent := None;
     arg_batch_page_size := Some 50 |}.

Definition an_environ : gmap string string :=
  {["PYMAGENTO_TOKEN" := "other"; "PYMAGENTO_BASE_URL" := "https://shop.example";
    "PYMAGENTO_SCOPE" := "fr"]}.

End Shop.

(** * Properties

    ** The request executor *)

Section RequestExecutor.

Context {St : Type}.
Variable handle : Request -> St -> Response * St.

Lemma ok_2xx (r : Response) : 200 <= status_code r < 300 -> ok r = true.
Proof.
  intros H. unfold ok, is_error_status.
  destruct (Z.leb_spec 400 (status_code r)); [lia | reflexivity].
Qed.

Lemma raise_for_response_world (r : Response) (w : world St) :
  (raise_for_response r w).2 = w.
Proof.
  unfold raise_for_response.
  destruct (ok r); [reflexivity|].
  destruct (starts_with_brace (text r)); [|reflexivity].
  destruct (json r) as [[]|]; try reflexivity.
  destruct (obj_get "message" o); reflexivity.
Qed.

Lemma raise_for_response_ok (r : Response) (w : world St) :
  ok r = true -> raise_for_response r w = (Ok tt, w).
Proof. intros H. unfold raise_for_response. rewrite H. reflexivity. Qed.

Lemma refused_get (self : Magento) : refused self "get" = false.
Proof. unfold refused. apply andb_false_r. Qed.

Lemma super_request_api_spec self method full_path params (w : world St) :
  refused self method = false ->
  let req := session_request self method full_path params (w_heap w) in
  super_request_api handle self method full_path params w =
    (Ok (handle req (w_server w)).1,
     {| w_server := (handle req (w_server w)).2; w_heap := w_heap w;
        w_trace := w_trace w ++ [EvHttp req (handle req (w_server w)).1] |}).
Proof.
  intros Hacc req. unfold super_request_api. rewrite Hacc. fold req.
  destruct (handle req (w_server w)); reflexivity.
Qed.

(** A write by a read-only client: the line is logged, then the session
    refuses the call; nothing is sent. *)
Lemma request_api_refused self method path params async_bulk throw retry (w : world St) :
  String.prefix "/V1/" path = true ->
  refused self method = true ->
  request_api handle self method path params async_bulk throw retry w
  = (Raise AssertionError,
     {| w_server := w_server w; w_heap := w_heap w;
        w_trace := w_trace w
          ++ (if logger self
              then [EvLog (LogRequest method (full_path_of self async_bulk path))]
              else []) |}).
Proof.
  intros Hpath Href. unfold request_api. rewrite Hpath. simpl.
  unfold bind at 1. unfold when. destruct (logger self); simpl.
  - unfold bind at 1. unfold super_request_api. rewrite Href. reflexivity.
  - unfold bind at 1. unfold ret at 1. unfold super_request_api. rewrite Href.
    rewrite app_nil_r. destruct w; reflexivity.
Qed.

Lemma last_cons (A : Type) (l : list A) (x d : A) :
  List.last (x :: l) d = List.last l x.
Proof.
  revert x d. induction l as [|y l IH]; intros x d; [reflexivity|].
  change (List.last (x :: y :: l) d) with (List.last (y :: l) d).
  rewrite (IH y d), (IH y x). reflexivity.
Qed.

Lemma retry_loop_spec self method full_path params :
  refused self method = false ->
  forall (n : nat) (r0 : Response) (w : world St),
  exists (rs : list Response) (w' : world St),
    retry_loop handle self method full_path params n r0 w = (Ok (List.last rs r0), w') /\
    serve_seq St handle (session_request self method full_path params (w_heap w))
              (length rs) (w_server w) = (rs, w_server w') /\
    w_heap w' = w_heap w /\
    w_trace w' = w_trace w ++
                 retries (session_request self method full_path params (w_heap w)) rs /\
    (length rs <= n)%nat /\
    Forall (fun r => ok r = false) (removelast (r0 :: rs)) /\
    (ok (List.last rs r0) = true \/ length rs = n).
Proof.
  intros Hacc. induction n as [|n IH]; intros r0 w.
  - exists [], w. simpl. rewrite app_nil_r. repeat split; auto.
  - simpl. destruct (ok r0) eqn:Hok.
    + exists [], w. simpl. rewrite app_nil_r. repeat split; auto. lia.
    + unfold bind at 1. simpl. unfold bind at 1.
      rewrite super_request_api_spec by exact Hacc. simpl.
      set (req := session_request self method full_path params (w_heap w)).
      set (r1 := (handle req (w_server w)).1).
      set (w1 := {| w_server := (handle req (w_server w)).2; w_heap := w_heap w;
                    w_trace := (w_trace w ++ [EvSleep 10]) ++ [EvHttp req r1] |}).
      destruct (IH r1 w1) as (rs & w' & Hrun & Hsrv & Hheap & Htr & Hlen & Hfail & Hlast).
      exists (r1 :: rs), w'. 
      change (w_heap w1) with (w_heap w) in *. fold req in Hsrv, Htr.
      split; [rewrite Hrun, last_cons; reflexivity|].
      split.
      { simpl. unfold r1. destruct (handle req (w_server w)) as [r st] eqn:Hh. simpl in *.
        rewrite Hsrv. reflexivity. }
      split; [exact Hheap|].
      split; [rewrite Htr; simpl; rewrite <- !app_assoc; reflexivity|].
      split; [simpl; lia|].
      split.
      { change (removelast (r0 :: r1 :: rs)) with (r0 :: removelast (r1 :: rs)).
        constructor; [exact Hok|]. exact Hfail. }
      rewrite last_cons.
      destruct Hlast as [Hl | Hl]; [left; exact Hl | right; simpl; lia].
Qed.

(** C5, amended. For a retry count [retry >= 0], a path under [/V1/] and
    whatever the server answers. When the session accepts the call (the
    client is not read-only, or the method is a read method),
    [request_api] makes one first attempt and then retries: the attempts
    are the server's answers [r0 :: rs] to [S (length rs)] sends of the
    same request, with [S (length rs) <= retry + 1]; the trace is the
    first attempt followed, for each retry, by a sleep of 10 and the
    attempt; every attempt but the last was an error response (a status in
    400..599), hence none of them was a 2xx response, so a success is never
    retried and the run stops at the first response that is not an error
    or when the count is used up; with [retry = 0], or a first response
    that is not an error, there is no retry; the last response is returned
    when it is not an error (or when [throw] is off). When the session
    refuses the call (a write by a read-only client), [AssertionError] is
    raised after the log line: nothing is sent, nothing is slept. *)
Theorem request_api_retry_policy
    (self : Magento) (method path : string) (params : option loc)
    (async_bulk throw : bool) (retry : Z) (w : world St) :
  0 <= retry ->
  String.prefix "/V1/" path = true ->
  let req := api_request St self method path params async_bulk w in
  let log := if logger self
             then [EvLog (LogRequest method (full_path_of self async_bulk path))]
             else [] in
  (refused self method = false ->
   exists (r0 : Response) (rs : list Response) (res : result Response) (w' : world St),
     request_api handle self method path params async_bulk throw retry w = (res, w') /\
     serve_seq St handle req (S (length rs)) (w_server w) = (r0 :: rs, w_server w') /\
     w_trace w' = w_trace w ++ log ++ EvHttp req r0 :: retries req rs /\
     sleeps (retries req rs) = repeat 10 (length rs) /\
     Z.of_nat (S (length rs)) <= retry + 1 /\
     Forall (fun r => ok r = false) (removelast (r0 :: rs)) /\
     Forall (fun r => ~ (200 <= status_code r < 300)) (removelast (r0 :: rs)) /\
     (ok (List.last rs r0) = true \/ Z.of_nat (length rs) = retry) /\
     (retry = 0 -> rs = []) /\
     (ok r0 = true -> rs = []) /\
     (ok (List.last rs r0) = true \/ throw = false -> res = Ok (List.last rs r0))) /\
  (refused self method = true ->
   request_api handle self method path params async_bulk throw retry w
   = (Raise AssertionError,
      {| w_server := w_server w; w_heap := w_heap w; w_trace := w_trace w ++ log |})).
Proof.
  intros Hretry Hpath req log.
  split; [|intros Href; apply request_api_refused; assumption].
  intros Hacc.
  unfold request_api. rewrite Hpath. simpl.
  set (full_path := full_path_of self async_bulk path).
  set (w0 := {| w_server := w_server w; w_heap := w_heap w;
                w_trace := w_trace w ++ log |}).
  assert (Hlog : when (logger self) (emit (EvLog (LogRequest method full_path))) w
                 = (Ok tt, w0)).
  { unfold when, log, w0. destruct (logger self); simpl.
    - reflexivity.
    - unfold ret. rewrite app_nil_r. destruct w; reflexivity. }
  unfold bind at 1. rewrite Hlog.
  unfold bind at 1. rewrite super_request_api_spec by exact Hacc.
  change (session_request self method full_path params (w_heap w0)) with req.
  change (w_server w0) with (w_server w).
  set (r0 := (handle req (w_server w)).1).
  set (w1 := {| w_server := (handle req (w_server w)).2; w_heap := w_heap w0;
                w_trace := w_trace w0 ++ [EvHttp req r0] |}).
  destruct (retry_loop_spec self method full_path params Hacc (Z.to_nat retry) r0 w1)
    as (rs & w' & Hrun & Hsrv & Hheap & Htr & Hlen & Hfail & Hlast).
  change (session_request self method full_path params (w_heap w1)) with req in *.
  unfold bind at 1. rewrite Hrun.
  exists r0, rs.
  exists (bind (when throw (raise_for_response (List.last rs r0)))
               (fun _ => ret (List.last rs r0)) w').1, w'.
  split.
  { unfold bind. destruct throw; simpl; [|reflexivity].
    pose proof (raise_for_response_world (List.last rs r0) w') as Hw.
    destruct (raise_for_response (List.last rs r0) w') as [[[]|e] w'']; simpl in *;
      subst; reflexivity. }
  split.
  { simpl. unfold r0 in *. destruct (handle req (w_server w)) as [r st]; simpl in *.
    rewrite Hsrv. reflexivity. }
  split; [rewrite Htr; simpl; rewrite <- !app_assoc; reflexivity|].
  split.
  { clear. induction rs as [|r rs IH]; simpl; [reflexivity|]. f_equal. exact IH. }
  split; [lia|].
  split; [exact Hfail|].
  split.
  { eapply Forall_impl; [exact Hfail|]. intros r Hr H2xx.
    pose proof (ok_2xx r H2xx) as Hokr. simpl in Hr. congruence. }
  split; [destruct Hlast; [left; assumption | right; lia]|].
  split; [intros ->; destruct rs; [reflexivity | simpl in Hlen; lia]|].
  split.
  { intros Hok0. destruct rs as [|r1 rs]; [reflexivity|].
    change (removelast (r0 :: r1 :: rs)) with (r0 :: removelast (r1 :: rs)) in Hfail.
    inversion Hfail; congruence. }
  intros [Hok | ->]; unfold bind; simpl; [|reflexivity].
  destruct throw; simpl; [|reflexivity].
  rewrite raise_for_response_ok by exact Hok. reflexivity.
Qed.

End RequestExecutor.

(** ** The error mapping *)

Section ErrorMapping.

Context {St : Type}.

(** C6, amended. A response that [requests] counts as a success (any
    status outside 400..599, so every 2xx status) raises nothing. A failed
    response whose text begins with an opening brace and decodes to a
    JSON object with a top-level "message" raises a [MagentoException]
    with that message, the "parameters" and "trace" fields ([None] when
    missing) and the response. Every other failed response raises the
    generic [HTTPError] carrying the response. *)
Theorem raise_for_response_mapping (r : Response) (w : world St) :
  (200 <= status_code r < 300 -> raise_for_response r w = (Ok tt, w)) /\
  (ok r = true -> raise_for_response r w = (Ok tt, w)) /\
  (ok r = false ->
   starts_with_brace (text r) = true ->
   forall body message,
     json r = Some (JObj body) ->
     obj_get "message" body = Some message ->
     raise_for_response r w =
       (Raise (MagentoException message
                 (default JNull (obj_get "parameters" body))
                 (default JNull (obj_get "trace" body)) r), w)) /\
  (ok r = false ->
   ~ (starts_with_brace (text r) = true /\
      exists body message,
        json r = Some (JObj body) /\ obj_get "message" body = Some message) ->
   raise_for_response r w = (Raise (HTTPError r), w)).
Proof.
  split; [intros H; apply raise_for_response_ok, ok_2xx, H|].
  split; [apply raise_for_response_ok|].
  split.
  - intros Hok Hbrace body message Hjson Hmsg.
    unfold raise_for_response. rewrite Hok, Hbrace, Hjson, Hmsg. reflexivity.
  - intros Hok Hnot. unfold raise_for_response. rewrite Hok.
    destruct (starts_with_brace (text r)) eqn:Hbrace; [|reflexivity].
    destruct (json r) as [[| | | | |body]|] eqn:Hjson; try reflexivity.
    destruct (obj_get "message" body) as [message|] eqn:Hmsg; [|reflexivity].
    exfalso. apply Hnot. split; [reflexivity|]. exists body, message. auto.
Qed.

End ErrorMapping.

Lemma raise_for_response_mapping_witness :
  raise_for_response (Servers.json_response 422 Servers.sku_not_found)
                     (Servers.init_world tt) =
    (Raise (MagentoException (JStr "SKU not found") (JArr [JStr "X1"]) JNull
              (Servers.json_response 422 Servers.sku_not_found)),
     Servers.init_world tt)
  /\ raise_for_response (Servers.plain_response 500 "Internal Server Error")
                        (Servers.init_world tt) =
       (Raise (HTTPError (Servers.plain_response 500 "Internal Server Error")),
        Servers.init_world tt)
  /\ raise_for_response (Servers.json_response 200 (JArr [])) (Servers.init_world tt) =
       (Ok tt, Servers.init_world tt).
Proof.
  split; [|split].
  - apply (proj1 (proj2 (proj2 (raise_for_response_mapping
             (Servers.json_response 422 Servers.sku_not_found) (Servers.init_world tt))))
             eq_refl eq_refl
             [("message", JStr "SKU not found"); ("parameters", JArr [JStr "X1"])]
             (JStr "SKU not found") eq_refl eq_refl).
  - apply (proj2 (proj2 (proj2 (raise_for_response_mapping
             (Servers.plain_response 500 "Internal Server Error") (Servers.init_world tt))))
             eq_refl).
    intros [H _]. discriminate H.
  - apply (proj1 (raise_for_response_mapping
             (Servers.json_response 200 (JArr [])) (Servers.init_world tt))).
    simpl. lia.
Defined.

(** C6 as stated fails twice. A 422 response whose body is a JSON object
    with a "message", sent with a blank before the brace, raises the
    generic error, not the structured one; and a 304 response, which is not
    2xx, raises nothing. *)
Lemma raise_for_response_not_every_message_body :
  ~ (forall (r : Response) (w : world unit) body message,
       ~ (200 <= status_code r < 300) ->
       json r = Some (JObj body) ->
       obj_get "message" body = Some message ->
       raise_for_response r w =
         (Raise (MagentoException message
                   (default JNull (obj_get "parameters" body))
                   (default JNull (obj_get "trace" body)) r), w))
  /\ ~ (forall (r : Response) (w : world unit),
          ~ (200 <= status_code r < 300) ->
          exists e, raise_for_response r w = (Raise e, w)).
Proof.
  split.
  - intros H.
    specialize (H (Servers.padded_json_response 422 Servers.sku_not_found)
                  (Servers.init_world tt)
                  [("message", JStr "SKU not found"); ("parameters", JArr [JStr "X1"])]
                  (JStr "SKU not found")).
    simpl in H. discriminate H; [lia | reflexivity | reflexivity].
  - intros H.
    destruct (H (Servers.plain_response 304 "") (Servers.init_world tt)) as [e He].
    + simpl. lia.
    + discriminate He.
Qed.

(** ** The constructor *)

Lemma py_or_None (a b : option string) :
  py_or a b = None <-> str_truthy a = false /\ b = None.
Proof.
  unfold py_or. destruct (str_truthy a) eqn:Ha.
  - destruct a; [|discriminate Ha]. split; [discriminate | intros [? _]; discriminate].
  - tauto.
Qed.

(** C8, amended. The token and the base URL, each resolved from the
    argument or else from the environment, are mandatory: a missing token
    makes the constructor raise "Missing API token", and a missing base URL
    "Missing API base URL". The constructor is a function of its arguments
    and the environment alone, so it fails before any HTTP call. The scope
    is not mandatory: when both others are present the client is built,
    with the token as given and the base URL without its trailing slashes,
    and an absent scope becomes "all". *)
Theorem Magento_init_mandatory (version : string) (environ : gmap string string)
    (a : init_args) :
  let given_token := py_or (arg_token a) (environ !! "PYMAGENTO_TOKEN") in
  let given_url := py_or (arg_base_url a) (environ !! "PYMAGENTO_BASE_URL") in
  let given_scope := py_or (arg_scope a) (environ !! "PYMAGENTO_SCOPE") in
  (given_token = None ->
   Magento_init version environ a = Raise (RuntimeError "Missing API token")) /\
  (given_token <> None -> given_url = None ->
   Magento_init version environ a = Raise (RuntimeError "Missing API base URL")) /\
  (forall t u, given_token = Some t -> given_url = Some u ->
   exists self, Magento_init version environ a = Ok self /\
                token self = t /\ base_url self = rstrip_slash u /\
                scope self = (if str_truthy given_scope
                              then default DEFAULT_SCOPE given_scope
                              else DEFAULT_SCOPE)).
Proof.
  intros given_token given_url given_scope. unfold Magento_init.
  fold given_token given_url given_scope.
  split; [intros ->; reflexivity|].
  split.
  - intros Ht ->. destruct given_token; [reflexivity | congruence].
  - intros t u -> ->. eexists. split; [reflexivity|]. simpl.
    repeat split. unfold py_or at 1. destruct (str_truthy given_scope); reflexivity.
Qed.

Lemma Magento_init_mandatory_witness :
  Magento_init "1.0" ∅
    {| arg_token := None; arg_base_url := Some "https://shop.example";
       arg_scope := Some "default"; arg_logger := false; arg_read_only := false;
       arg_user_agent := None; arg_batch_page_size := None |}
  = Raise (RuntimeError "Missing API token")
  /\ Magento_init "1.0" {["PYMAGENTO_TOKEN" := "secret"]}
       {| arg_token := None; arg_base_url := None;
          arg_scope := Some "default"; arg_logger := false; arg_read_only := false;
          arg_user_agent := None; arg_batch_page_size := None |}
     = Raise (RuntimeError "Missing API base URL").
Proof.
  split.
  - apply (proj1 (Magento_init_mandatory "1.0" ∅ _)). reflexivity.
  - apply (proj1 (proj2 (Magento_init_mandatory "1.0" {["PYMAGENTO_TOKEN" := "secret"]} _))).
    + vm_compute. discriminate.
    + reflexivity.
Defined.

(** C8 as stated fails for the scope: with a token and a base URL given and
    no scope anywhere, the constructor succeeds. *)
Lemma Magento_init_scope_not_mandatory :
  ~ (forall (version : string) (environ : gmap string string) (a : init_args),
       py_or (arg_scope a) (environ !! "PYMAGENTO_SCOPE") = None ->
       exists e, Magento_init version environ a = Raise e).
Proof.
  intros H.
  destruct (H "1.0" ∅
              {| arg_token := Some "secret"; arg_base_url := Some "https://shop.example";
                 arg_scope := None; arg_logger := false; arg_read_only := false;
                 arg_user_agent := None; arg_batch_page_size := None |})
    as [e He].
  - vm_compute. reflexivity.
  - vm_compute in He. discriminate He.
Qed.

Section Paginator.

Context {St : Type}.
Variable handle : Request -> St -> Response * St.

(** C7. With [limit = 0] the first [next] ends the generator at once and
    leaves the world as it was: nothing is yielded and the trace gets no
    request. *)
Theorem get_paginated_limit_zero (self : Magento) (path : string)
    (query : option loc) (retry : Z) (fuel : nat) (w : world St) :
  gen_next handle self (get_paginated path query 0 retry) w = (StopIteration, GenDone, w) /\
  gen_take handle self (S fuel) (get_paginated path query 0 retry) w
    = ([], Exhausted, GenDone, w) /\
  py_list handle self (S fuel) (get_paginated path query 0 retry) w = (Ok (Some []), w).
Proof. repeat split. Qed.

End Paginator.

(** ** Fetching one page *)

Section PageFetch.

Context {St : Type}.
Variable handle : Request -> St -> Response * St.

Lemma retry_loop_ok self method full_path params (n : nat) (r : Response)
    (w : world St) :
  ok r = true ->
  retry_loop handle self method full_path params n r w = (Ok r, w).
Proof. intros Hok. destruct n; simpl; [|rewrite Hok]; reflexivity. Qed.

Lemma request_api_first_ok self method path params async_bulk throw retry
    (w : world St) (r : Response) (st : St) :
  refused self method = false ->
  String.prefix "/V1/" path = true ->
  handle (api_request St self method path params async_bulk w) (w_server w) = (r, st) ->
  ok r = true ->
  request_api handle self method path params async_bulk throw retry w =
    (Ok r, {| w_server := st; w_heap := w_heap w;
              w_trace := w_trace w
                ++ (if logger self
                    then [EvLog (LogRequest method (full_path_of self async_bulk path))]
                    else [])
                ++ [EvHttp (api_request St self method path params async_bulk w) r] |}).
Proof.
  intros Hacc Hpath Hh Hok. unfold request_api. rewrite Hpath. simpl.
  unfold bind at 1.
  assert (Hlog : forall e, when (logger self) (emit e) w =
            (Ok tt, {| w_server := w_server w; w_heap := w_heap w;
                       w_trace := w_trace w ++ (if logger self then [e] else []) |})).
  { intros e. unfold when. destruct (logger self); simpl; [reflexivity|].
    unfold ret. rewrite app_nil_r. destruct w; reflexivity. }
  rewrite Hlog. unfold bind at 1. rewrite super_request_api_spec by exact Hacc. simpl.
  unfold api_request in Hh. rewrite Hh. simpl.
  unfold bind at 1. rewrite retry_loop_ok by exact Hok.
  unfold bind. destruct throw; simpl.
  - rewrite raise_for_response_ok by exact Hok. unfold ret, api_request.
    rewrite <- app_assoc. reflexivity.
  - unfold ret, api_request. rewrite <- app_assoc. reflexivity.
Qed.

Lemma fetch_page_ok (self : Magento) (f : frame) (w : world St)
    (r : Response) (st : St) :
  String.prefix "/V1/" (f_path f) = true ->
  handle (page_request St self f w) (w_server w) = (r, st) ->
  ok r = true ->
  fetch_page handle self f w = read_page self f r (after_fetch St self f w r st).
Proof.
  intros Hpath Hh Hok. unfold fetch_page.
  unfold bind at 1. unfold dict_copy, dict_alloc. simpl.
  unfold bind at 1. unfold dict_set. simpl.
  set (l := fresh (dom (w_heap w))).
  set (d := dict_read (f_query f) (w_heap w)).
  set (w2 := {| w_server := w_server w; w_heap := _; w_trace := w_trace w |}).
  assert (Hreq : api_request St self "get" (f_path f) (Some l) false w2
                 = page_request St self f w).
  { unfold api_request, page_request, session_request. simpl. f_equal.
    unfold dict_read at 1. rewrite lookup_insert_eq. simpl.
    unfold dict_read at 1. rewrite lookup_insert_eq. reflexivity. }
  unfold bind, get_api.
  rewrite (request_api_first_ok self "get" (f_path f) (Some l) false true (f_retry f)
             w2 r st (refused_get self) Hpath); [| rewrite Hreq; exact Hh | exact Hok].
  rewrite Hreq. unfold after_fetch. simpl. fold l d.
  replace (<[l:=<[CURRENT_PAGE_KEY:=JNum (f_current_page f)]> d]> (w_heap w))
    with (w_heap w2); [reflexivity|].
  unfold w2. simpl. unfold dict_read at 1. rewrite lookup_insert_eq. simpl.
  apply insert_insert_eq.
Qed.

(** A true value that can be iterated holds an element: the loop over the
    items of a page yields at once. *)
Lemma py_iter_truthy (v : JSON) (l : list JSON) :
  truthy v = true -> py_iter v = Some l -> l <> [].
Proof.
  destruct v as [| b | n | s | l' | o]; simpl; try discriminate.
  - destruct s; [discriminate|]. intros _ [= <-]. discriminate.
  - destruct l'; [discriminate|]. intros _ [= <-]. discriminate.
  - destruct o; [discriminate|]. intros _ [= <-]. discriminate.
Qed.

Lemma read_page_no_items (self : Magento) (f : frame) (r : Response)
    (w : world St) body :
  json r = Some (JObj body) ->
  obj_get "items" body = None \/ obj_get "items" body = Some (JArr []) ->
  read_page self f r w = (Ok None, w).
Proof.
  intros Hjson Hitems. unfold read_page, response_json. rewrite Hjson.
  unfold bind, ret. destruct Hitems as [-> | ->]; reflexivity.
Qed.

(** C10. Let the page asked for the frame [f] be answered by a
    successful response whose body is a JSON object. When the object has
    no "items" key the page fetch makes the generator body return, with
    nothing yielded, exactly as when "items" is the empty array, and in
    both cases whatever "total_count" is or is not in the object: the
    result and the world after are the same. When "items" is a non-empty
    array and "total_count" is missing, the fetch raises
    [KeyError "total_count"]. ([gen_next] turns the body's return into
    [StopIteration] and the exception into the generator's failure.) *)
Theorem fetch_page_missing_items (self : Magento) (f : frame) (w : world St)
    (r : Response) (st : St) (body : list (string * JSON)) :
  String.prefix "/V1/" (f_path f) = true ->
  handle (page_request St self f w) (w_server w) = (r, st) ->
  ok r = true ->
  json r = Some (JObj body) ->
  (obj_get "items" body = None ->
   fetch_page handle self f w = (Ok None, after_fetch St self f w r st)) /\
  (obj_get "items" body = Some (JArr []) ->
   fetch_page handle self f w = (Ok None, after_fetch St self f w r st)) /\
  (forall item rest,
     obj_get "items" body = Some (JArr (item :: rest)) ->
     obj_get "total_count" body = None ->
     fetch_page handle self f w =
       (Raise (KeyError "total_count"), after_fetch St self f w r st)).
Proof.
  intros Hpath Hh Hok Hjson.
  rewrite (fetch_page_ok self f w r st Hpath Hh Hok).
  split; [|split].
  - intros H. eapply read_page_no_items; eauto.
  - intros H. eapply read_page_no_items; eauto.
  - intros item rest Hitems Htotal.
    unfold read_page, response_json. rewrite Hjson. unfold bind, ret.
    rewrite Hitems. simpl. rewrite Htotal. reflexivity.
Qed.

End PageFetch.

(** ** The generator against a server that serves pages

    Under [serves], every pull of the generator is a step of the reference
    paginator: same items, same end, same number of page requests. *)

Section Refinement.

Context {St : Type}.
Variable handle : Request -> St -> Response * St.
Variable self : Magento.
Variable url : string.
Variables size total limit : Z.
Variable pages : nat -> list JSON.
Variable bound : nat.
Hypothesis Hserves : serves_upto St handle bound url size total pages.

Lemma yield_item_spec (f : frame) (tc item : JSON) (rest : list JSON) (w : world St) :
  yield_item self f tc item rest w =
    (Ok (Some (item, GenSuspended f tc rest)),
     {| w_server := w_server w; w_heap := w_heap w;
        w_trace := w_trace w ++ log_loaded self f |}).
Proof.
  unfold yield_item, log_loaded, bind, when.
  destruct (logger self && negb (f_count f =? 0) && (f_count f mod 1000 =? 0)); simpl.
  - reflexivity.
  - unfold ret. rewrite app_nil_r. destruct w; reflexivity.
Qed.

Lemma http_requests_app (t1 t2 : list event) :
  http_requests (t1 ++ t2) = http_requests t1 ++ http_requests t2.
Proof. unfold http_requests. apply omap_app. Qed.

Lemma http_requests_log_loaded (f : frame) : http_requests (log_loaded self f) = [].
Proof. unfold log_loaded. destruct (_ && _ && _); reflexivity. Qed.

Lemma frame_ok_set_count f (w : world St) page n :
  frame_ok self url size limit f w page ->
  frame_ok self url size limit (set_count f n) w page.
Proof. intros [? ? ? ? ? ? ?]. constructor; assumption. Qed.

Lemma frame_ok_next_page f (w : world St) page :
  frame_ok self url size limit f w page ->
  frame_ok self url size limit (set_current_page f (f_current_page f + 1)) w (S page).
Proof.
  intros [? ? ? ? ? Hp ?]. constructor; try assumption.
  - simpl. rewrite Hp. lia.
  - lia.
Qed.

Lemma frame_ok_heap f (w w' : world St) page :
  w_heap w ⊆ w_heap w' ->
  frame_ok self url size limit f w page ->
  frame_ok self url size limit f w' page.
Proof.
  intros Hsub [? ? ? ? (d & Hd & Hps) ? ?]. constructor; try assumption.
  exists d. split; [|exact Hps]. eapply lookup_weaken; eassumption.
Qed.

Lemma after_fetch_heap f (w : world St) r st :
  w_heap w ⊆ w_heap (after_fetch St self f w r st).
Proof.
  unfold after_fetch. simpl. apply insert_subseteq.
  apply not_elem_of_dom. apply is_fresh.
Qed.

Lemma page_request_served f (w : world St) page :
  frame_ok self url size limit f w page ->
  (page <= bound)%nat ->
  is_page (handle (page_request St self f w) (w_server w)).1 (pages page) total.
Proof.
  intros [Hpath Hurl _ _ (d & Hd & Hps) Hp Hpos] Hb.
  eapply (Hserves (w_server w) (page_request St self f w)); try reflexivity.
  - exact Hurl.
  - simpl. unfold dict_read. rewrite Hd. simpl.
    rewrite lookup_insert_ne by discriminate. exact Hps.
  - simpl. rewrite lookup_insert_eq, Hp. reflexivity.
  - split; [exact Hpos | exact Hb].
Qed.

(** The page fetch of a well-formed frame against the server. *)
Lemma fetch_page_served f (w : world St) page :
  frame_ok self url size limit f w page ->
  (page <= bound)%nat ->
  exists r st,
    let w' := after_fetch St self f w r st in
    fetch_page handle self f w =
      match pages page with
      | [] => (Ok None, w')
      | item :: rest => yield_item self f (JNum total) item rest w'
      end.
Proof.
  intros Hf Hb. pose proof (page_request_served f w page Hf Hb) as Hpage.
  destruct (handle (page_request St self f w) (w_server w)) as [r st] eqn:Hh.
  destruct Hpage as (Hok & body & Hjson & Hitems & Htotal). simpl in *.
  exists r, st. simpl.
  rewrite (fetch_page_ok handle self f w r st (fo_path _ _ _ _ _ _ _ Hf) Hh Hok).
  unfold read_page, response_json. rewrite Hjson. unfold bind at 1. unfold ret at 1.
  rewrite Hitems. simpl. destruct (pages page) as [|item rest]; simpl.
  - reflexivity.
  - rewrite Htotal. reflexivity.
Qed.

Lemma gen_take_suspended :
  forall (fuel : nat) (f : frame) (rest : list JSON) (w : world St) (page : nat)
         (items : list JSON) (ended : bool) (n : nat),
    frame_ok self url size limit f w page ->
    paginate_from pages total limit fuel (f_count f) rest page = (items, ended, n) ->
    (page + n <= bound)%nat ->
    exists g' w' t,
      gen_take handle self fuel (GenSuspended f (JNum total) rest) w
        = (items, status_of ended, g', w') /\
      w_trace w' = w_trace w ++ t /\
      length (http_requests t) = n /\
      w_heap w ⊆ w_heap w' /\
      (ended = true -> g' = GenDone) /\
      (ended = false ->
       exists f' rest' page',
         g' = GenSuspended f' (JNum total) rest' /\
         f_count f' = f_count f + Z.of_nat fuel /\
         frame_ok self url size limit f' w' page').
Proof.
  induction fuel as [|fuel IH]; intros f rest w page items ended n Hf Hp Hb.
  - simpl in Hp. inversion Hp; subst. exists (GenSuspended f (JNum total) rest), w, [].
    simpl. rewrite app_nil_r. repeat split; [reflexivity | discriminate |].
    intros _. exists f, rest, page.
    split; [reflexivity|]. split; [lia | exact Hf].
  - simpl in Hp. unfold stops in Hp. simpl. unfold gen_next, resume. simpl.
    destruct (total <=? f_count f + 1) eqn:Htot; simpl in Hp.
    { inversion Hp; subst. exists GenDone, w, []. simpl. rewrite app_nil_r.
      repeat split; [reflexivity | discriminate]. }
    rewrite (fo_limited _ _ _ _ _ _ _ Hf), (fo_limit _ _ _ _ _ _ _ Hf).
    destruct ((0 <? limit) && (limit <=? f_count f + 1)) eqn:Hlim.
    { inversion Hp; subst. exists GenDone, w, []. simpl. rewrite app_nil_r.
      repeat split; [reflexivity | discriminate]. }
    destruct rest as [|item rest'].
    + pose proof (frame_ok_next_page _ _ _ (frame_ok_set_count _ _ _ (f_count f + 1) Hf))
        as Hf'.
      simpl in Hf'.
      set (f' := set_current_page (set_count f (f_count f + 1)) (f_current_page f + 1)) in *.
      assert (Hn1' : (1 <= n)%nat).
      { destruct (pages (S page)) as [|item0 rest0]; [inversion Hp; lia|].
        destruct (paginate_from pages total limit fuel (f_count f + 1) rest0 (S page))
          as [[? ?] ?]. inversion Hp; lia. }
      destruct (fetch_page_served f' w (S page) Hf' ltac:(lia)) as (r & st & Hfetch).
      simpl in Hfetch. rewrite Hfetch. clear Hfetch.
      set (w1 := after_fetch St self f' w r st).
      assert (Hw1 : exists t1, w_trace w1 = w_trace w ++ t1 /\
                               length (http_requests t1) = 1%nat).
      { eexists. split; [reflexivity|]. rewrite http_requests_app.
        destruct (logger self); reflexivity. }
      destruct Hw1 as (t1 & Ht1 & Hn1).
      destruct (pages (S page)) as [|item rest'].
      * inversion Hp; subst. exists GenDone, w1, t1.
        repeat split; try assumption; [apply after_fetch_heap | discriminate].
      * rewrite yield_item_spec.
        destruct (paginate_from pages total limit fuel (f_count f + 1) rest' (S page))
          as [[items' ended'] n'] eqn:Hrec.
        inversion Hp; subst. clear Hp.
        set (w2 := {| w_server := w_server w1; w_heap := w_heap w1;
                      w_trace := w_trace w1 ++ log_loaded self f' |}).
        assert (Hf2 : frame_ok self url size limit f' w2 (S page)).
        { apply (frame_ok_heap f' w w2); [apply after_fetch_heap | exact Hf']. }
        destruct (IH f' rest' w2 (S page) items' ended n' Hf2 Hrec ltac:(lia))
          as (g' & w' & t & Hrun & Htr & Hn & Hheap & Hend & Hpend).
        rewrite Hrun. exists g', w', (t1 ++ log_loaded self f' ++ t).
        split; [reflexivity|].
        split; [rewrite Htr; change (w_trace w2) with (w_trace w1 ++ log_loaded self f');
                rewrite Ht1, <- !app_assoc; reflexivity|].
        split; [rewrite !http_requests_app, http_requests_log_loaded, !length_app, Hn1, Hn;
                reflexivity|].
        split; [etrans; [apply (after_fetch_heap f' w r st)|exact Hheap]|].
        split; [exact Hend|].
        intros He. destruct (Hpend He) as (f2 & rest2 & page2 & Hg & Hc & Hok2).
        exists f2, rest2, page2. split; [exact Hg|]. split; [|exact Hok2].
        rewrite Hc. simpl. lia.
    + rewrite yield_item_spec.
      destruct (paginate_from pages total limit fuel (f_count f + 1) rest' page)
        as [[items' ended'] n'] eqn:Hrec.
      inversion Hp; subst. clear Hp.
      set (f' := set_count f (f_count f + 1)) in *.
      set (w2 := {| w_server := w_server w; w_heap := w_heap w;
                    w_trace := w_trace w ++ log_loaded self f' |}).
      assert (Hf2 : frame_ok self url size limit f' w2 page).
      { apply (frame_ok_heap f' w w2); [reflexivity|].
        apply frame_ok_set_count. exact Hf. }
      destruct (IH f' rest' w2 page items' ended n Hf2 Hrec Hb)
        as (g' & w' & t & Hrun & Htr & Hn & Hheap & Hend & Hpend).
      rewrite Hrun. exists g', w', (log_loaded self f' ++ t).
      split; [reflexivity|].
      split; [rewrite Htr; simpl; rewrite <- !app_assoc; reflexivity|].
      split; [rewrite !http_requests_app, http_requests_log_loaded; exact Hn|].
      split; [exact Hheap|].
      split; [exact Hend|].
      intros He. destruct (Hpend He) as (f2 & rest2 & page2 & Hg & Hc & Hok2).
      exists f2, rest2, page2. split; [exact Hg|]. split; [|exact Hok2].
      rewrite Hc. simpl. lia.
Qed.


Lemma start_spec (path : string) (query : option loc) (retry : Z) (w : world St) :
  limit <> 0 ->
  start handle self path query limit retry w =
    fetch_page handle self
      (first_frame self path limit retry (fresh (dom (w_heap w))))
      (started self query limit w).
Proof.
  intros Hlimit. unfold start.
  destruct (limit =? 0) eqn:H0; [lia|].
  unfold bind at 1.
  assert (Hq : (match query with Some q => dict_copy q | None => dict_alloc ∅ end) w =
               dict_alloc (match query with
                           | Some q => dict_read q (w_heap w)
                           | None => ∅
                           end) w).
  { destruct query; reflexivity. }
  rewrite Hq. unfold dict_alloc. unfold bind at 1. unfold dict_set. simpl.
  set (l := fresh (dom (w_heap w))).
  unfold dict_read at 1. rewrite lookup_insert_eq. simpl. rewrite insert_insert_eq.
  reflexivity.
Qed.

Lemma started_heap (query : option loc) (w : world St) :
  w_heap w ⊆ w_heap (started self query limit w).
Proof.
  unfold started. simpl. apply insert_subseteq. apply not_elem_of_dom, is_fresh.
Qed.

Hypothesis Hsize : size = page_size_for self limit.

Lemma first_frame_ok (path : string) (query : option loc) (retry : Z) (w : world St) :
  String.prefix "/V1/" path = true ->
  full_path_of self false path = url ->
  frame_ok self url size limit
           (first_frame self path limit retry (fresh (dom (w_heap w))))
           (started self query limit w) 1.
Proof.
  intros Hpath Hurl. constructor; simpl; try reflexivity; try assumption.
  eexists. rewrite lookup_insert_eq. split; [reflexivity|].
  rewrite lookup_insert_eq, Hsize. reflexivity.
Qed.

(** A run of the generator against a server that serves [pages] is the
    reference paginator's. *)
Lemma gen_take_paginate (path : string) (query : option loc) (retry : Z) :
  String.prefix "/V1/" path = true ->
  full_path_of self false path = url ->
  forall (fuel : nat) (w : world St) (items : list JSON) (ended : bool) (n : nat),
    paginate pages total limit fuel = (items, ended, n) ->
    (n <= bound)%nat ->
    exists g' w' t,
      gen_take handle self fuel (get_paginated path query limit retry) w
        = (items, status_of ended, g', w') /\
      w_trace w' = w_trace w ++ t /\
      length (http_requests t) = n /\
      w_heap w ⊆ w_heap w' /\
      (ended = true -> g' = GenDone) /\
      (ended = false -> fuel <> 0%nat ->
       exists f' rest' page',
         g' = GenSuspended f' (JNum total) rest' /\
         f_count f' = Z.of_nat fuel - 1 /\
         frame_ok self url size limit f' w' page').
Proof.
  intros Hpath Hurl fuel w items ended n Hp Hb.
  destruct fuel as [|fuel].
  - simpl in Hp. injection Hp as Hi He Hn0; subst items ended n.
    exists (get_paginated path query limit retry), w, [].
    simpl. rewrite app_nil_r. repeat split; [reflexivity | discriminate | congruence].
  - simpl in Hp. unfold get_paginated. cbn [gen_take]. unfold gen_next.
    destruct (limit =? 0) eqn:H0.
    { injection Hp as Hi He Hn0; subst items ended n. unfold start. rewrite H0.
      exists GenDone, w, []. simpl.
      rewrite app_nil_r. repeat split; [reflexivity | discriminate]. }
    rewrite start_spec by lia.
    set (f0 := first_frame self path limit retry (fresh (dom (w_heap w)))).
    set (w0 := started self query limit w).
    pose proof (first_frame_ok path query retry w Hpath Hurl) as Hf0. fold f0 w0 in Hf0.
    assert (Hn1' : (1 <= n)%nat).
    { destruct (pages 1%nat) as [|item0 rest0]; [injection Hp as _ _ <-; lia|].
      destruct (paginate_from pages total limit fuel 0 rest0 1) as [[? ?] ?].
      injection Hp as _ _ <-. lia. }
    destruct (fetch_page_served f0 w0 1%nat Hf0 ltac:(lia)) as (r & st & Hfetch).
    simpl in Hfetch. rewrite Hfetch. clear Hfetch.
    set (w1 := after_fetch St self f0 w0 r st).
    assert (Hw1 : exists t1, w_trace w1 = w_trace w ++ t1 /\
                             length (http_requests t1) = 1%nat).
    { eexists. split; [reflexivity|]. rewrite http_requests_app.
      destruct (logger self); reflexivity. }
    destruct Hw1 as (t1 & Ht1 & Hn1).
    assert (Hh1 : w_heap w ⊆ w_heap w1).
    { etrans; [apply (started_heap query w) | apply after_fetch_heap]. }
    destruct (pages 1%nat) as [|item rest].
    + injection Hp as Hi He Hn0; subst items ended n. exists GenDone, w1, t1.
      repeat split; try assumption. discriminate.
    + rewrite yield_item_spec.
      destruct (paginate_from pages total limit fuel 0 rest 1) as [[items' ended'] n'] eqn:Hrec.
      injection Hp as Hi He Hn0; subst items ended n.
      set (w2 := {| w_server := w_server w1; w_heap := w_heap w1;
                    w_trace := w_trace w1 ++ log_loaded self f0 |}).
      assert (Hf2 : frame_ok self url size limit f0 w2 1).
      { apply (frame_ok_heap f0 w0 w2); [apply after_fetch_heap | exact Hf0]. }
      destruct (gen_take_suspended fuel f0 rest w2 1%nat items' ended' n' Hf2 Hrec ltac:(lia))
        as (g' & w' & t & Hrun & Htr & Hn & Hheap & Hend & Hpend).
      rewrite Hrun. exists g', w', (t1 ++ log_loaded self f0 ++ t).
      split; [reflexivity|].
      split; [rewrite Htr; change (w_trace w2) with (w_trace w1 ++ log_loaded self f0);
              rewrite Ht1, <- !app_assoc; reflexivity|].
      split; [rewrite !http_requests_app, http_requests_log_loaded, !length_app, Hn1, Hn;
              reflexivity|].
      split; [etrans; [exact Hh1 | exact Hheap]|].
      split; [exact Hend|].
      intros He _. destruct (Hpend He) as (f2 & rest2 & page2 & Hg & Hc & Hok2).
      exists f2, rest2, page2. split; [exact Hg|]. split; [|exact Hok2].
      rewrite Hc. simpl. lia.
Qed.

End Refinement.

(** ** The reference paginator: what it yields and how many pages it asks *)

Section Reference.

Variable pages : nat -> list JSON.
Variables total limit : Z.

(** [m] is the count at which the generator stops. *)
Variable m : nat.
Hypothesis Hstop : forall c : Z, stops total limit c = (Z.of_nat m <=? c).

Lemma flat_map_seq_S (p j : nat) :
  flat_map pages (seq p (S j)) = pages p ++ flat_map pages (seq (S p) j).
Proof. reflexivity. Qed.

Lemma paginate_from_spec :
  forall (fuel : nat) (c : Z) (rest : list JSON) (p j d : nat),
    (forall i, (p < i <= p + j)%nat -> pages i <> []) ->
    c + 1 + Z.of_nat d = Z.of_nat m ->
    (Nat.min fuel d <= length (rest ++ flat_map pages (seq (S p) j)))%nat ->
    (j = 0%nat \/
     (length (rest ++ flat_map pages (seq (S p) (j - 1))) < Nat.min fuel d)%nat) ->
    paginate_from pages total limit fuel c rest p =
      (take (Nat.min fuel d) (rest ++ flat_map pages (seq (S p) j)), (d <? fuel)%nat, j).
Proof.
  induction fuel as [|fuel IH]; intros c rest p j d Hne Hc Hlen Hmin.
  - simpl in *. destruct Hmin as [-> | Hmin]; [reflexivity | lia].
  - cbn [paginate_from]. rewrite Hstop.
    destruct d as [|d].
    + destruct (Z.leb_spec (Z.of_nat m) (c + 1)); [|lia].
      simpl in Hmin. destruct Hmin as [-> | Hmin]; [|lia].
      rewrite Nat.min_0_r. reflexivity.
    + destruct (Z.leb_spec (Z.of_nat m) (c + 1)); [lia|].
      change (Nat.min (S fuel) (S d)) with (S (Nat.min fuel d)) in *.
      change (S d <? S fuel)%nat with (d <? fuel)%nat.
      destruct rest as [|item rest].
      * destruct j as [|j]; [simpl in Hlen; lia|].
        rewrite flat_map_seq_S in *. simpl app.
        destruct (pages (S p)) as [|item rest] eqn:Hpage.
        { exfalso. apply (Hne (S p)); [lia | exact Hpage]. }
        rewrite (IH (c + 1) rest (S p) j d).
        -- reflexivity.
        -- intros i Hi. apply Hne. lia.
        -- lia.
        -- simpl in Hlen. lia.
        -- destruct Hmin as [Hj | Hmin]; [discriminate Hj|].
           destruct j as [|j]; [left; reflexivity | right].
           replace (S (S j) - 1)%nat with (S j) in Hmin by lia.
           replace (S j - 1)%nat with j by lia.
           rewrite flat_map_seq_S, Hpage in Hmin. simpl in Hmin. lia.
      * rewrite (IH (c + 1) rest p j d).
        -- reflexivity.
        -- exact Hne.
        -- lia.
        -- simpl in Hlen. lia.
        -- destruct Hmin as [Hj | Hmin]; [left; exact Hj | right].
           simpl in Hmin. lia.
Qed.

Lemma paginate_spec (fuel n : nat) :
  limit <> 0 ->
  (1 <= m)%nat ->
  (forall i, (1 <= i <= n)%nat -> pages i <> []) ->
  (Nat.min fuel m <= length (stream pages n))%nat ->
  (n = 0%nat \/ (length (stream pages (n - 1)) < Nat.min fuel m)%nat) ->
  paginate pages total limit fuel = (take (Nat.min fuel m) (stream pages n), (m <? fuel)%nat, n).
Proof.
  intros Hlimit Hm Hne Hlen Hmin.
  destruct fuel as [|fuel].
  - simpl in *. destruct Hmin as [-> | Hmin]; [reflexivity | lia].
  - cbn [paginate]. destruct (Z.eqb_spec limit 0); [contradiction|].
    assert (Hd : exists d, m = S d) by (exists (m - 1)%nat; lia).
    destruct Hd as [d Hd]. rewrite Hd in Hlen, Hmin |- *.
    change (Nat.min (S fuel) (S d)) with (S (Nat.min fuel d)) in *.
    change (S d <? S fuel)%nat with (d <? fuel)%nat.
    destruct n as [|j]; [simpl in Hlen; lia|].
    unfold stream in *. rewrite flat_map_seq_S in *.
    destruct (pages 1%nat) as [|item rest] eqn:Hpage.
    { exfalso. apply (Hne 1%nat); [lia | exact Hpage]. }
    rewrite (paginate_from_spec fuel 0 rest 1 j d).
    + reflexivity.
    + intros i Hi. apply Hne. lia.
    + lia.
    + simpl in Hlen. lia.
    + destruct Hmin as [Hj | Hmin]; [discriminate Hj|].
      destruct j as [|j]; [left; reflexivity | right].
      replace (S (S j) - 1)%nat with (S j) in Hmin by lia.
      replace (S j - 1)%nat with j by lia.
      rewrite flat_map_seq_S, Hpage in Hmin. simpl in Hmin. lia.
Qed.

(** An empty first page ends the run after one request. *)
Lemma paginate_empty (fuel : nat) :
  limit <> 0 ->
  pages 1%nat = [] ->
  paginate pages total limit (S fuel) = ([], true, 1%nat).
Proof.
  intros Hlimit Hpage. cbn [paginate].
  destruct (Z.eqb_spec limit 0); [contradiction|]. rewrite Hpage. reflexivity.
Qed.

End Reference.

Lemma stream_S (pages : nat -> list JSON) (n : nat) :
  stream pages (S n) = stream pages n ++ pages (S n).
Proof. unfold stream. rewrite seq_S, flat_map_app. simpl. rewrite app_nil_r. reflexivity. Qed.

Lemma stream_prefix (pages : nat -> list JSON) (n k : nat) :
  exists l, stream pages (n + k) = stream pages n ++ l.
Proof.
  induction k as [|k [l IH]].
  - exists []. rewrite Nat.add_0_r, app_nil_r. reflexivity.
  - exists (l ++ pages (S (n + k))). rewrite Nat.add_succ_r, stream_S, IH, app_assoc.
    reflexivity.
Qed.

(** The least number of pages that hold [m >= 1] entities. *)
Lemma stream_least (pages : nat -> list JSON) (m n : nat) :
  (1 <= m <= length (stream pages n))%nat ->
  exists n0, (1 <= n0 <= n)%nat /\
             (m <= length (stream pages n0))%nat /\
             (length (stream pages (n0 - 1)) < m)%nat.
Proof.
  induction n as [|n IH]; intros Hm.
  - simpl in Hm. lia.
  - destruct (le_lt_dec m (length (stream pages n))) as [Hle | Hlt].
    + destruct IH as (n0 & Hn0 & H1 & H2); [lia|]. exists n0. repeat split; try lia.
    + exists (S n). simpl. rewrite Nat.sub_0_r. repeat split; lia.
Qed.

(** *** The pages of an honest server *)

Lemma stream_page_of (db : list JSON) (size n : nat) :
  stream (page_of db size) n = take (n * size) db.
Proof.
  induction n as [|n IH]; [reflexivity|].
  rewrite stream_S, IH. unfold page_of. simpl.
  rewrite Nat.sub_0_r, take_take_drop. f_equal. lia.
Qed.

Lemma page_of_nonempty (db : list JSON) (size i : nat) :
  (0 < size)%nat -> (1 <= i)%nat -> ((i - 1) * size < length db)%nat ->
  page_of db size i <> [].
Proof.
  intros Hsize Hi Hlt Hnil. apply (f_equal length) in Hnil.
  unfold page_of in Hnil. rewrite length_take, length_drop in Hnil. simpl in Hnil. lia.
Qed.

Lemma take_min_length (A : Type) (l : list A) (k : nat) :
  take (Nat.min (length l) k) l = take k l.
Proof.
  destruct (le_lt_dec k (length l)).
  - rewrite Nat.min_r by lia. reflexivity.
  - rewrite Nat.min_l by lia. rewrite !take_ge by lia. reflexivity.
Qed.


Lemma pages_for_spec (size e : nat) :
  (0 < size)%nat ->
  (e <= pages_for size e * size)%nat /\
  (pages_for size e = 0%nat \/ ((pages_for size e - 1) * size < e)%nat).
Proof.
  intros Hsize. unfold pages_for.
  pose proof (Nat.div_mod_eq (e + size - 1) size) as Hdm.
  pose proof (Nat.mod_upper_bound (e + size - 1) size ltac:(lia)) as Hmod.
  set (q := ((e + size - 1) / size)%nat) in *.
  set (r := ((e + size - 1) mod size)%nat) in *.
  split; [nia|].
  destruct q as [|q]; [left; reflexivity | right].
  simpl. rewrite Nat.sub_0_r. nia.
Qed.

Lemma pages_for_mono (size a b : nat) :
  (a <= b)%nat -> (pages_for size a <= pages_for size b)%nat.
Proof. intros H. unfold pages_for. apply Nat.Div0.div_le_mono. lia. Qed.

(** A server that serves every page serves the first ones. *)
Lemma serves_serves_upto {St : Type} (handle : Request -> St -> Response * St)
    (bound : nat) (url : string) (size total : Z) (pages : nat -> list JSON) :
  serves St handle url size total pages ->
  serves_upto St handle bound url size total pages.
Proof.
  intros H st req params page Hm Hu Hp Hps Hcp [Hpage _].
  exact (H st req params page Hm Hu Hp Hps Hcp Hpage).
Qed.

Lemma pages_for_unique (size e n : nat) :
  (0 < size)%nat ->
  (e <= n * size)%nat ->
  (n = 0%nat \/ ((n - 1) * size < e)%nat) ->
  n = pages_for size e.
Proof.
  intros Hsize Hle Hmin.
  destruct (pages_for_spec size e Hsize) as [Hle' Hmin'].
  set (q := pages_for size e) in *.
  destruct Hmin as [-> | Hmin]; destruct Hmin' as [Hq | Hmin']; try nia.
Qed.

Lemma stops_limited (total k : Z) (T : nat) (c : Z) :
  total = Z.of_nat T -> 0 < k ->
  stops total k c = (Z.of_nat (Nat.min T (Z.to_nat k)) <=? c).
Proof.
  intros -> Hk. unfold stops.
  destruct (Z.ltb_spec 0 k); [|lia]. simpl.
  destruct (Z.leb_spec (Z.of_nat T) c), (Z.leb_spec k c),
           (Z.leb_spec (Z.of_nat (Nat.min T (Z.to_nat k))) c); simpl; try reflexivity; lia.
Qed.

Lemma stops_unlimited (total limit : Z) (T : nat) (c : Z) :
  total = Z.of_nat T -> limit < 0 ->
  stops total limit c = (Z.of_nat T <=? c).
Proof.
  intros -> Hk. unfold stops.
  destruct (Z.ltb_spec 0 limit); [lia|]. simpl. apply orb_false_r.
Qed.

(** The reference run over the pages of an honest server with entities,
    for a positive limit [k]: the first [fuel] pulls. *)
Lemma paginate_honest (db : list JSON) (size : nat) (k : Z) (fuel : nat) :
  (0 < size)%nat -> 0 < k -> db <> [] ->
  let m := Nat.min (length db) (Z.to_nat k) in
  paginate (page_of db size) (Z.of_nat (length db)) k fuel =
    (take (Nat.min fuel m) db, (m <? fuel)%nat, pages_for size (Nat.min fuel m)).
Proof.
  intros Hsize Hk Hdb m.
  assert (Hlen : (1 <= length db)%nat) by (destruct db; [contradiction | simpl; lia]).
  set (e := Nat.min fuel m).
  destruct (pages_for_spec size e Hsize) as [Hle Hmin].
  set (n := pages_for size e) in *.
  rewrite (paginate_spec (page_of db size) (Z.of_nat (length db)) k m
             (fun c => stops_limited _ k (length db) c eq_refl Hk) fuel n).
  - fold e. rewrite stream_page_of, take_take. f_equal. f_equal. f_equal. lia.
  - lia.
  - unfold m. lia.
  - intros i Hi. apply page_of_nonempty; [lia | lia |].
    destruct Hmin as [Hn | Hmin]; [lia|]. unfold e, m in *. nia.
  - fold e. rewrite stream_page_of, length_take. unfold e, m in *. lia.
  - fold e. destruct Hmin as [Hn | Hmin]; [left; exact Hn | right].
    rewrite stream_page_of, length_take. lia.
Qed.

(** ** The generator against an honest server *)

Section Honest.

Context {St : Type}.
Variable handle : Request -> St -> Response * St.
Variable self : Magento.
Variable db : list JSON.
Variable path : string.
Variable query : option loc.
Variable retry : Z.

Hypothesis Hpath : String.prefix "/V1/" path = true.
Hypothesis Hhonors : honors St handle (full_path_of self false path) db.
Hypothesis Hpositive : 0 < PAGE_SIZE self.

Lemma page_size_for_pos (k : Z) : 0 < k -> 0 < page_size_for self k.
Proof. intros Hk. unfold page_size_for. destruct (_ && _); lia. Qed.

Lemma honest_serves (k : Z) :
  0 < k ->
  serves_upto St handle
         (Nat.max 1 (pages_for (Z.to_nat (page_size_for self k)) (length db)))
         (full_path_of self false path) (page_size_for self k)
         (Z.of_nat (length db)) (page_of db (Z.to_nat (page_size_for self k))).
Proof.
  intros Hk. pose proof (page_size_for_pos k Hk) as Hs.
  pose proof (Hhonors (Z.to_nat (page_size_for self k)) ltac:(lia)) as H.
  rewrite Z2Nat.id in H by lia. exact H.
Qed.

Lemma honest_run (k : Z) (fuel : nat) (w : world St) :
  0 < k -> db <> [] ->
  let m := Nat.min (length db) (Z.to_nat k) in
  exists g' w' t,
    gen_take handle self fuel (get_paginated path query k retry) w
      = (take (Nat.min fuel m) db, status_of (m <? fuel)%nat, g', w') /\
    w_trace w' = w_trace w ++ t /\
    length (http_requests t)
      = pages_for (Z.to_nat (page_size_for self k)) (Nat.min fuel m) /\
    ((m <? fuel)%nat = true -> g' = GenDone) /\
    ((m <? fuel)%nat = false -> fuel <> 0%nat ->
     exists f' rest' page',
       g' = GenSuspended f' (JNum (Z.of_nat (length db))) rest' /\
       f_count f' = Z.of_nat fuel - 1 /\
       frame_ok self (full_path_of self false path) (page_size_for self k) k f' w' page').
Proof.
  intros Hk Hdb m.
  pose proof (page_size_for_pos k Hk) as Hs.
  destruct (gen_take_paginate handle self (full_path_of self false path)
              (page_size_for self k) (Z.of_nat (length db)) k
              (page_of db (Z.to_nat (page_size_for self k))) _
              (honest_serves k Hk) eq_refl path query retry Hpath eq_refl fuel w
              _ _ _ (paginate_honest db (Z.to_nat (page_size_for self k)) k fuel
                       ltac:(lia) Hk Hdb))
    as (g' & w' & t & Hrun & Htr & Hn & _ & Hend & Hpend).
  { etrans; [apply (pages_for_mono _ _ (length db)); lia | lia]. }
  exists g', w', t. fold m in Hrun, Hn, Hend, Hpend. auto 10.
Qed.

Lemma honest_run_empty (k : Z) (fuel : nat) (w : world St) :
  0 < k -> db = [] ->
  exists w' t,
    gen_take handle self (S fuel) (get_paginated path query k retry) w
      = ([], Exhausted, GenDone, w') /\
    w_trace w' = w_trace w ++ t /\
    length (http_requests t) = 1%nat.
Proof.
  intros Hk Hdb.
  destruct (gen_take_paginate handle self (full_path_of self false path)
              (page_size_for self k) (Z.of_nat (length db)) k
              (page_of db (Z.to_nat (page_size_for self k))) _
              (honest_serves k Hk) eq_refl path query retry Hpath eq_refl (S fuel) w
              [] true 1%nat)
    as (g' & w' & t & Hrun & Htr & Hn & _ & Hend & _).
  { apply paginate_empty; [lia|]. rewrite Hdb. unfold page_of.
    generalize (Z.to_nat (page_size_for self k)). intros s.
    destruct s; reflexivity. }
  { lia. }
  rewrite (Hend eq_refl) in Hrun. exists w', t. auto.
Qed.

(** A full run under a positive limit: the items and the number of page
    requests. *)
Lemma honest_full_run (k : Z) (fuel : nat) (w : world St) :
  0 < k ->
  (Nat.min (Z.to_nat k) (length db) < fuel)%nat ->
  exists w' t,
    gen_take handle self fuel (get_paginated path query k retry) w
      = (take (Z.to_nat k) db, Exhausted, GenDone, w') /\
    w_trace w' = w_trace w ++ t /\
    length (http_requests t)
      = Nat.max 1 (pages_for (Z.to_nat (page_size_for self k))
                             (Nat.min (length db) (Z.to_nat k))).
Proof.
  intros Hk Hfuel.
  pose proof (page_size_for_pos k Hk) as Hs.
  assert (Hcase : db = [] \/ db <> []) by (clear; destruct db; [left | right]; congruence).
  destruct Hcase as [Hdb | Hne].
  - destruct fuel as [|fuel]; [lia|].
    destruct (honest_run_empty k fuel w Hk Hdb) as (w' & t & Hrun & Htr & Hn).
    exists w', t. rewrite Hdb, take_nil. simpl length. rewrite Nat.min_0_l.
    unfold pages_for. simpl Nat.add.
    rewrite Nat.div_small by lia. auto.
  - destruct (honest_run k fuel w Hk Hne) as (g' & w' & t & Hrun & Htr & Hn & Hend & _).
    set (m := Nat.min (length db) (Z.to_nat k)) in *.
    assert (Hlen : (1 <= length db)%nat).
    { clear -Hne. destruct db; [contradiction | simpl; lia]. }
    assert (Hlt : (m <? fuel)%nat = true) by (apply Nat.ltb_lt; unfold m; lia).
    rewrite Hlt in Hrun. rewrite (Hend Hlt) in Hrun.
    replace (Nat.min fuel m) with m in Hrun, Hn by (unfold m in *; lia).
    unfold m in Hrun at 1. rewrite take_min_length in Hrun.
    exists w', t. split; [exact Hrun|]. split; [exact Htr|]. rewrite Hn.
    destruct (pages_for_spec (Z.to_nat (page_size_for self k)) m ltac:(lia)) as [Hle _].
    assert (1 <= m)%nat by (unfold m; lia).
    destruct (pages_for (Z.to_nat (page_size_for self k)) m); [simpl in Hle; lia | lia].
Qed.

(** C1. Against a server that honors the pagination contract on the
    entities [db] (it serves the pages [db] fills and reports the count
    [length db]; what it answers past the last page is left open), with a
    positive page size configured, and for a positive limit [k]: a full run
    yields exactly the first [k] entities of [db], that is
    [min k (length db)] of them, and ends, having asked only for the pages
    that hold them (one page when there is none), so never for a page past
    the last. When [db] holds at least [k] entities, the generator is still
    suspended after its [k]-th item, and the next pull ends it without
    touching the world: no further page is requested once the count has
    reached [k]. *)
Theorem get_paginated_limit_yields_min (k : Z) (w : world St) :
  0 < k ->
  (forall fuel : nat,
     (Nat.min (Z.to_nat k) (length db) < fuel)%nat ->
     exists w' t,
       gen_take handle self fuel (get_paginated path query k retry) w
         = (take (Z.to_nat k) db, Exhausted, GenDone, w') /\
       w_trace w' = w_trace w ++ t /\
       length (http_requests t)
         = Nat.max 1 (pages_for (Z.to_nat (page_size_for self k))
                                (Nat.min (length db) (Z.to_nat k)))) /\
  length (take (Z.to_nat k) db) = Nat.min (Z.to_nat k) (length db) /\
  ((Z.to_nat k <= length db)%nat ->
   exists g1 w1,
     gen_take handle self (Z.to_nat k) (get_paginated path query k retry) w
       = (take (Z.to_nat k) db, Pending, g1, w1) /\
     gen_next handle self g1 w1 = (StopIteration, GenDone, w1)).
Proof.
  intros Hk. split; [|split].
  - intros fuel Hfuel.
    destruct (honest_full_run k fuel w Hk Hfuel) as (w' & t & Hrun & Htr & Hn).
    exists w', t. auto.
  - apply length_take.
  - intros Hle.
    assert (Hne : db <> []) by (intros ->; simpl in Hle; lia).
    destruct (honest_run k (Z.to_nat k) w Hk Hne)
      as (g1 & w1 & t & Hrun & _ & _ & _ & Hpend).
    set (m := Nat.min (length db) (Z.to_nat k)) in *.
    assert (Hm : m = Z.to_nat k) by (unfold m; lia).
    rewrite Hm in Hrun, Hpend. rewrite Nat.min_id in Hrun.
    rewrite Nat.ltb_irrefl in Hrun, Hpend.
    destruct Hpend as (f' & rest' & page' & Hg & Hc & Hok); [reflexivity | lia |].
    exists g1, w1. split; [exact Hrun|].
    rewrite Hg. unfold gen_next, resume. simpl.
    rewrite (fo_limited _ _ _ _ _ _ _ Hok), (fo_limit _ _ _ _ _ _ _ Hok), Hc.
    destruct (Z.of_nat (length db) <=? Z.of_nat (Z.to_nat k) - 1 + 1); [reflexivity|].
    destruct (Z.ltb_spec 0 k); [|lia].
    destruct (Z.leb_spec k (Z.of_nat (Z.to_nat k) - 1 + 1)); [reflexivity | lia].
Qed.

(** C2. In the same setting, let [served j] be the number of entities in
    the first [j] pages. A full run sends exactly the [n] page requests
    that hold the [min k (length db)] entities it yields (one request when
    there is none). Every [j < n] has [served j < k] (no request is sent
    once the yielded items reach the limit, so never more than the least
    number of pages), and [served n >= k] when [db] holds [k] entities:
    [n] is the least number of pages that reach the limit. When the limit
    is [j] full pages, [n = j]: no extra page at a page boundary. *)
Theorem get_paginated_page_requests (k : Z) (fuel : nat) (w : world St) :
  0 < k ->
  (Nat.min (Z.to_nat k) (length db) < fuel)%nat ->
  let size := Z.to_nat (page_size_for self k) in
  let served (j : nat) := length (stream (page_of db size) j) in
  exists w' t,
    gen_take handle self fuel (get_paginated path query k retry) w
      = (take (Z.to_nat k) db, Exhausted, GenDone, w') /\
    w_trace w' = w_trace w ++ t /\
    length (http_requests t)
      = Nat.max 1 (pages_for size (Nat.min (length db) (Z.to_nat k))) /\
    (forall j : nat, (j < length (http_requests t))%nat -> (served j < Z.to_nat k)%nat) /\
    ((Z.to_nat k <= length db)%nat ->
     (Z.to_nat k <= served (length (http_requests t)))%nat) /\
    (forall j : nat,
       k = Z.of_nat j * PAGE_SIZE self ->
       (Z.to_nat k <= length db)%nat ->
       length (http_requests t) = j).
Proof.
  intros Hk Hfuel size served.
  pose proof (page_size_for_pos k Hk) as Hs.
  assert (Hsize : (0 < size)%nat) by (unfold size; lia).
  destruct (honest_full_run k fuel w Hk Hfuel) as (w' & t & Hrun & Htr & Hn).
  exists w', t. split; [exact Hrun|]. split; [exact Htr|]. split; [exact Hn|].
  assert (Hserved : forall j, served j = Nat.min (j * size) (length db)).
  { intros j. unfold served. rewrite stream_page_of. apply length_take. }
  fold size in Hn.
  set (m := Nat.min (length db) (Z.to_nat k)) in *.
  destruct (pages_for_spec size m Hsize) as [Hle Hmin].
  assert (Hps : forall j : nat, k = Z.of_nat j * PAGE_SIZE self ->
                                page_size_for self k = PAGE_SIZE self).
  { intros j Hj. unfold page_size_for. destruct (Z.ltb_spec 0 k); [|lia].
    destruct (Z.ltb_spec k (PAGE_SIZE self)); [|reflexivity].
    exfalso. destruct j as [|j]; [lia|].
    rewrite Nat2Z.inj_succ in Hj. nia. }
  assert (HK : (1 <= Z.to_nat k)%nat) by lia.
  rewrite Hn. split; [|split].
  - intros j Hj. rewrite Hserved.
    destruct Hmin as [Hz | Hmin].
    + rewrite Hz in Hj. assert (j = 0%nat) as -> by lia. simpl. lia.
    + assert ((j <= pages_for size m - 1)%nat) by lia. unfold m in *. nia.
  - intros Hreach. rewrite Hserved. unfold m in *. nia.
  - intros j Hj Hreach.
    assert (Hm : m = (j * size)%nat).
    { unfold m, size. rewrite (Hps j Hj). nia. }
    assert (Hj1 : (1 <= j)%nat) by nia.
    rewrite <- (pages_for_unique size m j Hsize); [lia | lia |].
    right. nia.
Qed.

End Honest.

(** ** Asking for exactly one product *)

Section ExpectOne.

Context {St : Type}.
Variable handle : Request -> St -> Response * St.
Variable self : Magento.
Variable db : list JSON.

Hypothesis Hhonors : honors St handle (full_path_of self false "/V1/products/") db.
Hypothesis Hpositive : 0 < PAGE_SIZE self.

(** C9. [get_product_by_query] with [expect_one] true, against a server
    that honors the pagination contract on the matching products [db], and
    given the fuel for its three pulls: no match returns [None], exactly one
    match returns it, and two or more raise [MagentoAssertionError]. *)
Theorem get_product_by_query_expect_one (query : loc) (fuel : nat) (w : world St) :
  (3 <= fuel)%nat ->
  (db = [] ->
   exists w', get_product_by_query handle self fuel query true w = (Ok (Some None), w')) /\
  (forall p, db = [p] ->
   exists w', get_product_by_query handle self fuel query true w
              = (Ok (Some (Some p)), w')) /\
  ((2 <= length db)%nat ->
   exists w', get_product_by_query handle self fuel query true w
              = (Raise (MagentoAssertionError query), w')).
Proof.
  intros Hfuel.
  destruct (honest_full_run handle self db "/V1/products/" (Some query) 0
              eq_refl Hhonors Hpositive 2 fuel w ltac:(lia) ltac:(lia))
    as (w' & t & Hrun & _).
  assert (Hgo : get_product_by_query handle self fuel query true w =
                match take 2 db with
                | [] => (Ok (Some None), w')
                | [p] => (Ok (Some (Some p)), w')
                | _ => (Raise (MagentoAssertionError query), w')
                end).
  { unfold get_product_by_query, get_products.
    change (negb true) with false. cbv iota.
    unfold bind, py_list. rewrite Hrun. change (Z.to_nat 2) with 2%nat.
    destruct (take 2 db) as [|p [|p' l]]; reflexivity. }
  rewrite Hgo. clear Hgo Hrun Hhonors. split; [|split].
  - intros ->. exists w'. reflexivity.
  - intros p ->. exists w'. reflexivity.
  - intros Hlen. exists w'. destruct db as [|p [|p' l]]; simpl in Hlen; try lia.
    reflexivity.
Qed.

End ExpectOne.

(** ** Without a limit *)

Section Unlimited.

Context {St : Type}.
Variable handle : Request -> St -> Response * St.
Variable self : Magento.
Variable path : string.
Variable query : option loc.
Variables limit retry total : Z.
Variable pages : nat -> list JSON.

Hypothesis Hlimit : limit < 0.
Hypothesis Hpath : String.prefix "/V1/" path = true.
Hypothesis Hserves :
  serves St handle (full_path_of self false path) (PAGE_SIZE self) total pages.

Lemma page_size_for_unlimited : page_size_for self limit = PAGE_SIZE self.
Proof. unfold page_size_for. destruct (Z.ltb_spec 0 limit); [lia | reflexivity]. Qed.

(** C3, amended. For a negative limit and a server that reports the fixed
    count [total] and serves [pages]. When [total >= 1], the pages [1..n]
    are non-empty and hold at least [total] entities, a full run yields
    exactly the first [total] entities of those pages, never fewer and never
    more, also when the pages hold more than [total]; it asks for the least
    number [n0] of pages that hold [total] entities. When the first page is
    empty, the run yields nothing, after one request. *)
Theorem get_paginated_unlimited_yields_total (n fuel : nat) (w : world St) :
  (1 <= total ->
   (forall i, (1 <= i <= n)%nat -> pages i <> []) ->
   total <= Z.of_nat (length (stream pages n)) ->
   (Z.to_nat total < fuel)%nat ->
   exists w' t n0,
     gen_take handle self fuel (get_paginated path query limit retry) w
       = (take (Z.to_nat total) (stream pages n), Exhausted, GenDone, w') /\
     Z.of_nat (length (take (Z.to_nat total) (stream pages n))) = total /\
     w_trace w' = w_trace w ++ t /\
     length (http_requests t) = n0 /\
     (n0 <= n)%nat /\
     Z.of_nat (length (stream pages (n0 - 1))) < total <= Z.of_nat (length (stream pages n0))) /\
  (pages 1%nat = [] ->
   exists w' t,
     gen_take handle self (S fuel) (get_paginated path query limit retry) w
       = ([], Exhausted, GenDone, w') /\
     w_trace w' = w_trace w ++ t /\
     length (http_requests t) = 1%nat).
Proof.
  pose proof (fun bound : nat =>
                gen_take_paginate handle self (full_path_of self false path)
                  (PAGE_SIZE self) total limit pages bound
                  (serves_serves_upto handle bound _ _ _ _ Hserves)
                  (eq_sym page_size_for_unlimited) path query retry Hpath eq_refl)
    as Hrefine.
  split.
  - intros Htotal Hne Hlen Hfuel.
    set (m := Z.to_nat total) in *.
    destruct (stream_least pages m n ltac:(lia)) as (n0 & Hn0 & Hreach & Hless).
    assert (Hp : paginate pages total limit fuel = (take m (stream pages n0), true, n0)).
    { rewrite (paginate_spec pages total limit m
                 (fun c => stops_unlimited total limit m c ltac:(lia) Hlimit) fuel n0).
      - replace (Nat.min fuel m) with m by lia.
        destruct (Nat.ltb_spec m fuel); [reflexivity | lia].
      - lia.
      - lia.
      - intros i Hi. apply Hne. lia.
      - lia.
      - right. lia. }
    destruct (Hrefine n0 fuel w _ _ _ Hp (le_n _))
      as (g' & w' & t & Hrun & Htr & Hn & _ & Hend & _).
    rewrite (Hend eq_refl) in Hrun.
    destruct (stream_prefix pages n0 (n - n0)) as [l Hl].
    replace (n0 + (n - n0))%nat with n in Hl by lia.
    assert (Htake : take m (stream pages n) = take m (stream pages n0)).
    { rewrite Hl. apply take_app_le. lia. }
    exists w', t, n0. rewrite Htake.
    split; [exact Hrun|].
    split; [rewrite length_take; lia|].
    split; [exact Htr|].
    split; [exact Hn|].
    split; lia.
  - intros Hempty.
    destruct (Hrefine 1%nat (S fuel) w _ _ _
                (paginate_empty pages total limit fuel ltac:(lia) Hempty) (le_n _))
      as (g' & w' & t & Hrun & Htr & Hn & _ & Hend & _).
    rewrite (Hend eq_refl) in Hrun. exists w', t. auto.
Qed.

End Unlimited.

(** ** The example servers meet their contracts *)

Lemma db_server_honors (url : string) (db : list JSON) :
  honors unit (Servers.db_server db) url db.
Proof.
  intros size Hsize st req params page _ _ Hparams Hps Hcp Hpage.
  unfold Servers.db_server, Servers.int_param. rewrite Hparams, Hps, Hcp. simpl.
  rewrite !Nat2Z.id. split; [reflexivity|].
  eexists. split; [reflexivity|]. split; reflexivity.
Qed.

Lemma repeating_server_honors (url : string) (db : list JSON) :
  honors unit (Servers.repeating_server db) url db.
Proof.
  intros size Hsize st req params page _ _ Hparams Hps Hcp [Hpage Hlast].
  unfold Servers.repeating_server, Servers.int_param. rewrite Hparams, Hps, Hcp. simpl.
  rewrite !Nat2Z.id. rewrite (Nat.min_l page) by exact Hlast.
  split; [reflexivity|].
  eexists. split; [reflexivity|]. split; reflexivity.
Qed.

Lemma pages_server_serves (url : string) (size total : Z) (pages : list (list JSON)) :
  serves unit (Servers.pages_server total pages) url size total
         (Servers.nth_page pages).
Proof.
  intros st req params page _ _ Hparams Hps Hcp Hpage.
  unfold Servers.pages_server, Servers.int_param. rewrite Hparams, Hcp. simpl.
  rewrite !Nat2Z.id. split; [reflexivity|].
  eexists. split; [reflexivity|]. split; reflexivity.
Qed.

(** ** The caller's query is never touched *)

Section Isolation.

Context {St : Type}.
Variable handle : Request -> St -> Response * St.
Variable self : Magento.

Lemma http_requests_retries (req : Request) (rs : list Response) :
  Forall (eq req) (http_requests (retries req rs)).
Proof.
  induction rs as [|r rs IH]; simpl; [constructor|].
  constructor; [reflexivity | exact IH].
Qed.

(** [request_api] leaves the store alone and sends one request, perhaps
    several times. *)
Lemma request_api_effects method path params async_bulk throw retry (w : world St) :
  exists st t,
    (request_api handle self method path params async_bulk throw retry w).2
      = {| w_server := st; w_heap := w_heap w; w_trace := w_trace w ++ t |} /\
    Forall (eq (api_request St self method path params async_bulk w)) (http_requests t).
Proof.
  destruct (String.prefix "/V1/" path) eqn:Hpath.
  2:{ unfold request_api. rewrite Hpath. simpl.
      exists (w_server w), []. rewrite app_nil_r. destruct w; split; [reflexivity|constructor]. }
  destruct (refused self method) eqn:Hacc.
  { rewrite (request_api_refused handle self method path params async_bulk throw retry w
               Hpath Hacc).
    eexists _, _. split; [reflexivity|]. destruct (logger self); constructor. }
  unfold request_api. rewrite Hpath. simpl.
  set (full_path := full_path_of self async_bulk path).
  set (log := if logger self then [EvLog (LogRequest method full_path)] else []).
  set (w0 := {| w_server := w_server w; w_heap := w_heap w;
                w_trace := w_trace w ++ log |}).
  assert (Hlog : when (logger self) (emit (EvLog (LogRequest method full_path))) w
                 = (Ok tt, w0)).
  { unfold when, log, w0. destruct (logger self); simpl; [reflexivity|].
    unfold ret. rewrite app_nil_r. destruct w; reflexivity. }
  unfold bind at 1. rewrite Hlog.
  unfold bind at 1. rewrite super_request_api_spec by exact Hacc.
  set (req := api_request St self method path params async_bulk w).
  change (session_request self method full_path params (w_heap w0)) with req.
  set (r0 := (handle req (w_server w0)).1).
  set (w1 := {| w_server := (handle req (w_server w0)).2; w_heap := w_heap w0;
                w_trace := w_trace w0 ++ [EvHttp req r0] |}).
  destruct (retry_loop_spec handle self method full_path params Hacc (Z.to_nat retry) r0 w1)
    as (rs & w' & Hrun & _ & Hheap & Htr & _).
  change (session_request self method full_path params (w_heap w1)) with req in Htr.
  unfold bind at 1. rewrite Hrun.
  exists (w_server w'), (log ++ [EvHttp req r0] ++ retries req rs).
  split.
  - unfold bind.
    assert (Hw' : w' = {| w_server := w_server w'; w_heap := w_heap w;
                          w_trace := w_trace w ++ log ++ [EvHttp req r0] ++ retries req rs |}).
    { destruct w' as [s h tr]. simpl in *. rewrite Hheap, Htr, <- !app_assoc. reflexivity. }
    destruct throw; simpl.
    + pose proof (raise_for_response_world (List.last rs r0) w') as Hw.
      destruct (raise_for_response (List.last rs r0) w') as [[[]|e] w'']; simpl in *;
        subst w''; exact Hw'.
    + exact Hw'.
  - rewrite !http_requests_app.
    apply Forall_app. split; [unfold log; destruct (logger self); constructor|].
    apply Forall_app. split; [repeat constructor | apply http_requests_retries].
Qed.

Lemma read_page_effects (f : frame) (r : Response) (w : world St) :
  exists t,
    (read_page self f r w).2
      = {| w_server := w_server w; w_heap := w_heap w; w_trace := w_trace w ++ t |} /\
    http_requests t = [] /\
    forall item g, (read_page self f r w).1 = Ok (Some (item, g)) ->
                   exists tc rest, g = GenSuspended f tc rest.
Proof.
  assert (Hsame : forall (x : result suspension),
            exists t, (x, w).2 = {| w_server := w_server w; w_heap := w_heap w;
                                   w_trace := w_trace w ++ t |} /\ http_requests t = []).
  { intros x. exists []. rewrite app_nil_r. destruct w; split; reflexivity. }
  unfold read_page, response_json, bind.
  destruct (json r) as [[| | | | |res]|]; simpl;
    try (destruct (Hsame (Raise AttributeError)) as (t & Ht & Hn); exists t;
         split; [exact Ht | split; [exact Hn | discriminate]]).
  destruct (negb (truthy (default (JArr []) (obj_get "items" res)))).
  { destruct (Hsame (Ok None)) as (t & Ht & Hn); exists t;
      split; [exact Ht | split; [exact Hn | discriminate]]. }
  destruct (obj_get "total_count" res) as [tc|].
  2:{ destruct (Hsame (Raise (KeyError "total_count"))) as (t & Ht & Hn); exists t;
      split; [exact Ht | split; [exact Hn | discriminate]]. }
  destruct (py_iter (default (JArr []) (obj_get "items" res))) as [[|item rest]|].
  - destruct (Hsame (Ok None)) as (t & Ht & Hn); exists t;
      split; [exact Ht | split; [exact Hn | discriminate]].
  - rewrite yield_item_spec. exists (log_loaded self f).
    split; [reflexivity|]. split; [apply http_requests_log_loaded|].
    intros item' g Heq. simpl in Heq. injection Heq as _ <-. eauto.
  - destruct (Hsame (Raise TypeError)) as (t & Ht & Hn); exists t;
      split; [exact Ht | split; [exact Hn | discriminate]].
Qed.

(** The effects of a page fetch, whatever the server answers. *)
Lemma fetch_page_effects (f : frame) (w : world St) :
  exists st t,
    (fetch_page handle self f w).2
      = {| w_server := st;
           w_heap := <[fresh (dom (w_heap w)) :=
                       <[CURRENT_PAGE_KEY := JNum (f_current_page f)]>
                         (dict_read (f_query f) (w_heap w))]> (w_heap w);
           w_trace := w_trace w ++ t |} /\
    Forall (eq (page_request St self f w)) (http_requests t) /\
    forall item g, (fetch_page handle self f w).1 = Ok (Some (item, g)) ->
                   exists tc rest, g = GenSuspended f tc rest.
Proof.
  set (l := fresh (dom (w_heap w))).
  set (d := dict_read (f_query f) (w_heap w)).
  set (w2 := {| w_server := w_server w;
                w_heap := <[l := <[CURRENT_PAGE_KEY := JNum (f_current_page f)]> d]> (w_heap w);
                w_trace := w_trace w |}).
  assert (Hfp : fetch_page handle self f w =
                match request_api handle self "get" (f_path f) (Some l) false true
                                  (f_retry f) w2 with
                | (Ok r, w3) => read_page self f r w3
                | (Raise e, w3) => (Raise e, w3)
                end).
  { unfold fetch_page.
    unfold bind at 1. unfold dict_copy, dict_alloc. simpl.
    unfold bind at 1. unfold dict_set. simpl. fold l d.
    unfold dict_read at 1. rewrite lookup_insert_eq. simpl. rewrite insert_insert_eq.
    reflexivity. }
  rewrite Hfp. clear Hfp.
  assert (Hreq : api_request St self "get" (f_path f) (Some l) false w2
                 = page_request St self f w).
  { unfold api_request, page_request, session_request. simpl. f_equal.
    unfold dict_read at 1. rewrite lookup_insert_eq. reflexivity. }
  destruct (request_api_effects "get" (f_path f) (Some l) false true (f_retry f) w2)
    as (st & t & Hw & Hreqs).
  rewrite Hreq in Hreqs.
  destruct (request_api handle self "get" (f_path f) (Some l) false true (f_retry f) w2)
    as [[r|e] w3]; simpl in Hw; subst w3.
  - destruct (read_page_effects f r {| w_server := st; w_heap := w_heap w2;
                                       w_trace := w_trace w2 ++ t |})
      as (t' & Hw' & Hn & Hg).
    exists st, (t ++ t'). split; [|split].
    + etrans; [exact Hw'|]. simpl. rewrite app_assoc. reflexivity.
    + rewrite http_requests_app, Hn, app_nil_r. exact Hreqs.
    + exact Hg.
  - exists st, t. split; [reflexivity|]. split; [exact Hreqs | discriminate].
Qed.


Variable q : loc.
Variable d : dict.

Lemma fetch_page_isolated (limit : Z) (f : frame) (w : world St) res w' :
  w_heap w !! f_query f = Some (<[PAGE_SIZE_KEY := JNum (page_size_for self limit)]> d) ->
  fetch_page handle self f w = (res, w') ->
  w_heap w ⊆ w_heap w' /\
  (exists t, w_trace w' = w_trace w ++ t /\
             Forall (page_params d (page_size_for self limit)) (http_requests t)) /\
  (forall item g, res = Ok (Some (item, g)) -> gen_owns self q d limit g w').
Proof.
  intros Hq Hfetch.
  destruct (fetch_page_effects f w) as (st & t & Hw & Hreqs & Hg).
  rewrite Hfetch in Hw, Hg. simpl in Hw, Hg. subst w'. simpl.
  assert (Hsub : w_heap w ⊆
                 <[fresh (dom (w_heap w)) :=
                   <[CURRENT_PAGE_KEY := JNum (f_current_page f)]>
                     (dict_read (f_query f) (w_heap w))]> (w_heap w)).
  { apply insert_subseteq, not_elem_of_dom, is_fresh. }
  split; [exact Hsub|]. split.
  - exists t. split; [reflexivity|].
    eapply Forall_impl; [exact Hreqs|]. intros req <-.
    exists (f_current_page f). simpl. unfold dict_read. rewrite Hq. reflexivity.
  - intros item g Hres. destruct (Hg item g Hres) as (tc & rest & ->). simpl.
    eapply lookup_weaken; [exact Hq | exact Hsub].
Qed.

(** One pull of a generator created on the caller's query [q]: the store
    only grows, and every request sent carries the caller's parameters
    [d] with this generator's own page size. *)
Lemma gen_next_isolated (limit : Z) (g : gen_state) (w : world St) r g' w' :
  w_heap w !! q = Some d ->
  gen_owns self q d limit g w ->
  gen_next handle self g w = (r, g', w') ->
  gen_owns self q d limit g' w' /\
  w_heap w ⊆ w_heap w' /\
  exists t, w_trace w' = w_trace w ++ t /\
            Forall (page_params d (page_size_for self limit)) (http_requests t).
Proof.
  intros Hq Hown Hnext.
  assert (Hstay : forall (x : next_result),
            (x, GenDone, w) = (r, g', w') ->
            gen_owns self q d limit g' w' /\
            w_heap w ⊆ w_heap w' /\
            exists t, w_trace w' = w_trace w ++ t /\
                      Forall (page_params d (page_size_for self limit)) (http_requests t)).
  { intros x Hx. injection Hx as _ <- <-. split; [exact I|]. split; [reflexivity|].
    exists []. rewrite app_nil_r. split; [reflexivity | constructor]. }
  assert (Hfetch : forall (f : frame) (w0 : world St),
            w_heap w ⊆ w_heap w0 ->
            (exists t0, w_trace w0 = w_trace w ++ t0 /\ http_requests t0 = []) ->
            w_heap w0 !! f_query f
              = Some (<[PAGE_SIZE_KEY := JNum (page_size_for self limit)]> d) ->
            match fetch_page handle self f w0 with
            | (Ok (Some (item, g0)), w1) => (Yielded item, g0, w1)
            | (Ok None, w1) => (StopIteration, GenDone, w1)
            | (Raise e, w1) => (Raised e, GenDone, w1)
            end = (r, g', w') ->
            gen_owns self q d limit g' w' /\
            w_heap w ⊆ w_heap w' /\
            exists t, w_trace w' = w_trace w ++ t /\
                      Forall (page_params d (page_size_for self limit)) (http_requests t)).
  { intros f w0 Hsub0 (t0 & Ht0 & Hn0) Hf Hres.
    destruct (fetch_page handle self f w0) as [res w1] eqn:Hfp.
    destruct (fetch_page_isolated limit f w0 res w1 Hf Hfp) as (Hsub & (t & Ht & Hreqs) & Hg).
    assert (Hw1 : w1 = w').
    { destruct res as [[[item g0]|]|e]; injection Hres as _ _ <-; reflexivity. }
    subst w1. split; [|split].
    - destruct res as [[[item g0]|]|e]; injection Hres as _ <-; try exact I.
      apply (Hg item g0 eq_refl).
    - etrans; [exact Hsub0 | exact Hsub].
    - exists (t0 ++ t). split; [rewrite Ht, Ht0, app_assoc; reflexivity|].
      rewrite http_requests_app, Hn0. exact Hreqs. }
  destruct g as [path query limit' retry | f tc rest |]; simpl in Hown.
  - destruct Hown as [-> ->]. unfold gen_next in Hnext.
    destruct (Z.eqb_spec limit 0) as [Hz | Hnz].
    + unfold start in Hnext. rewrite Hz in Hnext. simpl in Hnext.
      apply (Hstay _ Hnext).
    + rewrite start_spec in Hnext by exact Hnz.
      apply (Hfetch (first_frame self path limit retry (fresh (dom (w_heap w))))
                    (started self (Some q) limit w)
                    (started_heap self limit (Some q) w)
                    (ex_intro _ [] (conj (eq_sym (app_nil_r _)) eq_refl))); [|exact Hnext].
      simpl. rewrite lookup_insert_eq. unfold dict_read. rewrite Hq. reflexivity.
  - unfold gen_next, resume in Hnext.
    destruct (py_int_ge (f_count f + 1) tc) as [[|]|]; try apply (Hstay _ Hnext).
    destruct (f_is_limited f && (f_limit f <=? f_count f + 1)); [apply (Hstay _ Hnext)|].
    destruct rest as [|item rest].
    + apply (Hfetch (set_current_page (set_count f (f_count f + 1)) (f_current_page f + 1))
                    w (reflexivity _)
                    (ex_intro _ [] (conj (eq_sym (app_nil_r _)) eq_refl)) Hown Hnext).
    + rewrite yield_item_spec in Hnext. injection Hnext as _ <- <-. simpl.
      split; [exact Hown|]. split; [reflexivity|].
      eexists. split; [reflexivity|]. rewrite http_requests_log_loaded. constructor.
  - apply (Hstay _ Hnext).
Qed.

Lemma gen_owns_heap (limit : Z) (g : gen_state) (w w' : world St) :
  w_heap w ⊆ w_heap w' ->
  gen_owns self q d limit g w ->
  gen_owns self q d limit g w'.
Proof.
  intros Hsub. destruct g; simpl; try tauto.
  intros Hq. eapply lookup_weaken; eassumption.
Qed.

Lemma new_requests_app (w w' : world St) (t : list event) :
  w_trace w' = w_trace w ++ t -> new_requests St w w' = http_requests t.
Proof. intros H. unfold new_requests. rewrite H, drop_app_length. reflexivity. Qed.

Lemma run2_isolated (limit1 limit2 : Z) :
  forall (sched : list bool) (g1 g2 : gen_state) (w : world St) reqs1 reqs2 w',
    w_heap w !! q = Some d ->
    gen_owns self q d limit1 g1 w ->
    gen_owns self q d limit2 g2 w ->
    run2 St handle self sched g1 g2 w = (reqs1, reqs2, w') ->
    w_heap w ⊆ w_heap w' /\
    Forall (page_params d (page_size_for self limit1)) reqs1 /\
    Forall (page_params d (page_size_for self limit2)) reqs2.
Proof.
  induction sched as [|b sched IH]; intros g1 g2 w reqs1 reqs2 w' Hq H1 H2 Hrun.
  - simpl in Hrun. injection Hrun as <- <- <-.
    split; [reflexivity|]. split; constructor.
  - simpl in Hrun. destruct b.
    + destruct (gen_next handle self g1 w) as [[r g1'] w1] eqn:Hnext.
      destruct (gen_next_isolated limit1 g1 w r g1' w1 Hq H1 Hnext)
        as (H1' & Hsub & t & Ht & Hreqs).
      destruct (run2 St handle self sched g1' g2 w1) as [[r1 r2] w2] eqn:Hrec.
      injection Hrun as <- <- <-.
      destruct (IH g1' g2 w1 r1 r2 w2) as (Hsub' & Hr1 & Hr2); auto.
      { eapply lookup_weaken; eassumption. }
      { eapply gen_owns_heap; eassumption. }
      split; [etrans; eassumption|]. split; [|exact Hr2].
      apply Forall_app. split; [|exact Hr1].
      rewrite (new_requests_app w w1 t Ht). exact Hreqs.
    + destruct (gen_next handle self g2 w) as [[r g2'] w1] eqn:Hnext.
      destruct (gen_next_isolated limit2 g2 w r g2' w1 Hq H2 Hnext)
        as (H2' & Hsub & t & Ht & Hreqs).
      destruct (run2 St handle self sched g1 g2' w1) as [[r1 r2] w2] eqn:Hrec.
      injection Hrun as <- <- <-.
      destruct (IH g1 g2' w1 r1 r2 w2) as (Hsub' & Hr1 & Hr2); auto.
      { eapply lookup_weaken; eassumption. }
      { eapply gen_owns_heap; eassumption. }
      split; [etrans; eassumption|]. split; [exact Hr1|].
      apply Forall_app. split; [|exact Hr2].
      rewrite (new_requests_app w w1 t Ht). exact Hreqs.
Qed.

(** C4. Two generators are created on the same query object [q], whose
    contents are [d], with limits [limit1] and [limit2], and pulled in any
    order [sched]. Afterwards [q] still holds [d], and so does every dict
    that was in the store: pagination keys only go to copies. Every request
    of the first generator carries [d] with the first generator's page size
    and a page number, every request of the second carries [d] with the
    second's: neither sees the other's keys. *)
Theorem get_paginated_query_isolation (path1 path2 : string)
    (limit1 limit2 retry1 retry2 : Z) (sched : list bool) (w : world St)
    (reqs1 reqs2 : list Request) (w' : world St) :
  w_heap w !! q = Some d ->
  run2 St handle self sched
       (get_paginated path1 (Some q) limit1 retry1)
       (get_paginated path2 (Some q) limit2 retry2) w = (reqs1, reqs2, w') ->
  w_heap w' !! q = Some d /\
  w_heap w ⊆ w_heap w' /\
  Forall (page_params d (page_size_for self limit1)) reqs1 /\
  Forall (page_params d (page_size_for self limit2)) reqs2.
Proof.
  intros Hq Hrun.
  destruct (run2_isolated limit1 limit2 sched
              (get_paginated path1 (Some q) limit1 retry1)
              (get_paginated path2 (Some q) limit2 retry2) w reqs1 reqs2 w' Hq
              (conj eq_refl eq_refl) (conj eq_refl eq_refl) Hrun) as (Hsub & H1 & H2).
  split; [eapply lookup_weaken; eassumption|]. auto.
Qed.

End Isolation.

(** ** The theorems at work on the example servers *)

Import Servers.


Lemma get_paginated_limit_yields_min_witness :
  (forall fuel : nat,
     (Nat.min (Z.to_nat 10) (length three_items) < fuel)%nat ->
     exists w' t,
       gen_take (repeating_server three_items) client fuel
                (get_paginated "/V1/products/" None 10 0) (init_world tt)
         = (take (Z.to_nat 10) three_items, Exhausted, GenDone, w') /\
       w_trace w' = w_trace (init_world tt) ++ t /\
       length (http_requests t)
         = Nat.max 1 (pages_for (Z.to_nat (page_size_for client 10))
                                (Nat.min (length three_items) (Z.to_nat 10)))) /\
  length (take (Z.to_nat 10) three_items) = Nat.min (Z.to_nat 10) (length three_items) /\
  ((Z.to_nat 10 <= length three_items)%nat ->
   exists g1 w1,
     gen_take (repeating_server three_items) client (Z.to_nat 10)
              (get_paginated "/V1/products/" None 10 0) (init_world tt)
       = (take (Z.to_nat 10) three_items, Pending, g1, w1) /\
     gen_next (repeating_server three_items) client g1 w1
       = (StopIteration, GenDone, w1)).
Proof.
  apply (get_paginated_limit_yields_min (repeating_server three_items) client
           three_items "/V1/products/" None 0).
  - reflexivity.
  - apply repeating_server_honors.
  - reflexivity.
  - reflexivity.
Defined.

(** The same run, computed: against the server that repeats its last
    page, a limit of 10 on three entities yields the three of them after
    two page requests; the count of the server ends the run. *)
Example get_paginated_limit_above_total :
  let run := gen_take (repeating_server three_items) client 11
                      (get_paginated "/V1/products/" None 10 0) (init_world tt) in
  run.1.1 = (three_items, Exhausted) /\
  length (http_requests (w_trace run.2)) = 2%nat.
Proof. split; vm_compute; reflexivity. Qed.

Lemma get_paginated_page_requests_witness :
  exists w' t,
    gen_take (repeating_server three_items) client 4
             (get_paginated "/V1/products/" None 4 0) (init_world tt)
      = (take (Z.to_nat 4) three_items, Exhausted, GenDone, w') /\
    w_trace w' = w_trace (init_world tt) ++ t /\
    length (http_requests t)
      = Nat.max 1 (pages_for (Z.to_nat (page_size_for client 4))
                             (Nat.min (length three_items) (Z.to_nat 4))) /\
    (forall j : nat, (j < length (http_requests t))%nat ->
       (length (stream (page_of three_items
                          (Z.to_nat (page_size_for client 4))) j)
        < Z.to_nat 4)%nat) /\
    ((Z.to_nat 4 <= length three_items)%nat ->
     (Z.to_nat 4 <= length (stream (page_of three_items
                                      (Z.to_nat (page_size_for client 4)))
                              (length (http_requests t))))%nat) /\
    (forall j : nat,
       4 = Z.of_nat j * PAGE_SIZE client ->
       (Z.to_nat 4 <= length three_items)%nat ->
       length (http_requests t) = j).
Proof.
  apply (get_paginated_page_requests (repeating_server three_items) client
           three_items "/V1/products/" None 0).
  - reflexivity.
  - apply repeating_server_honors.
  - reflexivity.
  - reflexivity.
  - simpl. lia.
Defined.

Lemma get_paginated_unlimited_yields_total_witness :
  exists w' t n0,
    gen_take (pages_server 3 [[JStr "item1"; JStr "item2"]; [JStr "item3"]]) client 4
             (get_paginated "/V1/products/" None (-1) 0) (init_world tt)
      = (take (Z.to_nat 3)
              (stream (nth_page [[JStr "item1"; JStr "item2"]; [JStr "item3"]]) 2),
         Exhausted, GenDone, w') /\
    Z.of_nat (length (take (Z.to_nat 3)
                (stream (nth_page [[JStr "item1"; JStr "item2"]; [JStr "item3"]]) 2))) = 3 /\
    w_trace w' = w_trace (init_world tt) ++ t /\
    length (http_requests t) = n0 /\
    (n0 <= 2)%nat /\
    Z.of_nat (length (stream (nth_page [[JStr "item1"; JStr "item2"]; [JStr "item3"]])
                             (n0 - 1))) < 3
      <= Z.of_nat (length (stream (nth_page [[JStr "item1"; JStr "item2"]; [JStr "item3"]])
                                  n0)).
Proof.
  apply (proj1 (get_paginated_unlimited_yields_total
                  (pages_server 3 [[JStr "item1"; JStr "item2"]; [JStr "item3"]])
                  client "/V1/products/" None (-1) 0 3
                  (nth_page [[JStr "item1"; JStr "item2"]; [JStr "item3"]])
                  ltac:(lia) eq_refl (pages_server_serves _ _ _ _) 2 4 (init_world tt))).
  - lia.
  - intros i Hi. assert (Hcase : i = 1%nat \/ i = 2%nat) by lia.
    destruct Hcase as [-> | ->]; discriminate.
  - simpl. lia.
  - simpl. lia.
Defined.

(** C3 as stated fails when the server reports a count of 0 with a
    non-empty page: the check against the count comes after the [yield],
    so one entity is yielded, more than the count. *)
Lemma get_paginated_unlimited_zero_total :
  ~ (forall (St : Type) (handle : Request -> St -> Response * St) (self : Magento)
            (path : string) (query : option loc) (limit retry total : Z)
            (pages : nat -> list JSON) (n fuel : nat) (w : world St),
       limit < 0 ->
       String.prefix "/V1/" path = true ->
       serves St handle (full_path_of self false path) (PAGE_SIZE self) total pages ->
       0 <= total ->
       (forall i, (1 <= i <= n)%nat -> pages i <> []) ->
       total <= Z.of_nat (length (stream pages n)) ->
       (Z.to_nat total < fuel)%nat ->
       exists items w',
         gen_take handle self fuel (get_paginated path query limit retry) w
           = (items, Exhausted, GenDone, w') /\
         Z.of_nat (length items) = total).
Proof.
  intros H.
  destruct (H unit (pages_server 0 [[JStr "item1"]]) client "/V1/products/" None (-1) 0 0
              (nth_page [[JStr "item1"]]) 1%nat 2%nat (init_world tt))
    as (items & w' & Hrun & Hlen).
  - lia.
  - reflexivity.
  - apply pages_server_serves.
  - lia.
  - intros i Hi. assert (i = 1%nat) as -> by lia. discriminate.
  - simpl. lia.
  - simpl. lia.
  - vm_compute in Hrun. injection Hrun as <- _. discriminate Hlen.
Qed.

Lemma request_api_retry_policy_witness :
  exists (r0 : Response) (rs : list Response) (res : result Response) (w' : world nat),
    request_api flaky_server client "get" "/V1/products/" None false false 2 (init_world 2%nat)
      = (res, w') /\
    serve_seq nat flaky_server
              (api_request nat client "get" "/V1/products/" None false (init_world 2%nat))
              (S (length rs)) 2%nat = (r0 :: rs, w_server w') /\
    w_trace w'
      = [] ++ [] ++
        EvHttp (api_request nat client "get" "/V1/products/" None false (init_world 2%nat)) r0
        :: retries (api_request nat client "get" "/V1/products/" None false (init_world 2%nat))
                   rs /\
    sleeps (retries (api_request nat client "get" "/V1/products/" None false
                                 (init_world 2%nat)) rs)
      = repeat 10 (length rs) /\
    Z.of_nat (S (length rs)) <= 2 + 1 /\
    Forall (fun r => ok r = false) (removelast (r0 :: rs)) /\
    Forall (fun r => ~ (200 <= status_code r < 300)) (removelast (r0 :: rs)) /\
    (ok (List.last rs r0) = true \/ Z.of_nat (length rs) = 2) /\
    (2 = 0 -> rs = []) /\
    (ok r0 = true -> rs = []) /\
    (ok (List.last rs r0) = true \/ false = false -> res = Ok (List.last rs r0)).
Proof.
  apply (proj1 (request_api_retry_policy flaky_server client "get" "/V1/products/" None
                  false false 2 (init_world 2%nat) ltac:(lia) eq_refl)).
  reflexivity.
Defined.

(** C5 as stated fails for a response outside 2xx that is not an error:
    the executor does not go on until a 2xx response or the end of the
    retries. Against a server that answers 304, with two retries allowed,
    it makes one attempt and returns the 304 response. *)
Lemma request_api_stops_before_2xx :
  ~ (forall (handle : Request -> unit -> Response * unit) (self : Magento)
            (method path : string) (params : option loc) (retry : Z)
            (w w' : world unit) (r : Response) (t : list event),
       0 <= retry ->
       String.prefix "/V1/" path = true ->
       refused self method = false ->
       request_api handle self method path params false false retry w = (Ok r, w') ->
       w_trace w' = w_trace w ++ t ->
       200 <= status_code r < 300 \/ length (http_requests t) = S (Z.to_nat retry)).
Proof.
  intros H.
  destruct (H (const_server (plain_response 304 "")) client "get" "/V1/products/" None 2
              (init_world tt)
              (request_api (const_server (plain_response 304 "")) client "get"
                           "/V1/products/" None false false 2 (init_world tt)).2
              (plain_response 304 "")
              [EvHttp (api_request unit client "get" "/V1/products/" None false
                                   (init_world tt))
                      (plain_response 304 "")])
    as [H2xx | Hn].
  - lia.
  - reflexivity.
  - reflexivity.
  - reflexivity.
  - reflexivity.
  - simpl in H2xx. lia.
  - discriminate Hn.
Qed.

(** The run of the specification's example: two failures, then a success. *)
Example request_api_fails_twice_then_succeeds :
  let req := api_request nat client "get" "/V1/products/" None false (init_world 2%nat) in
  request_api flaky_server client "get" "/V1/products/" None false true 2 (init_world 2%nat)
    = (Ok success,
       {| w_server := 0%nat; w_heap := ∅;
          w_trace := [EvHttp req unavailable; EvSleep 10;
                      EvHttp req unavailable; EvSleep 10;
                      EvHttp req success] |}).
Proof. reflexivity. Qed.

Lemma get_product_by_query_expect_one_witness :
  (exists w', get_product_by_query (repeating_server [JStr "item1"]) client 3 1%positive
                                   true (init_world tt)
              = (Ok (Some (Some (JStr "item1"))), w')) /\
  (exists w', get_product_by_query (db_server three_items) client 3 1%positive true
                                   (init_world tt)
              = (Raise (MagentoAssertionError 1%positive), w')).
Proof.
  split.
  - apply (proj1 (proj2 (get_product_by_query_expect_one (repeating_server [JStr "item1"])
                           client [JStr "item1"] (repeating_server_honors _ _) eq_refl
                           1%positive 3 (init_world tt) ltac:(lia))) (JStr "item1")).
    reflexivity.
  - apply (proj2 (proj2 (get_product_by_query_expect_one (db_server three_items) client
                           three_items (db_server_honors _ _) eq_refl 1%positive 3
                           (init_world tt) ltac:(lia)))).
    simpl. lia.
Defined.

Lemma fetch_page_missing_items_witness :
  fetch_page (const_server (json_response 200 (JObj []))) client a_frame (init_world tt)
    = (Ok None, after_fetch unit client a_frame (init_world tt)
                            (json_response 200 (JObj [])) tt).
Proof.
  apply (proj1 (fetch_page_missing_items (const_server (json_response 200 (JObj [])))
                  client a_frame (init_world tt) (json_response 200 (JObj [])) tt []
                  eq_refl eq_refl eq_refl eq_refl)).
  reflexivity.
Defined.

Lemma get_paginated_query_isolation_witness :
  let run := run2 unit (db_server three_items) client [true; false; true; false; true]
                  (get_paginated "/V1/products/" (Some 1%positive) 1 0)
                  (get_paginated "/V1/products/" (Some 1%positive) (-1) 0) query_world in
  w_heap run.2 !! 1%positive = Some a_query /\
  w_heap query_world ⊆ w_heap run.2 /\
  Forall (page_params a_query (page_size_for client 1)) run.1.1 /\
  Forall (page_params a_query (page_size_for client (-1))) run.1.2.
Proof.
  intros run.
  apply (get_paginated_query_isolation (db_server three_items) client 1%positive a_query
           "/V1/products/" "/V1/products/" 1 (-1) 0 0 [true; false; true; false; true]
           query_world run.1.1 run.1.2 run.2).
  - vm_compute. reflexivity.
  - unfold run. destruct (run2 _ _ _ _ _ _ _) as [[reqs1 reqs2] w']. reflexivity.
Defined.

(** * Further properties

    ** The request executor, whatever the server answers *)

Section Attempts.

Context {St : Type}.
Variable handle : Request -> St -> Response * St.
Variable self : Magento.

Lemma raise_for_response_error (r : Response) (w : world St) :
  ok r = false -> raise_for_response r w = (Raise (error_of r), w).
Proof.
  intros Hok. unfold raise_for_response, error_of. rewrite Hok.
  destruct (if starts_with_brace (text r) then json r else None) as [[| | | | |body]|];
    try reflexivity.
  destruct (obj_get "message" body); reflexivity.
Qed.

Lemma responses_of_app (t1 t2 : list event) :
  responses_of (t1 ++ t2) = responses_of t1 ++ responses_of t2.
Proof. unfold responses_of. apply omap_app. Qed.

Lemma responses_of_retries (req : Request) (rs : list Response) :
  responses_of (retries req rs) = rs.
Proof. induction rs as [|r rs IH]; simpl; [reflexivity|]. f_equal. exact IH. Qed.

Lemma http_requests_retries_length (req : Request) (rs : list Response) :
  length (http_requests (retries req rs)) = length rs.
Proof. induction rs as [|r rs IH]; simpl; [reflexivity|]. f_equal. exact IH. Qed.

Lemma sleeps_retries (req : Request) (rs : list Response) :
  sleeps (retries req rs) = repeat 10 (length rs).
Proof. induction rs as [|r rs IH]; simpl; [reflexivity|]. f_equal. exact IH. Qed.

Lemma last_cons_default (rs : list Response) (r0 : Response) :
  last (r0 :: rs) = Some (List.last rs r0).
Proof.
  revert r0. induction rs as [|r rs IH]; intros r0; [reflexivity|].
  rewrite last_cons_cons, IH, (last_cons _ rs r r0). reflexivity.
Qed.

Lemma removelast_last_all (rs : list Response) (r0 : Response) (P : Response -> Prop) :
  Forall P (removelast (r0 :: rs)) -> P (List.last rs r0) -> Forall P (r0 :: rs).
Proof.
  revert r0. induction rs as [|r rs IH]; intros r0 Hall Hlast.
  - constructor; [exact Hlast | constructor].
  - change (removelast (r0 :: r :: rs)) with (r0 :: removelast (r :: rs)) in Hall.
    inversion Hall; subst. constructor; [assumption|].
    apply IH; [assumption|]. rewrite (last_cons _ rs r r0) in Hlast. exact Hlast.
Qed.

(** The outcome of [request_api] on a path under [/V1/]: the attempts made,
    the world left, and the result, decided by the last response. *)
Lemma request_api_outcome method path params async_bulk throw retry (w : world St) :
  refused self method = false ->
  String.prefix "/V1/" path = true ->
  let req := api_request St self method path params async_bulk w in
  let log := if logger self
             then [EvLog (LogRequest method (full_path_of self async_bulk path))]
             else [] in
  exists (r0 : Response) (rs : list Response) (st : St),
    request_api handle self method path params async_bulk throw retry w
      = ((if throw && negb (ok (List.last rs r0))
          then Raise (error_of (List.last rs r0))
          else Ok (List.last rs r0)),
         {| w_server := st; w_heap := w_heap w;
            w_trace := w_trace w ++ log ++ EvHttp req r0 :: retries req rs |}) /\
    (length rs <= Z.to_nat retry)%nat /\
    Forall (fun r => ok r = false) (removelast (r0 :: rs)) /\
    (ok (List.last rs r0) = true \/ length rs = Z.to_nat retry).
Proof.
  intros Hacc Hpath req log.
  unfold request_api. rewrite Hpath. simpl.
  set (full_path := full_path_of self async_bulk path).
  set (w0 := {| w_server := w_server w; w_heap := w_heap w;
                w_trace := w_trace w ++ log |}).
  assert (Hlog : when (logger self) (emit (EvLog (LogRequest method full_path))) w
                 = (Ok tt, w0)).
  { unfold when, log, w0. destruct (logger self); simpl; [reflexivity|].
    unfold ret. rewrite app_nil_r. destruct w; reflexivity. }
  unfold bind at 1. rewrite Hlog.
  unfold bind at 1. rewrite super_request_api_spec by exact Hacc.
  change (session_request self method full_path params (w_heap w0)) with req.
  set (r0 := (handle req (w_server w0)).1).
  set (w1 := {| w_server := (handle req (w_server w0)).2; w_heap := w_heap w0;
                w_trace := w_trace w0 ++ [EvHttp req r0] |}).
  destruct (retry_loop_spec handle self method full_path params Hacc (Z.to_nat retry) r0 w1)
    as (rs & w' & Hrun & _ & Hheap & Htr & Hlen & Hfail & Hlast).
  change (session_request self method full_path params (w_heap w1)) with req in Htr.
  unfold bind at 1. rewrite Hrun.
  exists r0, rs, (w_server w').
  assert (Hw' : w' = {| w_server := w_server w'; w_heap := w_heap w;
                        w_trace := w_trace w ++ log ++ EvHttp req r0 :: retries req rs |}).
  { destruct w' as [s h tr]. simpl in *. rewrite Hheap, Htr, <- !app_assoc. reflexivity. }
  split; [|auto].
  unfold bind. destruct throw; simpl.
  - destruct (ok (List.last rs r0)) eqn:Hok; simpl.
    + rewrite raise_for_response_ok by exact Hok. unfold ret. rewrite <- Hw'. reflexivity.
    + rewrite raise_for_response_error by exact Hok. rewrite <- Hw'. reflexivity.
  - unfold ret. rewrite <- Hw'. reflexivity.
Qed.

(** X1. Without [throw], [request_api] never raises for what the server
    answers: on a path under [/V1/], when the session accepts the call, it
    returns the response of the last attempt, also a failed one. Its two
    failures come before anything is sent: a path outside [/V1/] fails the
    assertion before anything is logged, and a write by a read-only client
    is refused by the session, after the log line. *)
Theorem request_api_without_throw method path params async_bulk retry (w : world St) :
  (String.prefix "/V1/" path = false ->
   request_api handle self method path params async_bulk false retry w
     = (Raise AssertionError, w)) /\
  (String.prefix "/V1/" path = true ->
   refused self method = false ->
   exists (r : Response) (w' : world St) (t : list event),
     request_api handle self method path params async_bulk false retry w = (Ok r, w') /\
     w_trace w' = w_trace w ++ t /\
     last_response t = Some r) /\
  (String.prefix "/V1/" path = true ->
   refused self method = true ->
   exists (w' : world St) (t : list event),
     request_api handle self method path params async_bulk false retry w
       = (Raise AssertionError, w') /\
     w_trace w' = w_trace w ++ t /\
     http_requests t = [] /\
     sleeps t = []).
Proof.
  split; [|split].
  - intros Hpath. unfold request_api. rewrite Hpath. reflexivity.
  - intros Hpath Hacc.
    destruct (request_api_outcome method path params async_bulk false retry w Hacc Hpath)
      as (r0 & rs & st & Hrun & _).
    simpl in Hrun. eexists _, _, _. split; [exact Hrun|]. split; [reflexivity|].
    unfold last_response. rewrite responses_of_app.
    change (EvHttp ?q r0 :: ?l) with ([EvHttp q r0] ++ l).
    rewrite responses_of_app, responses_of_retries. simpl.
    assert (Hlog : responses_of (if logger self
                     then [EvLog (LogRequest method (full_path_of self async_bulk path))]
                     else []) = []) by (destruct (logger self); reflexivity).
    rewrite Hlog. simpl. apply last_cons_default.
  - intros Hpath Href.
    rewrite (request_api_refused handle self method path params async_bulk false retry w
               Hpath Href).
    eexists _, _. split; [reflexivity|]. split; [reflexivity|].
    destruct (logger self); split; reflexivity.
Qed.


End Attempts.

(** ** One pull of the generator, whatever the server answers *)

Section Pull.

Context {St : Type}.
Variable handle : Request -> St -> Response * St.
Variable self : Magento.

Lemma requested_page_page_request (f : frame) (w : world St) :
  requested_page (page_request St self f w) = Some (f_current_page f).
Proof. unfold requested_page, page_request. simpl. rewrite lookup_insert_eq. reflexivity. Qed.

Lemma last_response_app_quiet (t t' : list event) :
  responses_of t' = [] -> last_response (t ++ t') = last_response t.
Proof.
  intros H. unfold last_response. rewrite responses_of_app, H, app_nil_r. reflexivity.
Qed.

(** The page fetch of the frame [f], whatever the server answers. *)
Lemma fetch_page_any (f : frame) (w : world St) :
  exists st t,
    (fetch_page handle self f w).2
      = {| w_server := st;
           w_heap := <[fresh (dom (w_heap w)) :=
                       <[CURRENT_PAGE_KEY := JNum (f_current_page f)]>
                         (dict_read (f_query f) (w_heap w))]> (w_heap w);
           w_trace := w_trace w ++ t |} /\
    Forall (eq (page_request St self f w)) (http_requests t) /\
    (length (http_requests t) <= S (Z.to_nat (f_retry f)))%nat /\
    (forall rl, last_response t = Some rl -> ok rl = false ->
                (fetch_page handle self f w).1 = Raise (error_of rl)) /\
    (forall s, (fetch_page handle self f w).1 = Ok s ->
               exists rl, last_response t = Some rl /\ ok rl = true) /\
    (forall item g, (fetch_page handle self f w).1 = Ok (Some (item, g)) ->
                    exists tc rest, g = GenSuspended f tc rest).
Proof.
  set (l := fresh (dom (w_heap w))).
  set (d := dict_read (f_query f) (w_heap w)).
  set (w2 := {| w_server := w_server w;
                w_heap := <[l := <[CURRENT_PAGE_KEY := JNum (f_current_page f)]> d]> (w_heap w);
                w_trace := w_trace w |}).
  assert (Hfp : fetch_page handle self f w =
                match request_api handle self "get" (f_path f) (Some l) false true
                                  (f_retry f) w2 with
                | (Ok r, w3) => read_page self f r w3
                | (Raise e, w3) => (Raise e, w3)
                end).
  { unfold fetch_page.
    unfold bind at 1. unfold dict_copy, dict_alloc. simpl.
    unfold bind at 1. unfold dict_set. simpl. fold l d.
    unfold dict_read at 1. rewrite lookup_insert_eq. simpl. rewrite insert_insert_eq.
    reflexivity. }
  rewrite Hfp. clear Hfp.
  assert (Hreq : api_request St self "get" (f_path f) (Some l) false w2
                 = page_request St self f w).
  { unfold api_request, page_request, session_request. simpl. f_equal.
    unfold dict_read at 1. rewrite lookup_insert_eq. reflexivity. }
  destruct (String.prefix "/V1/" (f_path f)) eqn:Hpath.
  - destruct (request_api_outcome handle self "get" (f_path f) (Some l) false true
                (f_retry f) w2 (refused_get self) Hpath)
      as (r0 & rs & st & Hout & Hlen & _ & _).
    rewrite Hreq in Hout. rewrite Hout. clear Hout.
    set (log := if logger self
                then [EvLog (LogRequest "get" (full_path_of self false (f_path f)))]
                else []).
    set (req := page_request St self f w).
    set (t := log ++ EvHttp req r0 :: retries req rs).
    assert (Hlog : responses_of log = [] /\ http_requests log = []).
    { unfold log. destruct (logger self); split; reflexivity. }
    destruct Hlog as [Hl1 Hl2].
    assert (Hreqs : Forall (eq req) (http_requests t)).
    { unfold t. rewrite http_requests_app, Hl2. simpl.
      constructor; [reflexivity | apply http_requests_retries]. }
    assert (Hcount : (length (http_requests t) <= S (Z.to_nat (f_retry f)))%nat).
    { unfold t. rewrite http_requests_app, Hl2. simpl.
      rewrite http_requests_retries_length. lia. }
    assert (Hlast : last_response t = Some (List.last rs r0)).
    { unfold t, last_response. rewrite responses_of_app, Hl1. simpl.
      rewrite responses_of_retries. apply last_cons_default. }
    simpl andb.
    destruct (ok (List.last rs r0)) eqn:Hok; simpl negb; cbv iota.
    + destruct (read_page_effects self f (List.last rs r0)
                  {| w_server := st; w_heap := w_heap w2; w_trace := w_trace w2 ++ t |})
        as (t' & Hw' & Hn & Hg).
      assert (Hquiet : responses_of t' = []).
      { clear -Hn. induction t' as [|[q r| |] t' IH]; simpl in *;
          [reflexivity | discriminate | exact (IH Hn) | exact (IH Hn)]. }
      exists st, (t ++ t'). split; [|split; [|split; [|split; [|split]]]].
      * etrans; [exact Hw'|]. simpl. rewrite app_assoc. reflexivity.
      * rewrite http_requests_app, Hn, app_nil_r. exact Hreqs.
      * rewrite http_requests_app, Hn, app_nil_r. exact Hcount.
      * intros rl Hrl Hbad. rewrite last_response_app_quiet, Hlast in Hrl by exact Hquiet.
        congruence.
      * intros s _. exists (List.last rs r0).
        rewrite last_response_app_quiet by exact Hquiet. auto.
      * exact Hg.
    + exists st, t. split; [reflexivity|]. split; [exact Hreqs|]. split; [exact Hcount|].
      split; [|split; discriminate].
      intros rl Hrl _. rewrite Hlast in Hrl. injection Hrl as <-. reflexivity.
  - unfold request_api. rewrite Hpath. simpl.
    exists (w_server w), []. rewrite app_nil_r. split; [reflexivity|].
    split; [constructor|]. split; [simpl; lia|]. split; [discriminate|].
    split; discriminate.
Qed.

(** What a pull does, in any state and whatever the server answers. *)
Lemma gen_next_any (g : gen_state) (w : world St) r g' w' :
  gen_next handle self g w = (r, g', w') ->
  exists t,
    w_trace w' = w_trace w ++ t /\
    w_heap w ⊆ w_heap w' /\
    (forall rq rq', rq ∈ http_requests t -> rq' ∈ http_requests t -> rq = rq') /\
    Forall (fun rq => requested_page rq = Some (next_page g)) (http_requests t) /\
    (length (http_requests t) <= S (Z.to_nat (gen_retry g)))%nat /\
    (forall rl, last_response t = Some rl -> ok rl = false -> r = Raised (error_of rl)) /\
    ((forall item, r <> Yielded item) -> g' = GenDone) /\
    (forall item, r = Yielded item ->
     pulled self g g' (http_requests t = []) (http_requests t <> [])).
Proof.
  intros Hnext.
  assert (Hstay : forall (x : next_result),
            (forall item, x <> Yielded item) ->
            (x, GenDone, w) = (r, g', w') ->
            exists t,
              w_trace w' = w_trace w ++ t /\
              w_heap w ⊆ w_heap w' /\
              (forall rq rq', rq ∈ http_requests t -> rq' ∈ http_requests t -> rq = rq') /\
              Forall (fun rq => requested_page rq = Some (next_page g)) (http_requests t) /\
              (length (http_requests t) <= S (Z.to_nat (gen_retry g)))%nat /\
              (forall rl, last_response t = Some rl -> ok rl = false ->
                          r = Raised (error_of rl)) /\
              ((forall item, r <> Yielded item) -> g' = GenDone) /\
              (forall item, r = Yielded item ->
               pulled self g g' (http_requests t = []) (http_requests t <> []))).
  { intros x Hx Heq. injection Heq as <- <- <-. exists []. rewrite app_nil_r.
    split; [reflexivity|]. split; [reflexivity|].
    split; [intros rq rq' Hin; inversion Hin|].
    split; [constructor|]. split; [simpl; lia|].
    split; [discriminate|]. split; [reflexivity|].
    intros item Hi. destruct (Hx item Hi). }
  assert (Hfetch : forall (f : frame) (w0 : world St) (t0 : list event),
            w_heap w ⊆ w_heap w0 ->
            w_trace w0 = w_trace w ++ t0 -> http_requests t0 = [] -> responses_of t0 = [] ->
            f_current_page f = next_page g -> f_retry f = gen_retry g ->
            (forall tc rest, pulled self g (GenSuspended f tc rest) False True) ->
            match fetch_page handle self f w0 with
            | (Ok (Some (item, g0)), w1) => (Yielded item, g0, w1)
            | (Ok None, w1) => (StopIteration, GenDone, w1)
            | (Raise e, w1) => (Raised e, GenDone, w1)
            end = (r, g', w') ->
            exists t,
              w_trace w' = w_trace w ++ t /\
              w_heap w ⊆ w_heap w' /\
              (forall rq rq', rq ∈ http_requests t -> rq' ∈ http_requests t -> rq = rq') /\
              Forall (fun rq => requested_page rq = Some (next_page g)) (http_requests t) /\
              (length (http_requests t) <= S (Z.to_nat (gen_retry g)))%nat /\
              (forall rl, last_response t = Some rl -> ok rl = false ->
                          r = Raised (error_of rl)) /\
              ((forall item, r <> Yielded item) -> g' = GenDone) /\
              (forall item, r = Yielded item ->
               pulled self g g' (http_requests t = []) (http_requests t <> []))).
  { intros f w0 t0 Hsub0 Ht0 Hn0 Hr0 Hpage Hretry Hpulled Hres.
    destruct (fetch_page_any f w0) as (st & t & Hw & Hreqs & Hcount & Hfail & Hsucc & Hg).
    destruct (fetch_page handle self f w0) as [res w1] eqn:Hfp.
    simpl in Hw, Hfail, Hsucc, Hg.
    assert (Hw1 : w1 = w').
    { destruct res as [[[item g0]|]|e]; injection Hres as _ _ <-; reflexivity. }
    rewrite Hw1 in Hw. clear Hw1 Hfp. exists (t0 ++ t).
    split; [rewrite Hw; simpl; rewrite Ht0, app_assoc; reflexivity|].
    split.
    { etrans; [exact Hsub0|]. rewrite Hw. simpl.
      apply insert_subseteq, not_elem_of_dom, is_fresh. }
    rewrite http_requests_app, Hn0. simpl.
    split.
    { intros rq rq' Hin Hin'. rewrite Forall_forall in Hreqs.
      rewrite <- (Hreqs rq Hin), <- (Hreqs rq' Hin'). reflexivity. }
    split.
    { eapply Forall_impl; [exact Hreqs|]. intros rq <-.
      rewrite requested_page_page_request, Hpage. reflexivity. }
    split; [rewrite <- Hretry; exact Hcount|].
    split.
    { intros rl Hrl Hbad. unfold last_response in Hrl.
      rewrite responses_of_app, Hr0 in Hrl. simpl in Hrl.
      rewrite (Hfail rl Hrl Hbad) in Hres. injection Hres as <- _. reflexivity. }
    split.
    { intros Hny. destruct res as [[[item g0]|]|e]; injection Hres as Hr Hg0;
        [destruct (Hny item (eq_sym Hr)) | symmetry; exact Hg0 | symmetry; exact Hg0]. }
    intros item Hy. destruct res as [[[item0 g0]|]|e]; injection Hres as Hr Hg0;
      [|subst r; discriminate | subst r; discriminate].
    destruct (Hg item0 g0 eq_refl) as (tc & rest & ->). subst g'.
    assert (Hloud : http_requests t <> []).
    { destruct (Hsucc _ eq_refl) as (rl & Hrl & _). intros Hnil.
      unfold last_response in Hrl.
      assert (Hnone : responses_of t = []).
      { clear -Hnil. induction t as [|[q x| |] t IH]; simpl in *;
          [reflexivity | discriminate | exact (IH Hnil) | exact (IH Hnil)]. }
      rewrite Hnone in Hrl. discriminate Hrl. }
    destruct g as [path query limit retry | f1 tc1 rest1 |]; simpl in *.
    - destruct (Hpulled tc rest) as [_ Hp]. split; [exact Hloud | exact Hp].
    - destruct (Hpulled tc rest) as [Hns (tc' & rest' & [[_ []] | [Hg2 _]])].
      split; [exact Hns|]. exists tc', rest'. right. split; [exact Hg2 | exact Hloud].
    - exact (Hpulled tc rest). }
  destruct g as [path query limit retry | f tc rest |].
  - unfold gen_next in Hnext.
    destruct (Z.eqb_spec limit 0) as [Hz | Hnz].
    + unfold start in Hnext. rewrite Hz in Hnext. simpl in Hnext.
      apply (Hstay StopIteration); [discriminate | exact Hnext].
    + rewrite start_spec in Hnext by exact Hnz.
      apply (Hfetch (first_frame self path limit retry (fresh (dom (w_heap w))))
                    (started self query limit w) []
                    (started_heap self limit query w)
                    (eq_sym (app_nil_r _)) eq_refl eq_refl eq_refl eq_refl);
        [| exact Hnext].
      intros tc rest. simpl. split; [exact I|]. eauto.
  - unfold gen_next, resume in Hnext.
    destruct (py_int_ge (f_count f + 1) tc) as [[|]|];
      [apply (Hstay StopIteration); [discriminate | exact Hnext] |
       | apply (Hstay (Raised TypeError)); [discriminate | exact Hnext]].
    destruct (f_is_limited f && (f_limit f <=? f_count f + 1)) eqn:Hlim;
      [apply (Hstay StopIteration); [discriminate | exact Hnext]|].
    destruct rest as [|item rest].
    + apply (Hfetch (set_current_page (set_count f (f_count f + 1)) (f_current_page f + 1))
                    w [] (reflexivity _) (eq_sym (app_nil_r _)) eq_refl eq_refl
                    eq_refl eq_refl); [| exact Hnext].
      intros tc' rest'. simpl. split; [exact Hlim|]. exists tc', rest'. right. auto.
    + rewrite yield_item_spec in Hnext. injection Hnext as <- <- <-.
      exists (log_loaded self (set_count f (f_count f + 1))). simpl.
      rewrite http_requests_log_loaded.
      split; [reflexivity|]. split; [reflexivity|].
      split; [intros rq rq' Hin; inversion Hin|].
      split; [constructor|]. split; [simpl; lia|].
      split.
      { intros rl Hrl. unfold last_response, log_loaded in Hrl.
        destruct (_ && _ && _); discriminate Hrl. }
      split; [intros Hny; destruct (Hny item eq_refl)|].
      intros _ _. split; [exact Hlim|]. exists tc, rest. left. auto.
  - simpl in Hnext. apply (Hstay StopIteration); [discriminate | exact Hnext].
Qed.


(** X3. One pull asks for at most one page: whatever the state and the
    server, the requests of a pull are one and the same request, for the
    generator's next page, sent at most [retry + 1] times; a pull that still
    has items of the current page in hand sends nothing. *)
Theorem gen_next_one_page (g : gen_state) (w : world St) :
  exists t,
    w_trace (gen_next handle self g w).2 = w_trace w ++ t /\
    (forall rq rq', rq ∈ http_requests t -> rq' ∈ http_requests t -> rq = rq') /\
    Forall (fun rq => requested_page rq = Some (next_page g)) (http_requests t) /\
    (length (http_requests t) <= S (Z.to_nat (gen_retry g)))%nat /\
    (forall f tc item rest, g = GenSuspended f tc (item :: rest) -> http_requests t = []).
Proof.
  destruct (gen_next handle self g w) as [[r g'] w'] eqn:Hnext.
  destruct (gen_next_any g w r g' w' Hnext) as (t & Htr & _ & Hsame & Hpage & Hcount & _).
  exists t. simpl. split; [exact Htr|]. split; [exact Hsame|]. split; [exact Hpage|].
  split; [exact Hcount|].
  intros f tc item rest ->. unfold gen_next, resume in Hnext.
  assert (Hquiet : forall x, (x, GenDone, w) = (r, g', w') -> http_requests t = []).
  { intros x Hx. injection Hx as _ _ <-.
    rewrite <- (app_nil_r (w_trace w)) in Htr at 1. apply app_inv_head in Htr.
    subst t. reflexivity. }
  destruct (py_int_ge (f_count f + 1) tc) as [[|]|]; try exact (Hquiet _ Hnext).
  destruct (f_is_limited f && (f_limit f <=? f_count f + 1)); [exact (Hquiet _ Hnext)|].
  rewrite yield_item_spec in Hnext. injection Hnext as _ _ <-. simpl in Htr.
  apply app_inv_head in Htr. subst t. apply http_requests_log_loaded.
Qed.

(** X4. A failed page is never silent: when the last response a pull
    received is a failure, the pull raises that response's error, the
    generator is finished, and the next pull is [StopIteration] without any
    effect. *)
Theorem gen_next_failure_is_raised (g : gen_state) (w : world St) r g' w' t rl :
  gen_next handle self g w = (r, g', w') ->
  w_trace w' = w_trace w ++ t ->
  last_response t = Some rl ->
  ok rl = false ->
  r = Raised (error_of rl) /\
  g' = GenDone /\
  gen_next handle self g' w' = (StopIteration, GenDone, w').
Proof.
  intros Hnext Htr Hlast Hbad.
  destruct (gen_next_any g w r g' w' Hnext) as (t' & Htr' & _ & _ & _ & _ & Hfail & Hdone & _).
  rewrite Htr in Htr'. apply app_inv_head in Htr'. subst t'.
  pose proof (Hfail rl Hlast Hbad) as Hr. split; [exact Hr|].
  assert (Hg : g' = GenDone) by (apply Hdone; intros item; rewrite Hr; discriminate).
  split; [exact Hg|]. rewrite Hg. reflexivity.
Qed.

Lemma within_limit_pulled (k : Z) (g g' : gen_state) (quiet loud : Prop) :
  0 < k ->
  within_limit k g ->
  pulled self g g' quiet loud ->
  within_limit k g' /\ (yields_left k g' < yields_left k g)%nat.
Proof.
  intros Hk Hin Hp. destruct g as [path query limit retry | f tc rest |]; simpl in *.
  - subst limit. destruct Hp as [_ (l & tc & rest & ->)]. simpl.
    destruct (Z.ltb_spec 0 k); [|lia]. split; [repeat split; lia | lia].
  - destruct Hin as (Hlimit & Hlimited & Hc).
    destruct Hp as [Hns (tc' & rest' & [[-> _] | [-> _]])];
      rewrite Hlimited, Hlimit in Hns; simpl in Hns;
      destruct (Z.leb_spec k (f_count f + 1)); try discriminate;
      simpl; (split; [repeat split; [assumption | assumption | lia | lia] | lia]).
  - destruct Hp.
Qed.

Lemma gen_take_within_limit (k : Z) :
  0 < k ->
  forall (fuel : nat) (g : gen_state) (w : world St) items st g' w',
    within_limit k g ->
    gen_take handle self fuel g w = (items, st, g', w') ->
    (length items <= yields_left k g)%nat /\
    ((yields_left k g < fuel)%nat -> st <> Pending).
Proof.
  intros Hk. induction fuel as [|fuel IH]; intros g w items st g' w' Hin Hrun.
  - simpl in Hrun. injection Hrun as <- <- <- <-. simpl. split; lia.
  - simpl in Hrun.
    destruct (gen_next handle self g w) as [[r g1] w1] eqn:Hnext.
    destruct (gen_next_any g w r g1 w1 Hnext) as (t & _ & _ & _ & _ & _ & _ & _ & Hpulled).
    destruct r as [item| |e].
    + destruct (within_limit_pulled k g g1 _ _ Hk Hin (Hpulled item eq_refl)) as [Hin1 Hlt].
      destruct (gen_take handle self fuel g1 w1) as [[[items1 st1] g2] w2] eqn:Hrec.
      injection Hrun as <- <- <- <-.
      destruct (IH g1 w1 items1 st1 g2 w2 Hin1 Hrec) as [Hlen Hst].
      simpl. split; [lia|]. intros Hf. apply Hst. lia.
    + injection Hrun as <- <- <- <-. simpl. split; [lia | discriminate].
    + injection Hrun as <- <- <- <-. simpl. split; [lia | discriminate].
Qed.

(** X5. A positive limit is a hard bound, whatever the server answers: a
    generator created with limit [k > 0] yields at most [k] items, and a
    consumer that pulls more than [k] times has seen it end. *)
Theorem get_paginated_limit_is_a_bound (path : string) (query : option loc)
    (k retry : Z) (fuel : nat) (w : world St) items st g' w' :
  0 < k ->
  gen_take handle self fuel (get_paginated path query k retry) w = (items, st, g', w') ->
  (length items <= Z.to_nat k)%nat /\
  ((Z.to_nat k < fuel)%nat -> st <> Pending).
Proof.
  intros Hk Hrun.
  apply (gen_take_within_limit k Hk fuel (get_paginated path query k retry) w
           items st g' w' eq_refl Hrun).
Qed.

Lemma climbs_repeat (p : Z) (n : nat) (l : list Z) :
  (n <> 0)%nat -> climbs (p + 1) l -> climbs p (repeat (p + 1) n ++ l).
Proof.
  intros Hn Hl. destruct n as [|n]; [contradiction|]. simpl.
  split; [right; reflexivity|]. clear Hn.
  induction n as [|n IH]; simpl; [exact Hl|]. split; [left; reflexivity | exact IH].
Qed.

Lemma map_requested_page_repeat (p : Z) (l : list Request) :
  Forall (fun rq => requested_page rq = Some p) l ->
  map requested_page l = map Some (repeat p (length l)).
Proof.
  induction 1 as [|rq l Hrq _ IH]; simpl; [reflexivity|]. rewrite Hrq, IH. reflexivity.
Qed.

Lemma at_page_pulled (p : Z) (g g' : gen_state) (quiet loud : Prop) :
  at_page p g ->
  pulled self g g' quiet loud ->
  (at_page p g' /\ quiet) \/ (at_page (p + 1) g' /\ loud).
Proof.
  intros Hat Hp. destruct g as [path query limit retry | f tc rest |]; simpl in *.
  - subst p. destruct Hp as [Hl (l & tc & rest & ->)]. right. split; [reflexivity | exact Hl].
  - destruct Hp as [_ (tc' & rest' & [[-> Hq] | [-> Hl]])]; simpl.
    + left. auto.
    + right. split; [lia | exact Hl].
  - destruct Hp.
Qed.

Lemma next_page_at (p : Z) (g : gen_state) (l : list Request) :
  at_page p g -> l <> [] ->
  Forall (fun rq => requested_page rq = Some (next_page g)) l ->
  g <> GenDone ->
  Forall (fun rq => requested_page rq = Some (p + 1)) l.
Proof.
  intros Hat _ Hl Hg. destruct g; simpl in *; subst; try exact Hl. contradiction.
Qed.

Lemma gen_take_pages_climb :
  forall (fuel : nat) (p : Z) (g : gen_state) (w : world St) items st g' w',
    at_page p g ->
    gen_take handle self fuel g w = (items, st, g', w') ->
    exists t l,
      w_trace w' = w_trace w ++ t /\
      map requested_page (http_requests t) = map Some l /\
      climbs p l /\
      (forall x, head l = Some x -> x = p + 1).
Proof.
  induction fuel as [|fuel IH]; intros p g w items st g' w' Hat Hrun.
  - simpl in Hrun. injection Hrun as <- <- <- <-. exists [], []. rewrite app_nil_r.
    repeat split. discriminate.
  - simpl in Hrun.
    destruct (gen_next handle self g w) as [[r g1] w1] eqn:Hnext.
    destruct (gen_next_any g w r g1 w1 Hnext)
      as (t1 & Ht1 & _ & _ & Hpage & _ & _ & Hdone & Hpulled).
    assert (Hg : http_requests t1 <> [] -> g <> GenDone).
    { intros Hne ->. simpl in Hnext. injection Hnext as _ _ <-.
      rewrite <- (app_nil_r (w_trace w)) in Ht1 at 1. apply app_inv_head in Ht1.
      subst t1. apply Hne. reflexivity. }
    assert (Hhere : map requested_page (http_requests t1)
                    = map Some (repeat (p + 1) (length (http_requests t1)))).
    { destruct (http_requests t1) as [|rq l1] eqn:Hl1; [reflexivity|].
      apply map_requested_page_repeat.
      apply (next_page_at p g); [exact Hat | discriminate | exact Hpage|].
      apply Hg. discriminate. }
    assert (Hend : forall (x : next_result),
              (forall item, x <> Yielded item) -> r = x ->
              ([], items, w1) = ([] : list JSON, items, w') ->
              exists t l,
                w_trace w' = w_trace w ++ t /\
                map requested_page (http_requests t) = map Some l /\
                climbs p l /\
                (forall x, head l = Some x -> x = p + 1)).
    { intros x _ _ Hw. injection Hw as <-.
      exists t1, (repeat (p + 1) (length (http_requests t1))).
      split; [exact Ht1|]. split; [exact Hhere|].
      destruct (length (http_requests t1)) as [|n]; [simpl; split; [exact I | discriminate]|].
      split.
      - rewrite <- (app_nil_r (repeat (p + 1) (S n))).
        apply climbs_repeat; [discriminate | exact I].
      - simpl. intros x0 [= <-]. reflexivity. }
    destruct r as [item| |e].
    + destruct (gen_take handle self fuel g1 w1) as [[[items1 st1] g2] w2] eqn:Hrec.
      injection Hrun as <- <- <- <-.
      destruct (at_page_pulled p g g1 _ _ Hat (Hpulled item eq_refl))
        as [[Hat1 Hquiet] | [Hat1 Hloud]].
      * destruct (IH p g1 w1 items1 st1 g2 w2 Hat1 Hrec) as (t & l & Ht & Hmap & Hcl & Hhd).
        exists (t1 ++ t), l. split; [rewrite Ht, Ht1, app_assoc; reflexivity|].
        rewrite http_requests_app, Hquiet. simpl. auto.
      * destruct (IH (p + 1) g1 w1 items1 st1 g2 w2 Hat1 Hrec)
          as (t & l & Ht & Hmap & Hcl & Hhd).
        exists (t1 ++ t), (repeat (p + 1) (length (http_requests t1)) ++ l).
        split; [rewrite Ht, Ht1, app_assoc; reflexivity|].
        split; [rewrite http_requests_app, !map_app, Hhere, Hmap; reflexivity|].
        split.
        -- apply climbs_repeat; [|exact Hcl].
           destruct (http_requests t1); [contradiction | discriminate].
        -- destruct (http_requests t1); [contradiction|]. simpl.
           intros x [= <-]. reflexivity.
    + injection Hrun as _ _ _ Hw.
      apply (Hend StopIteration); [discriminate | reflexivity | rewrite Hw; reflexivity].
    + injection Hrun as _ _ _ Hw.
      apply (Hend (Raised e)); [discriminate | reflexivity | rewrite Hw; reflexivity].
Qed.

(** X6. Pages are asked in order, whatever the server answers: over any
    run, the page numbers of the requests start at 1 and each one is the
    page before it (a retry) or its successor; no page is skipped or asked
    again later. *)
Theorem get_paginated_pages_in_order (path : string) (query : option loc)
    (limit retry : Z) (fuel : nat) (w : world St) :
  exists t l,
    w_trace (gen_take handle self fuel (get_paginated path query limit retry) w).2
      = w_trace w ++ t /\
    map requested_page (http_requests t) = map Some l /\
    climbs 1 l /\
    (forall x, head l = Some x -> x = 1).
Proof.
  destruct (gen_take handle self fuel (get_paginated path query limit retry) w)
    as [[[items st] g'] w'] eqn:Hrun.
  destruct (gen_take_pages_climb fuel 0 (get_paginated path query limit retry) w
              items st g' w' eq_refl Hrun)
    as (t & l & Ht & Hmap & Hcl & Hhd).
  exists t, l. simpl. split; [exact Ht|]. split; [exact Hmap|].
  split; [|exact Hhd].
  destruct l as [|x l]; [exact I|]. simpl in *.
  rewrite (Hhd x eq_refl) in *. destruct Hcl as [_ Hcl]. split; [left; reflexivity | exact Hcl].
Qed.

End Pull.

(** ** More on the product getters and on honest servers *)

Section Consumers.

Context {St : Type}.
Variable handle : Request -> St -> Response * St.
Variable self : Magento.

Lemma gen_take_more :
  forall (n k : nat) (g : gen_state) (w : world St) items st g' w',
    gen_take handle self n g w = (items, st, g', w') ->
    st <> Pending ->
    gen_take handle self (n + k) g w = (items, st, g', w').
Proof.
  induction n as [|n IH]; intros k g w items st g' w' Hrun Hst.
  - simpl in Hrun. injection Hrun as _ <- _ _. contradiction.
  - simpl in Hrun |- *.
    destruct (gen_next handle self g w) as [[[item| |e] g1] w1]; try exact Hrun.
    destruct (gen_take handle self n g1 w1) as [[[items1 st1] g2] w2] eqn:Hrec.
    injection Hrun as <- <- <- <-.
    rewrite (IH k g1 w1 items1 st1 g2 w2 Hrec Hst). reflexivity.
Qed.

(** X7. [get_product_by_query] with [expect_one] true is decided after
    three pulls whatever the server answers: more fuel gives the same
    result and the same world, and the result is never the out-of-fuel
    one. So the call returns or raises against every server. *)
Theorem get_product_by_query_always_decided (query : loc) (fuel : nat) (w : world St) :
  (3 <= fuel)%nat ->
  get_product_by_query handle self fuel query true w
    = get_product_by_query handle self 3 query true w /\
  (get_product_by_query handle self fuel query true w).1 <> Ok None.
Proof.
  intros Hfuel.
  destruct (gen_take handle self 3 (get_products 2 (Some query) 0) w)
    as [[[items st] g'] w'] eqn:Hrun.
  destruct (gen_take_within_limit handle self 2 ltac:(lia) 3
              (get_products 2 (Some query) 0) w items st g' w' eq_refl Hrun)
    as [_ Hst].
  assert (Hdone : st <> Pending) by (apply Hst; simpl; lia).
  pose proof (gen_take_more 3 (fuel - 3) _ w items st g' w' Hrun Hdone) as Hmore.
  replace (3 + (fuel - 3))%nat with fuel in Hmore by lia.
  unfold get_product_by_query. change (negb true) with false. cbv iota.
  unfold bind, py_list. rewrite Hmore, Hrun.
  split; [reflexivity|].
  destruct st as [|e|]; [|discriminate|contradiction]. simpl.
  destruct items as [|p [|p' l]]; discriminate.
Qed.

End Consumers.

(** The reference run over the pages of an honest server with entities,
    without a limit: the first [fuel] pulls. *)
Lemma paginate_honest_unlimited (db : list JSON) (size : nat) (limit : Z) (fuel : nat) :
  (0 < size)%nat -> limit < 0 -> db <> [] ->
  paginate (page_of db size) (Z.of_nat (length db)) limit fuel =
    (take (Nat.min fuel (length db)) db, (length db <? fuel)%nat,
     pages_for size (Nat.min fuel (length db))).
Proof.
  intros Hsize Hlimit Hdb.
  assert (Hlen : (1 <= length db)%nat) by (destruct db; [contradiction | simpl; lia]).
  set (m := length db).
  set (e := Nat.min fuel m).
  destruct (pages_for_spec size e Hsize) as [Hle Hmin].
  set (n := pages_for size e) in *.
  rewrite (paginate_spec (page_of db size) (Z.of_nat m) limit m
             (fun c => stops_unlimited _ limit m c eq_refl Hlimit) fuel n).
  - fold e. rewrite stream_page_of, take_take. f_equal. f_equal. f_equal. lia.
  - lia.
  - unfold m. lia.
  - intros i Hi. apply page_of_nonempty; [lia | lia |].
    destruct Hmin as [Hn | Hmin]; [lia|]. unfold e, m in *. nia.
  - fold e. rewrite stream_page_of, length_take. unfold e, m in *. lia.
  - fold e. destruct Hmin as [Hn | Hmin]; [left; exact Hn | right].
    rewrite stream_page_of, length_take. lia.
Qed.

Section HonestMore.

Context {St : Type}.
Variable handle : Request -> St -> Response * St.
Variable self : Magento.
Variable db : list JSON.
Variable path : string.
Variable query : option loc.
Variable retry : Z.

Hypothesis Hpath : String.prefix "/V1/" path = true.
Hypothesis Hhonors : honors St handle (full_path_of self false path) db.
Hypothesis Hpositive : 0 < PAGE_SIZE self.

Lemma honest_serves_unlimited (limit : Z) :
  limit < 0 ->
  serves_upto St handle (Nat.max 1 (pages_for (Z.to_nat (PAGE_SIZE self)) (length db)))
         (full_path_of self false path) (page_size_for self limit)
         (Z.of_nat (length db)) (page_of db (Z.to_nat (PAGE_SIZE self))).
Proof.
  intros Hlimit. rewrite (page_size_for_unlimited self limit Hlimit).
  pose proof (Hhonors (Z.to_nat (PAGE_SIZE self)) ltac:(lia)) as H.
  rewrite Z2Nat.id in H by lia. exact H.
Qed.

Lemma honest_run_unlimited (limit : Z) (fuel : nat) (w : world St) :
  limit < 0 -> db <> [] ->
  exists g' w' t,
    gen_take handle self fuel (get_paginated path query limit retry) w
      = (take (Nat.min fuel (length db)) db, status_of (length db <? fuel)%nat, g', w') /\
    w_trace w' = w_trace w ++ t /\
    length (http_requests t)
      = pages_for (Z.to_nat (PAGE_SIZE self)) (Nat.min fuel (length db)) /\
    ((length db <? fuel)%nat = true -> g' = GenDone).
Proof.
  intros Hlimit Hdb.
  destruct (gen_take_paginate handle self (full_path_of self false path)
              (page_size_for self limit) (Z.of_nat (length db)) limit
              (page_of db (Z.to_nat (PAGE_SIZE self))) _
              (honest_serves_unlimited limit Hlimit) eq_refl path query retry Hpath eq_refl
              fuel w _ _ _
              (paginate_honest_unlimited db (Z.to_nat (PAGE_SIZE self)) limit fuel
                 ltac:(lia) Hlimit Hdb))
    as (g' & w' & t & Hrun & Htr & Hn & _ & Hend & _).
  { etrans; [apply (pages_for_mono _ _ (length db)); lia | lia]. }
  exists g', w', t. auto.
Qed.

(** X8. Without a limit and against a server that honors the contract on
    [db], a full run yields [db] itself, every entity once and in the
    server's order, and asks for as many pages as [db] fills (one when [db]
    is empty): no further page is asked when the last page is full. *)
Theorem get_paginated_unlimited_yields_all (limit : Z) (fuel : nat) (w : world St) :
  limit < 0 ->
  (length db < fuel)%nat ->
  exists w' t,
    gen_take handle self fuel (get_paginated path query limit retry) w
      = (db, Exhausted, GenDone, w') /\
    w_trace w' = w_trace w ++ t /\
    length (http_requests t)
      = Nat.max 1 (pages_for (Z.to_nat (PAGE_SIZE self)) (length db)).
Proof.
  intros Hlimit Hfuel.
  assert (Hcase : db = [] \/ db <> []) by (clear; destruct db; [left | right]; congruence).
  destruct Hcase as [Hdb | Hne].
  - destruct fuel as [|fuel]; [lia|].
    destruct (gen_take_paginate handle self (full_path_of self false path)
                (page_size_for self limit) (Z.of_nat (length db)) limit
                (page_of db (Z.to_nat (PAGE_SIZE self))) _
                (honest_serves_unlimited limit Hlimit) eq_refl path query retry Hpath
                eq_refl (S fuel) w [] true 1%nat)
      as (g' & w' & t & Hrun & Htr & Hn & _ & Hend & _).
    { apply paginate_empty; [lia|]. rewrite Hdb. unfold page_of.
      generalize (Z.to_nat (PAGE_SIZE self)). intros s. destruct s; reflexivity. }
    { lia. }
    rewrite (Hend eq_refl) in Hrun. exists w', t. rewrite Hdb. simpl length.
    unfold pages_for. simpl Nat.add. rewrite Nat.div_small by lia. auto.
  - destruct (honest_run_unlimited limit fuel w Hlimit Hne)
      as (g' & w' & t & Hrun & Htr & Hn & Hend).
    assert (Hlen : (1 <= length db)%nat).
    { clear -Hne. destruct db; [contradiction | simpl; lia]. }
    assert (Hlt : (length db <? fuel)%nat = true) by (apply Nat.ltb_lt; lia).
    rewrite Hlt in Hrun. rewrite (Hend Hlt) in Hrun.
    replace (Nat.min fuel (length db)) with (length db) in Hrun, Hn by lia.
    rewrite firstn_all in Hrun.
    exists w', t. split; [exact Hrun|]. split; [exact Htr|]. rewrite Hn.
    destruct (pages_for_spec (Z.to_nat (PAGE_SIZE self)) (length db) ltac:(lia)) as [Hle _].
    destruct (pages_for (Z.to_nat (PAGE_SIZE self)) (length db)); [simpl in Hle; lia | lia].
Qed.

(** X9. Pages are fetched on demand: against an honest server, a consumer
    that pulls [j] items, within the entities and the limit, gets the first
    [j] entities and has caused exactly the page requests that hold [j]
    entities, whatever the limit. *)
Theorem get_paginated_fetches_lazily (limit : Z) (j : nat) (w : world St) :
  limit <> 0 ->
  (j <= length db)%nat ->
  (0 < limit -> Z.of_nat j <= limit) ->
  exists st g' w' t,
    gen_take handle self j (get_paginated path query limit retry) w
      = (take j db, st, g', w') /\
    w_trace w' = w_trace w ++ t /\
    length (http_requests t) = pages_for (Z.to_nat (page_size_for self limit)) j.
Proof.
  intros Hlimit Hj Hk.
  assert (Hcase : db = [] \/ db <> []) by (clear; destruct db; [left | right]; congruence).
  destruct Hcase as [Hdb | Hne].
  - assert (j = 0%nat) as -> by (rewrite Hdb in Hj; simpl in Hj; lia).
    exists Pending, (get_paginated path query limit retry), w, []. simpl.
    rewrite app_nil_r. repeat split.
    unfold pages_for. simpl Nat.add.
    pose proof Hpositive.
    assert (0 < page_size_for self limit).
    { unfold page_size_for. destruct (_ && _) eqn:Hb; [|lia].
      apply andb_prop in Hb. destruct Hb as [Hb _]. apply Z.ltb_lt in Hb. lia. }
    rewrite Nat.div_small by lia. reflexivity.
  - destruct (Z.lt_ge_cases 0 limit) as [Hpos | Hneg].
    + destruct (honest_run handle self db path query retry Hpath Hhonors Hpositive
                  limit j w Hpos Hne) as (g' & w' & t & Hrun & Htr & Hn & _).
      specialize (Hk Hpos).
      replace (Nat.min j (Nat.min (length db) (Z.to_nat limit))) with j in Hrun, Hn by lia.
      eauto 10.
    + assert (Hlt : limit < 0) by lia.
      destruct (honest_run_unlimited limit j w Hlt Hne) as (g' & w' & t & Hrun & Htr & Hn & _).
      replace (Nat.min j (length db)) with j in Hrun, Hn by lia.
      rewrite (page_size_for_unlimited self limit Hlt). eauto 10.
Qed.

End HonestMore.

Section FirstProduct.

Context {St : Type}.
Variable handle : Request -> St -> Response * St.
Variable self : Magento.
Variable db : list JSON.

Hypothesis Hhonors : honors St handle (full_path_of self false "/V1/products/") db.
Hypothesis Hpositive : 0 < PAGE_SIZE self.

(** X10. [get_product_by_query] with [expect_one] false, against a server
    that honors the contract on the matching products [db]: it returns the
    first product, or [None] when there is none, after exactly one
    request. *)
Theorem get_product_by_query_first (query : loc) (fuel : nat) (w : world St) :
  exists w' t,
    get_product_by_query handle self fuel query false w = (Ok (Some (head db)), w') /\
    w_trace w' = w_trace w ++ t /\
    length (http_requests t) = 1%nat.
Proof.
  assert (Hgo : forall r g1 w1,
            gen_next handle self (get_products 1 (Some query) 0) w = (r, g1, w1) ->
            (forall e, r <> Raised e) ->
            get_product_by_query handle self fuel query false w
              = (Ok (Some (match r with Yielded item => Some item | _ => None end)), w1)).
  { intros r g1 w1 Hnext Hne. unfold get_product_by_query. change (negb false) with true.
    cbv iota. unfold bind, first_or_none. rewrite Hnext.
    destruct r as [item| |e]; [reflexivity | reflexivity | destruct (Hne e eq_refl)]. }
  assert (Hcase : db = [] \/ db <> []) by (clear; destruct db; [left | right]; congruence).
  destruct Hcase as [Hdb | Hne].
  - destruct (honest_run_empty handle self db "/V1/products/" (Some query) 0 eq_refl
                Hhonors Hpositive 1 0 w ltac:(lia) Hdb) as (w' & t & Hrun & Htr & Hn).
    simpl in Hrun. unfold get_products in Hgo.
    destruct (gen_next handle self (get_paginated "/V1/products/" (Some query) 1 0) w)
      as [[[item| |e] g1] w1] eqn:Hnext.
    + destruct (gen_take handle self 0 g1 w1) as [[[? ?] ?] ?]. discriminate Hrun.
    + injection Hrun as _ <-. exists w1, t.
      rewrite (Hgo _ _ _ eq_refl ltac:(discriminate)). rewrite Hdb at 1. auto.
    + discriminate Hrun.
  - destruct (honest_run handle self db "/V1/products/" (Some query) 0 eq_refl
                Hhonors Hpositive 1 1 w ltac:(lia) Hne)
      as (g' & w' & t & Hrun & Htr & Hn & _).
    assert (Hlen : (1 <= length db)%nat).
    { clear -Hne. destruct db; [contradiction | simpl; lia]. }
    replace (Nat.min 1 (Nat.min (length db) (Z.to_nat 1))) with 1%nat in Hrun, Hn by lia.
    assert (Hsize : Z.to_nat (page_size_for self 1) = 1%nat).
    { unfold page_size_for. destruct (_ && _) eqn:Hb; [reflexivity|].
      apply andb_false_iff in Hb. destruct Hb as [Hb | Hb]; [discriminate|].
      apply Z.ltb_ge in Hb. lia. }
    rewrite Hsize in Hn. change (pages_for 1 1) with 1%nat in Hn.
    simpl in Hrun. unfold get_products in Hgo.
    destruct (gen_next handle self (get_paginated "/V1/products/" (Some query) 1 0) w)
      as [[[item| |e] g1] w1] eqn:Hnext.
    + injection Hrun as Hitem _ _ <-. exists w1, t.
      rewrite (Hgo _ _ _ eq_refl ltac:(discriminate)).
      split; [|auto]. f_equal. f_equal. f_equal.
      clear -Hitem Hne. destruct db; [contradiction|]. simpl in *. congruence.
    + exfalso. clear -Hrun Hne. destruct db; [contradiction | discriminate].
    + exfalso. clear -Hrun Hne. destruct db; [contradiction | discriminate].
Qed.

End FirstProduct.

(** * Paths, write calls, stores and source items *)

Section Escaping.

Lemma quote_char_unquote (c : ascii) (rest : string) :
  unquote ((if always_safe c then String c EmptyString else percent_encode c) +:+ rest)
  = String c (unquote rest).
Proof.
  destruct c as [[] [] [] [] [] [] [] []]; reflexivity.
Qed.

Lemma quote_char_safe (c x : ascii) :
  In x (list_ascii_of_string
          (if always_safe c then String c EmptyString else percent_encode c)) ->
  always_safe x = true \/ x = "%"%char.
Proof.
  destruct c as [[] [] [] [] [] [] [] []]; cbn;
    intros H; repeat (destruct H as [<- | H]; [auto|]); destruct H.
Qed.

Lemma list_ascii_of_string_app (a b : string) :
  list_ascii_of_string (a +:+ b) = list_ascii_of_string a ++ list_ascii_of_string b.
Proof. induction a as [|c a IH]; simpl; [reflexivity|]. rewrite IH. reflexivity. Qed.

(** X11. [escape_path] loses nothing: decoding the escaped text as the
    server does ([urllib.parse.unquote] on the bytes) gives the SKU back, so
    two different SKUs never share a path. *)
Theorem escape_path_unquote (sku : string) :
  unquote (escape_path sku) = sku /\
  (forall sku', escape_path sku = escape_path sku' -> sku = sku').
Proof.
  assert (H : forall s, unquote (escape_path s) = s).
  { intros s. unfold escape_path. induction s as [|c s IH]; [reflexivity|].
    cbn [urlquote]. rewrite quote_char_unquote, IH. reflexivity. }
  split; [apply H|].
  intros sku' E. rewrite <- (H sku), <- (H sku'), E. reflexivity.
Qed.

(** X12. The text [escape_path] returns holds only letters, digits,
    [_ . - ~] and [%]: whatever the SKU, no [/], [?] or [#] of it reaches the
    path, which stays one path segment. *)
Theorem escape_path_safe (sku : string) :
  (forall c, In c (list_ascii_of_string (escape_path sku)) ->
             always_safe c = true \/ c = "%"%char) /\
  ~ In "/"%char (list_ascii_of_string (escape_path sku)) /\
  ~ In "?"%char (list_ascii_of_string (escape_path sku)) /\
  ~ In "#"%char (list_ascii_of_string (escape_path sku)).
Proof.
  assert (H : forall c, In c (list_ascii_of_string (escape_path sku)) ->
                        always_safe c = true \/ c = "%"%char).
  { unfold escape_path. induction sku as [|a s IH]; [intros c []|].
    intros c. cbn [urlquote]. rewrite list_ascii_of_string_app, in_app_iff.
    intros [Hc | Hc]; [exact (quote_char_safe a c Hc) | exact (IH c Hc)]. }
  split; [exact H|].
  repeat split; intros Hin; destruct (H _ Hin) as [E | E]; discriminate E.
Qed.

End Escaping.

Section LastResponse.

Context {St : Type}.
Variable self : Magento.

(** What a call of [request_api] on a path under [/V1/] comes to, by the
    last response: the heap is left alone. *)
Lemma refused_write (method : string) :
  read_method method = false -> refused self method = read_only self.
Proof. intros H. unfold refused. rewrite H. apply andb_true_r. Qed.

(** [request_api] leaves the dict store as it is, whatever it returns or
    raises. *)
Lemma request_api_heap (handle : Request -> St -> Response * St)
    method path params async_bulk throw retry (w : world St) :
  w_heap (request_api handle self method path params async_bulk throw retry w).2 = w_heap w.
Proof.
  destruct (request_api_effects handle self method path params async_bulk throw retry w)
    as (st & t & Hw & _).
  rewrite Hw. reflexivity.
Qed.

Lemma request_api_last (handle : Request -> St -> Response * St)
    method path params async_bulk throw retry (w : world St) :
  refused self method = false ->
  String.prefix "/V1/" path = true ->
  exists (r : Response) (w' : world St) (t : list event),
    request_api handle self method path params async_bulk throw retry w
      = ((if throw && negb (ok r) then Raise (error_of r) else Ok r), w') /\
    w_trace w' = w_trace w ++ t /\
    w_heap w' = w_heap w /\
    last_response t = Some r /\
    (1 <= length (http_requests t) <= S (Z.to_nat retry))%nat.
Proof.
  intros Hacc Hpath.
  destruct (request_api_outcome handle self method path params async_bulk throw retry w
              Hacc Hpath)
    as (r0 & rs & st & Hrun & Hlen & _).
  eexists _, _, _. split; [exact Hrun|]. split; [reflexivity|]. split; [reflexivity|].
  split.
  - unfold last_response. rewrite responses_of_app.
    change (EvHttp ?q r0 :: ?l) with ([EvHttp q r0] ++ l).
    rewrite responses_of_app, responses_of_retries. simpl.
    assert (Hl : responses_of (if logger self
                     then [EvLog (LogRequest method (full_path_of self async_bulk path))]
                     else []) = []) by (destruct (logger self); reflexivity).
    rewrite Hl. simpl. apply last_cons_default.
  - rewrite http_requests_app.
    assert (Hl : http_requests (if logger self
                     then [EvLog (LogRequest method (full_path_of self async_bulk path))]
                     else []) = []) by (destruct (logger self); reflexivity).
    rewrite Hl. simpl. rewrite http_requests_retries_length. lia.
Qed.

End LastResponse.

Lemma error_of_response (r : Response) :
  error_of r = HTTPError r \/
  exists message parameters trace, error_of r = MagentoException message parameters trace r.
Proof.
  unfold error_of.
  destruct (if starts_with_brace (text r) then json r else None) as [[| | | | |body]|]; auto.
  destruct (obj_get "message" body); eauto.
Qed.

Section Deleting.

Context {St : Type}.
Variable handle_json : option JSON -> Request -> St -> Response * St.
Variable self : Magento.

Lemma delete_product_outcome (sku : string) (skip_missing throw : bool) (retry : Z)
    (w : world St) :
  read_only self = false ->
  exists (r : Response) (w' : world St) (t : list event),
    delete_product handle_json self sku skip_missing throw retry w
      = ((if throw && negb (ok r)
          then if skip_missing && (status_code r =? 404)
               then Ok (JBool false) else Raise (error_of r)
          else match json r with Some v => Ok v | None => Raise JSONDecodeError end),
         w') /\
    (forall skip, delete_product handle_json self sku skip throw retry w = 
       ((if throw && negb (ok r)
          then if skip && (status_code r =? 404)
               then Ok (JBool false) else Raise (error_of r)
          else match json r with Some v => Ok v | None => Raise JSONDecodeError end),
         w')) /\
    w_trace w' = w_trace w ++ t /\
    last_response t = Some r.
Proof.
  intros Hrw.
  assert (Hacc : refused self "delete" = false).
  { rewrite refused_write by reflexivity. exact Hrw. }
  destruct (request_api_last self (handle_json None) "delete"
              ("/V1/products/" +:+ escape_path sku) None false throw retry w
              Hacc eq_refl)
    as (r & w' & t & Hrun & Htr & _ & Hlast & _).
  exists r, w', t.
  assert (H : forall skip, delete_product handle_json self sku skip throw retry w = 
       ((if throw && negb (ok r)
          then if skip && (status_code r =? 404)
               then Ok (JBool false) else Raise (error_of r)
          else match json r with Some v => Ok v | None => Raise JSONDecodeError end),
         w')).
  { intros skip. unfold delete_product, delete_api. rewrite Hrun.
    destruct (throw && negb (ok r)).
    - destruct (error_of_response r) as [E | (m & p & tr & E)]; rewrite E;
        destruct (skip && (status_code r =? 404)); reflexivity.
    - unfold response_json. destruct (json r); reflexivity. }
  auto.
Qed.

(** A read-only client deletes nothing: the session refuses the DELETE and
    [delete_product] lets the [AssertionError] through. *)
Lemma delete_product_read_only (sku : string) (skip_missing throw : bool) (retry : Z)
    (w : world St) :
  read_only self = true ->
  delete_product handle_json self sku skip_missing throw retry w
  = (Raise AssertionError,
     {| w_server := w_server w; w_heap := w_heap w;
        w_trace := w_trace w
          ++ (if logger self
              then [EvLog (LogRequest "delete"
                             (full_path_of self false
                                ("/V1/products/" +:+ escape_path sku)))]
              else []) |}).
Proof.
  intros Hro.
  assert (Href : refused self "delete" = true).
  { rewrite refused_write by reflexivity. exact Hro. }
  unfold delete_product, delete_api.
  rewrite (request_api_refused (handle_json None) self "delete"
             ("/V1/products/" +:+ escape_path sku) None false throw retry w eq_refl Href).
  reflexivity.
Qed.

End Deleting.

Section Writes.

Context {St : Type}.
Variable handle_json : option JSON -> Request -> St -> Response * St.
Variable handle_dict : dict -> Request -> St -> Response * St.
Variable self : Magento.

(** X13. [delete_product] with [throw]. For a client that is not
    read-only, by the last response of the DELETE: a 404 is turned into
    [False] when [skip_missing] is set; any other failed response raises
    its error, with or without [skip_missing], and so does a 404 without
    [skip_missing]; a successful response gives its decoded body. For a
    read-only client nothing is sent: the session's [AssertionError] is
    raised, whatever [skip_missing] and [throw] are. *)
Theorem delete_product_skip_missing (sku : string) (retry : Z) (w : world St) :
  (read_only self = false ->
   exists (r : Response) (w' : world St) (t : list event),
     w_trace w' = w_trace w ++ t /\
     last_response t = Some r /\
     (status_code r = 404 ->
      delete_product handle_json self sku true true retry w = (Ok (JBool false), w')) /\
     (ok r = false -> status_code r <> 404 ->
      delete_product handle_json self sku true true retry w = (Raise (error_of r), w')) /\
     (ok r = false ->
      delete_product handle_json self sku false true retry w = (Raise (error_of r), w')) /\
     (ok r = true -> forall skip_missing,
      delete_product handle_json self sku skip_missing true retry w
        = (match json r with Some v => Ok v | None => Raise JSONDecodeError end, w'))) /\
  (read_only self = true ->
   forall skip_missing throw,
   exists (w' : world St) (t : list event),
     delete_product handle_json self sku skip_missing throw retry w
       = (Raise AssertionError, w') /\
     w_trace w' = w_trace w ++ t /\
     http_requests t = []).
Proof.
  split.
  - intros Hrw.
    destruct (delete_product_outcome handle_json self sku true true retry w Hrw)
      as (r & w' & t & _ & Hall & Htr & Hlast).
    exists r, w', t. split; [exact Htr|]. split; [exact Hlast|].
    split; [|split; [|split]].
    + intros H404. rewrite (Hall true). unfold ok, Requests.ok, Requests.is_error_status.
      rewrite H404. reflexivity.
    + intros Hok Hne. rewrite (Hall true), Hok. simpl.
      destruct (status_code r =? 404) eqn:E; [apply Z.eqb_eq in E; contradiction | reflexivity].
    + intros Hok. rewrite (Hall false), Hok. reflexivity.
    + intros Hok skip. rewrite (Hall skip), Hok. reflexivity.
  - intros Hro skip throw.
    rewrite (delete_product_read_only handle_json self sku skip throw retry w Hro).
    eexists _, _. split; [reflexivity|]. split; [reflexivity|].
    destruct (logger self); reflexivity.
Qed.

(** X14. Without [throw], and for a client that is not read-only,
    [skip_missing] has no effect on [delete_product]: nothing is raised for
    a failed response, a 404 included, and the call returns the decoded
    body of the last response (the error document rather than [False]), or
    fails to decode it. *)
Theorem delete_product_without_throw (sku : string) (retry : Z) (w : world St) :
  read_only self = false ->
  exists (r : Response) (w' : world St) (t : list event),
    w_trace w' = w_trace w ++ t /\
    last_response t = Some r /\
    forall skip_missing,
      delete_product handle_json self sku skip_missing false retry w
        = (match json r with Some v => Ok v | None => Raise JSONDecodeError end, w').
Proof.
  intros Hrw.
  destruct (delete_product_outcome handle_json self sku true false retry w Hrw)
    as (r & w' & t & _ & Hall & Htr & Hlast).
  exists r, w', t. split; [exact Htr|]. split; [exact Hlast|].
  intros skip. rewrite (Hall skip). reflexivity.
Qed.

Lemma obj_get_obj_set (k k' : string) (v : JSON) (o : list (string * JSON)) :
  obj_get k (obj_set k' v o) = if String.eqb k k' then Some v else obj_get k o.
Proof.
  induction o as [|[k0 v0] o IH]; simpl.
  - destruct (String.eqb k k'); reflexivity.
  - destruct (String.eqb k' k0) eqn:E0; simpl.
    + apply String.eqb_eq in E0. subst k0. destruct (String.eqb k k'); reflexivity.
    + destruct (String.eqb k k0) eqn:E1.
      * apply String.eqb_eq in E1. subst k0.
        rewrite String.eqb_sym, E0. reflexivity.
      * exact IH.
Qed.

Lemma obj_set_keys (k : string) (v : JSON) (o : list (string * JSON)) :
  NoDup (o.*1) -> NoDup ((obj_set k v o).*1) /\
  forall x, x ∈ (obj_set k v o).*1 <-> x = k \/ x ∈ o.*1.
Proof.
  induction o as [|[k0 v0] o IH]; simpl; intros Hnd.
  - split; [apply NoDup_singleton|]. intros x. rewrite list_elem_of_singleton.
    rewrite elem_of_nil. tauto.
  - apply NoDup_cons in Hnd as [Hin Hnd]. destruct (IH Hnd) as [IH1 IH2].
    destruct (String.eqb k k0) eqn:E; simpl.
    + apply String.eqb_eq in E. subst k0. split.
      * apply NoDup_cons. auto.
      * intros x. rewrite !elem_of_cons. tauto.
    + apply String.eqb_neq in E. split.
      * apply NoDup_cons. split; [|exact IH1]. rewrite IH2. intros [->|H]; tauto.
      * intros x. rewrite !elem_of_cons, IH2. tauto.
Qed.

Lemma obj_get_None (k : string) (o : list (string * JSON)) :
  k ∉ o.*1 -> obj_get k o = None.
Proof.
  induction o as [|[k0 v0] o IH]; simpl; [reflexivity|].
  rewrite not_elem_of_cons. intros [Hne Hin].
  destruct (String.eqb k k0) eqn:E; [apply String.eqb_eq in E; contradiction | auto].
Qed.

Lemma obj_update_spec (attribute base : list (string * JSON)) :
  NoDup (attribute.*1) -> NoDup (base.*1) ->
  NoDup ((obj_update base attribute).*1) /\
  forall k, obj_get k (obj_update base attribute)
            = match obj_get k attribute with
              | Some v => Some v
              | None => obj_get k base
              end.
Proof.
  unfold obj_update. revert base.
  induction attribute as [|[k0 v0] attribute IH]; simpl; intros base Ha Hb.
  - auto.
  - apply NoDup_cons in Ha as [Hin Ha].
    destruct (obj_set_keys k0 v0 base Hb) as [Hnd _].
    destruct (IH (obj_set k0 v0 base) Ha Hnd) as [IH1 IH2].
    split; [exact IH1|]. intros k. rewrite IH2, obj_get_obj_set.
    destruct (String.eqb k k0) eqn:E.
    + apply String.eqb_eq in E. subst k0. rewrite (obj_get_None k attribute Hin). reflexivity.
    + reflexivity.
Qed.


Lemma dict_read_insert (l : loc) (d : dict) (h : gmap loc dict) :
  dict_read l (<[l := d]> h) = d.
Proof. unfold dict_read. rewrite lookup_insert_eq. reflexivity. Qed.

(** X16. [create_order_invoice] changes the caller's payload object in
    place: after the call, whether it returned or raised, the object holds
    [notify] where it had none, and is as it was where it had one (the
    [notify] argument is then ignored). Without a payload the call allocates
    one new object and touches no existing one. *)
Theorem create_order_invoice_payload (order_id : PathId) (notify : bool) (w : world St) :
  (forall l : loc,
     let d := dict_read l (w_heap w) in
     exists out w',
       create_order_invoice handle_dict self order_id (Some l) notify w = (out, w') /\
       (d !! "notify" = None ->
        w_heap w' = <[l := <["notify" := JBool notify]> d]> (w_heap w)) /\
       (is_Some (d !! "notify") -> w_heap w' = w_heap w)) /\
  (exists out w',
     create_order_invoice handle_dict self order_id None notify w = (out, w') /\
     w_heap w' = <[fresh (dom (w_heap w)) := {["notify" := JBool notify]}]> (w_heap w) /\
     forall l, is_Some (w_heap w !! l) -> w_heap w' !! l = w_heap w !! l).
Proof.
  assert (Hpost : forall (d : dict) (w1 : world St),
             exists out w',
               bind (request_api (handle_dict d) self "post"
                       ("/V1/order/" +:+ format_id order_id +:+ "/invoice")
                       None false true 0) (fun r => response_json r) w1 = (out, w') /\
               w_heap w' = w_heap w1).
  { intros d w1.
    pose proof (request_api_heap self (handle_dict d) "post"
                  ("/V1/order/" +:+ format_id order_id +:+ "/invoice") None false true 0 w1)
      as Hheap.
    unfold bind.
    destruct (request_api (handle_dict d) self "post"
                ("/V1/order/" +:+ format_id order_id +:+ "/invoice") None false true 0 w1)
      as [[r|e] w'].
    - unfold response_json. destruct (json r); eexists _, _; (split; [reflexivity | exact Hheap]).
    - eexists _, _. split; [reflexivity | exact Hheap]. }
  split.
  - intros l d. unfold create_order_invoice.
    unfold bind at 1. unfold ret at 1. unfold bind at 1. unfold dict_setdefault.
    fold d. destruct (d !! "notify") as [v|] eqn:Hn.
    + unfold bind at 1. unfold dict_value. fold d.
      destruct (Hpost d w) as (out & w' & Hrun & Hheap).
      exists out, w'. split; [exact Hrun|]. split; [discriminate | intros _; exact Hheap].
    + unfold dict_set. fold d. unfold bind at 1. unfold dict_value.
      match goal with |- context [bind (request_api (handle_dict ?b) _ _ _ _ _ _ _) _ ?w1] =>
        destruct (Hpost b w1) as (out & w' & Hrun & Hheap) end.
      exists out, w'. split; [exact Hrun|].
      split; [intros _; exact Hheap | intros [x Hx]; discriminate].
  - unfold create_order_invoice.
    unfold bind at 1. unfold dict_alloc. unfold bind at 1. unfold dict_setdefault.
    cbn [w_heap]. rewrite dict_read_insert, lookup_empty.
    unfold dict_set. cbn [w_heap w_server w_trace]. rewrite dict_read_insert.
    unfold bind at 1. unfold dict_value.
    match goal with |- context [bind (request_api (handle_dict ?b) _ _ _ _ _ _ _) _ ?w1] =>
      destruct (Hpost b w1) as (out & w' & Hrun & Hheap) end.
    exists out, w'. split; [exact Hrun|]. cbn [w_heap] in Hheap.
    rewrite insert_insert_eq in Hheap.
    split.
    + rewrite Hheap. f_equal. 
    + intros l Hl. rewrite Hheap. apply lookup_insert_ne.
      intros <-. apply elem_of_dom in Hl. exact (is_fresh _ Hl).
Qed.

End Writes.

Section Orders.

Context {St : Type}.
Variable handle_json : option JSON -> Request -> St -> Response * St.
Variable self : Magento.

(** X17. [set_order_status] reads [entity_id] then [increment_id] of the
    order before anything is sent: when one is missing the lookup error is
    raised and the world is unchanged. With both present, a client that is
    not read-only sends exactly one POST to [/rest/<scope>/V1/orders] and
    returns its response, a failed one too; a read-only client sends
    nothing and the session's [AssertionError] is raised. *)
Theorem set_order_status_needs_ids (order : JSON) (status : string)
    (external_order_id : option string) (w : world St) :
  (forall e, py_getitem order "entity_id" = Raise e ->
     set_order_status handle_json self order status external_order_id w = (Raise e, w)) /\
  (forall v e, py_getitem order "entity_id" = Ok v ->
     py_getitem order "increment_id" = Raise e ->
     set_order_status handle_json self order status external_order_id w = (Raise e, w)) /\
  (forall v v', py_getitem order "entity_id" = Ok v ->
     py_getitem order "increment_id" = Ok v' ->
     read_only self = false ->
     exists (r : Response) (w' : world St) (t : list event),
       set_order_status handle_json self order status external_order_id w = (Ok r, w') /\
       w_trace w' = w_trace w ++ t /\
       last_response t = Some r /\
       length (http_requests t) = 1%nat /\
       Forall (fun rq => req_method rq = "post" /\
                         req_path rq = "/rest/" +:+ scope self +:+ "/V1/orders")
              (http_requests t)) /\
  (forall v v', py_getitem order "entity_id" = Ok v ->
     py_getitem order "increment_id" = Ok v' ->
     read_only self = true ->
     exists (w' : world St) (t : list event),
       set_order_status handle_json self order status external_order_id w
         = (Raise AssertionError, w') /\
       w_trace w' = w_trace w ++ t /\
       http_requests t = []).
Proof.
  unfold set_order_status, lift, bind.
  split; [intros e ->; reflexivity|].
  split; [intros v e -> ->; reflexivity|].
  split.
  - intros v v' -> -> Hrw. unfold save_order, post_api.
    assert (Hacc : refused self "post" = false).
    { rewrite refused_write by reflexivity. exact Hrw. }
    match goal with |- context [request_api ?h self "post" "/V1/orders" None false false 0 w] =>
      destruct (request_api_outcome h self "post" "/V1/orders" None false false 0 w
                  Hacc eq_refl)
        as (r0 & rs & st & Hrun & Hlen & _) end.
    destruct rs as [|x rs]; [|simpl in Hlen; lia].
    simpl in Hrun. eexists _, _, _. split; [exact Hrun|]. split; [reflexivity|].
    unfold last_response, responses_of, http_requests. rewrite !omap_app.
    destruct (logger self); simpl; (split; [reflexivity|]); (split; [reflexivity|]);
      (constructor; [|constructor]); split; reflexivity.
  - intros v v' -> -> Hro. unfold save_order, post_api.
    assert (Href : refused self "post" = true).
    { rewrite refused_write by reflexivity. exact Hro. }
    match goal with |- context [request_api ?h self "post" "/V1/orders" None false false 0 w] =>
      rewrite (request_api_refused h self "post" "/V1/orders" None false false 0 w
                 eq_refl Href) end.
    eexists _, _. split; [reflexivity|]. split; [reflexivity|].
    destruct (logger self); reflexivity.
Qed.

End Orders.

(** X18. In the constructor an argument that is given (not [None], not
    empty) wins over the environment: the client built, or the failure,
    depends on the environment only through the variables whose argument is
    missing; a given token, scope or user agent is kept as it is, and a
    given base URL is kept without its trailing slashes. The page size and
    the read-only flag come from the arguments alone. *)
Theorem Magento_init_arguments_first (version : string)
    (environ environ' : gmap string string) (a : init_args) :
  (str_truthy (arg_token a) = false ->
   environ !! "PYMAGENTO_TOKEN" = environ' !! "PYMAGENTO_TOKEN") ->
  (str_truthy (arg_base_url a) = false ->
   environ !! "PYMAGENTO_BASE_URL" = environ' !! "PYMAGENTO_BASE_URL") ->
  (str_truthy (arg_scope a) = false ->
   environ !! "PYMAGENTO_SCOPE" = environ' !! "PYMAGENTO_SCOPE") ->
  (str_truthy (arg_user_agent a) = false ->
   environ !! "PYMAGENTO_USER_AGENT" = environ' !! "PYMAGENTO_USER_AGENT") ->
  Magento_init version environ a = Magento_init version environ' a /\
  forall self, Magento_init version environ a = Ok self ->
    (str_truthy (arg_token a) = true -> Some (token self) = arg_token a) /\
    (str_truthy (arg_base_url a) = true ->
     Some (base_url self) = rstrip_slash <$> arg_base_url a) /\
    (str_truthy (arg_scope a) = true -> Some (scope self) = arg_scope a) /\
    (str_truthy (arg_user_agent a) = true -> Some (user_agent self) = arg_user_agent a) /\
    PAGE_SIZE self = default DEFAULT_PAGE_SIZE (arg_batch_page_size a) /\
    read_only self = arg_read_only a.
Proof.
  intros Ht Hu Hs Ha. split.
  - unfold Magento_init, py_or.
    destruct (str_truthy (arg_token a)) eqn:Et;
    destruct (str_truthy (arg_base_url a)) eqn:Eu;
    destruct (str_truthy (arg_scope a)) eqn:Es;
    destruct (str_truthy (arg_user_agent a)) eqn:Ea;
    rewrite <- ?(Ht eq_refl), <- ?(Hu eq_refl), <- ?(Hs eq_refl), <- ?(Ha eq_refl);
    reflexivity.
  - intros self Hself. unfold Magento_init in Hself.
    destruct (py_or (arg_token a) (environ !! "PYMAGENTO_TOKEN")) as [t|] eqn:Et;
      [|discriminate].
    destruct (py_or (arg_base_url a) (environ !! "PYMAGENTO_BASE_URL")) as [u|] eqn:Eu;
      [|discriminate].
    injection Hself as <-. cbn.
    unfold py_or in *.
    split; [intros H; rewrite H in Et; congruence|].
    split; [intros H; rewrite H in Eu; rewrite Eu; reflexivity|].
    split; [intros H; rewrite !H; destruct (arg_scope a); [reflexivity | discriminate]|].
    split; [intros H; rewrite !H; destruct (arg_user_agent a); [reflexivity | discriminate]|].
    split; reflexivity.
Qed.

Lemma find_scope_none (scope key : string) (xs : list JSON) :
  Forall (other_scope scope) xs -> find_scope scope key xs = Ok None.
Proof.
  induction 1 as [|x xs (code & Hc & Hne) _ IH]; simpl; [reflexivity|].
  rewrite Hc, Hne. exact IH.
Qed.

Lemma find_scope_first (scope key : string) (before after : list JSON) (x : JSON) :
  Forall (other_scope scope) before -> in_scope scope x ->
  find_scope scope key (before ++ x :: after)
  = match py_getitem x key with Ok v => Ok (Some v) | Raise e => Raise e end.
Proof.
  intros Hb (code & Hc & He).
  induction Hb as [|y ys (c & Hyc & Hne) _ IH]; simpl.
  - rewrite Hc, He. reflexivity.
  - rewrite Hyc, Hne. exact IH.
Qed.

Lemma root_categories_all (scope : string) (groups : list JSON)
    (entries seen : list (JSON * JSON)) :
  Forall2 (group_entry scope) groups entries ->
  root_categories scope groups seen = Ok (inr (rev entries ++ seen)).
Proof.
  intros H. revert seen.
  induction H as [|g e groups entries (Hroot & (c & Hc & Hne) & Hid & Hh) _ IH];
    intros seen; simpl; [reflexivity|].
  rewrite Hroot, Hc, Hne, Hid, Hh, IH, <- app_assoc. destruct e; reflexivity.
Qed.

Lemma root_categories_first (scope : string) (before after : list JSON) (g root : JSON)
    (entries seen : list (JSON * JSON)) :
  Forall2 (group_entry scope) before entries ->
  py_getitem g "root_category_id" = Ok root -> in_scope scope g ->
  root_categories scope (before ++ g :: after) seen = Ok (inl root).
Proof.
  intros H Hg (c & Hc & He). revert seen.
  induction H as [|x e xs entries (Hroot & (c' & Hc' & Hne) & Hid & Hh) _ IH];
    intros seen; simpl.
  - rewrite Hg, Hc, He. reflexivity.
  - rewrite Hroot, Hc', Hne, Hid, Hh. apply IH.
Qed.

Section StoreScope.

Context {St : Type}.
Variable get_json_api : Magento -> string -> M St JSON.
Variable py_repr : string -> string.
Variable self : Magento.

Lemma scan_none (key : string) (v : JSON) (xs : list JSON) (w : world St) :
  py_iter v = Some xs -> Forall (other_scope (scope self)) xs ->
  scan (scope self) key v w = (Ok None, w).
Proof.
  intros Hv Hxs. unfold scan. rewrite Hv. unfold lift.
  rewrite find_scope_none by exact Hxs. reflexivity.
Qed.

Lemma scan_first (key : string) (v : JSON) (before after : list JSON) (x : JSON)
    (w : world St) :
  py_iter v = Some (before ++ x :: after) ->
  Forall (other_scope (scope self)) before -> in_scope (scope self) x ->
  scan (scope self) key v w
  = (match py_getitem x key with Ok v => Ok (Some v) | Raise e => Raise e end, w).
Proof.
  intros Hv Hb Hx. unfold scan. rewrite Hv. unfold lift.
  rewrite find_scope_first by assumption. reflexivity.
Qed.

(** X19. When the scope is the code of a store group,
    [get_current_store_group_id] returns the [id] of the first such group in
    the listing (or fails to read it) and fetches nothing else: the world is
    the one left by the store group listing. *)
Theorem get_current_store_group_id_store_group (w w1 : world St) (v : JSON)
    (before after : list JSON) (g : JSON) :
  get_store_groups get_json_api self w = (Ok v, w1) ->
  py_iter v = Some (before ++ g :: after) ->
  Forall (other_scope (scope self)) before ->
  in_scope (scope self) g ->
  get_current_store_group_id get_json_api py_repr self false w
  = (py_getitem g "id", w1).
Proof.
  intros Hg Hv Hb Hx. unfold get_current_store_group_id.
  unfold bind at 1. unfold bind at 1. rewrite Hg.
  rewrite (scan_first "id" v before after g w1 Hv Hb Hx).
  destruct (py_getitem g "id"); reflexivity.
Qed.


(** X21. When neither a store group, nor a website, nor a store view has
    the scope as its code, [get_current_store_group_id] raises the
    [RuntimeError] naming the scope, after the three listings. *)
Theorem get_current_store_group_id_unknown_scope (w w1 w2 w3 : world St)
    (v1 v2 v3 : JSON) (groups sites views : list JSON) :
  get_store_groups get_json_api self w = (Ok v1, w1) ->
  py_iter v1 = Some groups -> Forall (other_scope (scope self)) groups ->
  get_websites get_json_api self w1 = (Ok v2, w2) ->
  py_iter v2 = Some sites -> Forall (other_scope (scope self)) sites ->
  get_store_views get_json_api self w2 = (Ok v3, w3) ->
  py_iter v3 = Some views -> Forall (other_scope (scope self)) views ->
  get_current_store_group_id get_json_api py_repr self false w
  = (Raise (RuntimeError ("Can't determine the store group id of scope "
                          +:+ py_repr (scope self))), w3).
Proof.
  intros Hg Hv1 H1 Hs Hv2 H2 Hvw Hv3 H3. unfold get_current_store_group_id.
  unfold bind at 1. unfold bind at 1. rewrite Hg.
  rewrite (scan_none "id" v1 groups w1 Hv1 H1).
  unfold bind at 1. rewrite Hs. unfold bind at 1.
  rewrite (scan_none "default_group_id" v2 sites w2 Hv2 H2).
  unfold bind at 1. rewrite Hvw. unfold bind at 1.
  rewrite (scan_none "store_group_id" v3 views w3 Hv3 H3).
  reflexivity.
Qed.

(** X22. [get_root_category_id], after the store group listing: when a
    group has the scope as its code, and the groups before it are complete,
    its [root_category_id] is returned and nothing else is fetched;
    when none has, the store group id found through the websites and views
    is looked up among the groups, the last group with that id wins, and an
    id that no group has raises [KeyError]. *)
Theorem get_root_category_id_by_scope (w w1 : world St) (v : JSON) (groups : list JSON) :
  get_store_groups get_json_api self w = (Ok v, w1) ->
  py_iter v = Some groups ->
  (forall before after g root entries,
     groups = before ++ g :: after ->
     Forall2 (group_entry (scope self)) before entries ->
     py_getitem g "root_category_id" = Ok root ->
     in_scope (scope self) g ->
     get_root_category_id get_json_api py_repr self w = (Ok root, w1)) /\
  (forall entries id w2,
     Forall2 (group_entry (scope self)) groups entries ->
     get_current_store_group_id get_json_api py_repr self true w1 = (Ok id, w2) ->
     get_root_category_id get_json_api py_repr self w
     = ((if py_hashable id
         then match key_get id (rev entries) with
              | Some root => Ok root
              | None => Raise (KeyError (key_name id))
              end
         else Raise TypeError), w2)).
Proof.
  intros Hg Hv. split.
  - intros before after g root entries -> Hb Hroot Hx.
    unfold get_root_category_id. unfold bind at 1. rewrite Hg, Hv.
    unfold bind at 1. unfold lift.
    rewrite (root_categories_first _ before after g root entries [] Hb Hroot Hx).
    reflexivity.
  - intros entries id w2 Hall Hid.
    unfold get_root_category_id. unfold bind at 1. rewrite Hg, Hv.
    unfold bind at 1. unfold lift.
    rewrite (root_categories_all _ groups entries [] Hall), app_nil_r.
    unfold bind at 1. rewrite Hid.
    destruct (py_hashable id); [|reflexivity].
    destruct (key_get id (rev entries)); reflexivity.
Qed.

End StoreScope.

Lemma source_item_keys_default (skus : list JSON) :
  source_item_keys
    (map (fun sku => JObj [("sku", sku); ("source_code", JStr "default")]) skus)
  = Ok (map (fun sku => JObj [("sku", sku); ("source_code", JStr "default")]) skus).
Proof. induction skus as [|s skus IH]; simpl; [reflexivity|]. rewrite IH. reflexivity. Qed.

Section DefaultSourceItems.

Context {St : Type}.
Variable handle_json : option JSON -> Request -> St -> Response * St.
Variable make_search_query : list (list (string * string * string)) -> dict.
Variable self : Magento.
Variable db : list JSON.

Hypothesis Hhonors :
  honors St (handle_json None) (full_path_of self false "/V1/inventory/source-items") db.
Hypothesis Hpositive : 0 < PAGE_SIZE self.

Lemma honest_unlimited_full_run (query : option loc) (fuel : nat) (w : world St) :
  (length db < fuel)%nat ->
  exists w' t,
    gen_take (handle_json None) self fuel
      (get_paginated "/V1/inventory/source-items" query (-1) 0) w
      = (db, Exhausted, GenDone, w') /\
    w_trace w' = w_trace w ++ t /\
    length (http_requests t)
      = Nat.max 1 (pages_for (Z.to_nat (PAGE_SIZE self)) (length db)).
Proof.
  intros Hfuel.
  assert (Hlimit : -1 < 0) by lia.
  assert (Hcase : db = [] \/ db <> []) by (clear; destruct db; [left | right]; congruence).
  destruct Hcase as [Hdb | Hne].
  - destruct fuel as [|fuel]; [lia|].
    destruct (gen_take_paginate (handle_json None) self
                (full_path_of self false "/V1/inventory/source-items")
                (page_size_for self (-1)) (Z.of_nat (length db)) (-1)
                (page_of db (Z.to_nat (PAGE_SIZE self))) _
                (honest_serves_unlimited (handle_json None) self db
                   "/V1/inventory/source-items" Hhonors Hpositive (-1) Hlimit)
                eq_refl "/V1/inventory/source-items" query 0 eq_refl
                eq_refl (S fuel) w [] true 1%nat)
      as (g' & w' & t & Hrun & Htr & Hn & _ & Hend & _).
    { apply paginate_empty; [lia|]. rewrite Hdb. unfold page_of.
      generalize (Z.to_nat (PAGE_SIZE self)). intros s. destruct s; reflexivity. }
    { lia. }
    rewrite (Hend eq_refl) in Hrun. exists w', t. rewrite Hdb. simpl length.
    unfold pages_for. simpl Nat.add. rewrite Nat.div_small by lia. auto.
  - destruct (honest_run_unlimited (handle_json None) self db "/V1/inventory/source-items"
                query 0 eq_refl Hhonors Hpositive (-1) fuel w Hlimit Hne)
      as (g' & w' & t & Hrun & Htr & Hn & Hend).
    assert (Hlen : (1 <= length db)%nat).
    { clear -Hne. destruct db; [contradiction | simpl; lia]. }
    assert (Hlt : (length db <? fuel)%nat = true) by (apply Nat.ltb_lt; lia).
    rewrite Hlt in Hrun. rewrite (Hend Hlt) in Hrun.
    replace (Nat.min fuel (length db)) with (length db) in Hrun, Hn by lia.
    rewrite firstn_all in Hrun.
    exists w', t. split; [exact Hrun|]. split; [exact Htr|]. rewrite Hn.
    destruct (pages_for_spec (Z.to_nat (PAGE_SIZE self)) (length db) ltac:(lia)) as [Hle _].
    destruct (pages_for (Z.to_nat (PAGE_SIZE self)) (length db)); [simpl in Hle; lia | lia].
Qed.

Lemma default_source_items_spec (fuel : nat) :
  forall (g g' : gen_state) (w w' : world St) (items skus : list JSON),
    gen_take (handle_json None) self fuel g w = (items, Exhausted, g', w') ->
    Forall2 (fun item sku => py_getitem item "sku" = Ok sku) items skus ->
    default_source_items handle_json self fuel g w
    = (Ok (Some (map (fun sku => JObj [("sku", sku); ("source_code", JStr "default")])
                     skus)), w').
Proof.
  induction fuel as [|fuel IH]; intros g g' w w' items skus Hrun Hskus.
  - discriminate Hrun.
  - simpl in Hrun |- *.
    destruct (gen_next (handle_json None) self g w) as [[[item| |e] g1] w1] eqn:Hnext.
    + destruct (gen_take (handle_json None) self fuel g1 w1) as [[[its s] g2] w2] eqn:Htake.
      injection Hrun as <- -> -> ->.
      inversion Hskus as [|? sku ? skus' Hsku Hrest]; subst.
      unfold bind at 1. unfold lift. rewrite Hsku.
      unfold bind at 1. rewrite (IH g1 g' w1 w' its skus' Htake Hrest).
      reflexivity.
    + injection Hrun as <- <- <-. inversion Hskus; subst. reflexivity.
    + discriminate Hrun.
Qed.

(** X23. [delete_default_source_items] against a server that honors the
    pagination contract on the default source items [db]: it reads all of
    [db], page by page; when [db] is empty it returns [None] and posts
    nothing; otherwise it is one POST to [/V1/inventory/source-items-delete]
    whose body lists, in order, the [sku] of every item of [db] with the
    source code [default], made after the last page was read. *)
Theorem delete_default_source_items_honest (skus : list JSON) (fuel : nat)
    (w : world St) :
  Forall2 (fun item sku => py_getitem item "sku" = Ok sku) db skus ->
  (length db < fuel)%nat ->
  exists (w1 : world St) (t : list event),
    w_trace w1 = w_trace w ++ t /\
    length (http_requests t)
      = Nat.max 1 (pages_for (Z.to_nat (PAGE_SIZE self)) (length db)) /\
    delete_default_source_items handle_json make_search_query self fuel w
    = match skus with
      | [] => (Ok (Some None), w1)
      | _ :: _ =>
        match post_api handle_json self "/V1/inventory/source-items-delete"
                (Some (JObj [("sourceItems",
                   JArr (map (fun sku => JObj [("sku", sku);
                                               ("source_code", JStr "default")]) skus))]))
                false true 0 w1 with
        | (Ok r, w') => (Ok (Some (Some r)), w')
        | (Raise e, w') => (Raise e, w')
        end
      end.
Proof.
  intros Hskus Hfuel.
  set (q := fresh (dom (w_heap w))).
  set (w0 := {| w_server := w_server w;
                w_heap := <[q := make_search_query [[("source_code", "default", "eq")]]]>
                            (w_heap w);
                w_trace := w_trace w |}).
  assert (Hgs : get_source_items make_search_query (Some "default") None None None (-1) 0 w
                = (Ok (get_paginated "/V1/inventory/source-items" (Some q) (-1) 0), w0))
    by reflexivity.
  destruct (honest_unlimited_full_run (Some q) fuel w0 Hfuel) as (w1 & t & Hrun & Htr & Hn).
  unfold delete_default_source_items.
  unfold bind at 1. rewrite Hgs.
  exists w1, t. split; [exact Htr|]. split; [exact Hn|].
  unfold bind at 1.
  rewrite (default_source_items_spec fuel _ _ _ _ db skus Hrun Hskus).
  destruct skus as [|sku skus]; [reflexivity|].
  cbn [map]. unfold bind at 1. unfold delete_source_items.
  unfold bind at 1. unfold lift.
  change (JObj [("sku", sku); ("source_code", JStr "default")]
          :: map (fun sku => JObj [("sku", sku); ("source_code", JStr "default")]) skus)
    with (map (fun sku => JObj [("sku", sku); ("source_code", JStr "default")]) (sku :: skus)).
  rewrite source_item_keys_default.
  destruct (post_api _ _ _ _ _ _ _ _) as [[r|e] w']; reflexivity.
Qed.

End DefaultSourceItems.

(** ** The further properties at work on the example servers *)

Import Shop.

Lemma request_api_without_throw_witness :
  (exists (r : Response) (w' : world unit) (t : list event),
     request_api (const_server unavailable) client "post" "/V1/products" None false false 1
                 (init_world tt) = (Ok r, w') /\
     w_trace w' = w_trace (init_world tt) ++ t /\
     last_response t = Some r) /\
  (exists (w' : world unit) (t : list event),
     request_api (const_server unavailable) read_only_client "post" "/V1/products" None
                 false false 1 (init_world tt) = (Raise AssertionError, w') /\
     w_trace w' = w_trace (init_world tt) ++ t /\
     http_requests t = [] /\
     sleeps t = []).
Proof.
  split.
  - apply (proj1 (proj2 (request_api_without_throw (const_server unavailable) client "post"
                           "/V1/products" None false 1 (init_world tt)))).
    + reflexivity.
    + reflexivity.
  - apply (proj2 (proj2 (request_api_without_throw (const_server unavailable)
                           read_only_client "post" "/V1/products" None false 1
                           (init_world tt)))).
    + reflexivity.
    + reflexivity.
Defined.


Lemma gen_next_failure_is_raised_witness :
  let run := gen_next (const_server bad_request) client
                      (get_paginated "/V1/products/" None (-1) 0) (init_world tt) in
  run.1.1 = Raised (error_of bad_request) /\
  run.1.2 = GenDone /\
  gen_next (const_server bad_request) client run.1.2 run.2 = (StopIteration, GenDone, run.2).
Proof.
  intros run.
  apply (gen_next_failure_is_raised (const_server bad_request) client
           (get_paginated "/V1/products/" None (-1) 0) (init_world tt)
           run.1.1 run.1.2 run.2 (w_trace run.2) bad_request).
  - reflexivity.
  - reflexivity.
  - vm_compute. reflexivity.
  - reflexivity.
Defined.

Lemma get_paginated_limit_is_a_bound_witness :
  let run := gen_take (db_server three_items) client 5
                      (get_paginated "/V1/products/" None 2 0) (init_world tt) in
  (length run.1.1.1 <= Z.to_nat 2)%nat /\
  ((Z.to_nat 2 < 5)%nat -> run.1.1.2 <> Pending).
Proof.
  intros run.
  apply (get_paginated_limit_is_a_bound (db_server three_items) client "/V1/products/"
           None 2 0 5 (init_world tt) run.1.1.1 run.1.1.2 run.1.2 run.2).
  - lia.
  - vm_compute. reflexivity.
Defined.

Lemma get_product_by_query_always_decided_witness :
  get_product_by_query (db_server three_items) client 5 1%positive true (init_world tt)
    = get_product_by_query (db_server three_items) client 3 1%positive true (init_world tt) /\
  (get_product_by_query (db_server three_items) client 5 1%positive true (init_world tt)).1
    <> Ok None.
Proof.
  apply (get_product_by_query_always_decided (db_server three_items) client 1%positive 5
           (init_world tt)).
  lia.
Defined.

Lemma get_paginated_unlimited_yields_all_witness :
  exists (w' : world unit) (t : list event),
    gen_take (db_server three_items) client 4
             (get_paginated "/V1/products/" None (-1) 0) (init_world tt)
      = (three_items, Exhausted, GenDone, w') /\
    w_trace w' = w_trace (init_world tt) ++ t /\
    length (http_requests t)
      = Nat.max 1 (pages_for (Z.to_nat (PAGE_SIZE client)) (length three_items)).
Proof.
  apply (get_paginated_unlimited_yields_all (db_server three_items) client three_items
           "/V1/products/" None 0 eq_refl (db_server_honors _ _) eq_refl (-1) 4
           (init_world tt)).
  - lia.
  - simpl. lia.
Defined.

Lemma get_paginated_fetches_lazily_witness :
  exists (st : status) (g' : gen_state) (w' : world unit) (t : list event),
    gen_take (db_server three_items) client 2
             (get_paginated "/V1/products/" None (-1) 0) (init_world tt)
      = (take 2 three_items, st, g', w') /\
    w_trace w' = w_trace (init_world tt) ++ t /\
    length (http_requests t) = pages_for (Z.to_nat (page_size_for client (-1))) 2.
Proof.
  apply (get_paginated_fetches_lazily (db_server three_items) client three_items
           "/V1/products/" None 0 eq_refl (db_server_honors _ _) eq_refl (-1) 2
           (init_world tt)).
  - lia.
  - simpl. lia.
  - lia.
Defined.

Lemma get_product_by_query_first_witness :
  exists (w' : world unit) (t : list event),
    get_product_by_query (db_server three_items) client 0 1%positive false (init_world tt)
      = (Ok (Some (head three_items)), w') /\
    w_trace w' = w_trace (init_world tt) ++ t /\
    length (http_requests t) = 1%nat.
Proof.
  apply (get_product_by_query_first (db_server three_items) client three_items
           (db_server_honors _ _) eq_refl 1%positive 0 (init_world tt)).
Defined.

(** The path of a SKU with a slash and a blank. *)
Example escape_path_slash : escape_path "B/2 x" = "B%2F2%20x".
Proof. reflexivity. Qed.

(** Deleting a product that is missing. *)
Example delete_product_missing :
  let missing := answer (json_response 404 sku_not_found) in
  (delete_product missing client "X1" true true 0 (init_world tt)).1 = Ok (JBool false) /\
  (delete_product missing client "X1" false true 0 (init_world tt)).1
    = Raise (MagentoException (JStr "SKU not found") (JArr [JStr "X1"]) JNull
                              (json_response 404 sku_not_found)) /\
  (delete_product missing client "X1" true false 0 (init_world tt)).1 = Ok sku_not_found.
Proof. repeat split. Qed.

(** A read-only client deletes nothing and sends nothing. *)
Example delete_product_read_only_client :
  delete_product (answer success) read_only_client "X1" true true 0 (init_world tt)
  = (Raise AssertionError, init_world tt).
Proof. reflexivity. Qed.

Lemma delete_product_without_throw_witness :
  exists (r : Response) (w' : world unit) (t : list event),
    w_trace w' = w_trace (init_world tt) ++ t /\
    last_response t = Some r /\
    forall skip_missing,
      delete_product (answer (json_response 404 sku_not_found)) client "X1" skip_missing
                     false 0 (init_world tt)
        = (match json r with Some v => Ok v | None => Raise JSONDecodeError end, w').
Proof.
  apply (delete_product_without_throw (answer (json_response 404 sku_not_found)) client
           "X1" 0 (init_world tt)).
  reflexivity.
Defined.

Lemma delete_product_skip_missing_witness :
  exists (r : Response) (w' : world unit) (t : list event),
    w_trace w' = w_trace (init_world tt) ++ t /\
    last_response t = Some r /\
    (status_code r = 404 ->
     delete_product (answer (json_response 404 sku_not_found)) client "X1" true true 0
                    (init_world tt) = (Ok (JBool false), w')) /\
    (ok r = false -> status_code r <> 404 ->
     delete_product (answer (json_response 404 sku_not_found)) client "X1" true true 0
                    (init_world tt) = (Raise (error_of r), w')) /\
    (ok r = false ->
     delete_product (answer (json_response 404 sku_not_found)) client "X1" false true 0
                    (init_world tt) = (Raise (error_of r), w')) /\
    (ok r = true -> forall skip_missing,
     delete_product (answer (json_response 404 sku_not_found)) client "X1" skip_missing
                    true 0 (init_world tt)
       = (match json r with Some v => Ok v | None => Raise JSONDecodeError end, w')).
Proof.
  apply (proj1 (delete_product_skip_missing (answer (json_response 404 sku_not_found))
                  client "X1" 0 (init_world tt))).
  reflexivity.
Defined.


(** An invoice for a payload without [notify], then for the same object,
    which now has one. *)
Example create_order_invoice_twice :
  let w1 := (create_order_invoice (answer_dict success) client (IdInt 12)
                                  (Some 1%positive) false invoice_world).2 in
  let w2 := (create_order_invoice (answer_dict success) client (IdInt 12)
                                  (Some 1%positive) true w1).2 in
  w_heap w1 !! 1%positive = Some {["capture" := JBool true; "notify" := JBool false]} /\
  w_heap w2 = w_heap w1.
Proof. split; vm_compute; reflexivity. Qed.

Lemma set_order_status_needs_ids_witness :
  exists (r : Response) (w' : world unit) (t : list event),
    set_order_status (answer unavailable) client an_order "complete" None (init_world tt)
      = (Ok r, w') /\
    w_trace w' = w_trace (init_world tt) ++ t /\
    last_response t = Some r /\
    length (http_requests t) = 1%nat /\
    Forall (fun rq => req_method rq = "post" /\
                      req_path rq = "/rest/" +:+ scope client +:+ "/V1/orders")
           (http_requests t).
Proof.
  apply (proj1 (proj2 (proj2 (set_order_status_needs_ids (answer unavailable) client
                                an_order "complete" None (init_world tt))))
               (JNum 12) (JStr "000000012")).
  - reflexivity.
  - reflexivity.
  - reflexivity.
Defined.

(** The constructor keeps the base URL without its trailing slashes. *)
Example Magento_init_trailing_slash :
  base_url <$> (match Magento_init "1.0" ∅
                        {| arg_token := Some "secret";
                           arg_base_url := Some "https://shop.example//";
                           arg_scope := None; arg_logger := false; arg_read_only := false;
                           arg_user_agent := None; arg_batch_page_size := None |} with
                | Ok self => Some self
                | Raise _ => None
                end)
  = Some "https://shop.example".
Proof. reflexivity. Qed.

Lemma Magento_init_arguments_first_witness :
  Magento_init "1.0" an_environ some_args
  = Magento_init "1.0" (<["PYMAGENTO_TOKEN" := "third"]> an_environ) some_args /\
  forall self, Magento_init "1.0" an_environ some_args = Ok self ->
    (str_truthy (arg_token some_args) = true -> Some (token self) = arg_token some_args) /\
    (str_truthy (arg_base_url some_args) = true ->
     Some (base_url self) = rstrip_slash <$> arg_base_url some_args) /\
    (str_truthy (arg_scope some_args) = true -> Some (scope self) = arg_scope some_args) /\
    (str_truthy (arg_user_agent some_args) = true ->
     Some (user_agent self) = arg_user_agent some_args) /\
    PAGE_SIZE self = default DEFAULT_PAGE_SIZE (arg_batch_page_size some_args) /\
    read_only self = arg_read_only some_args.
Proof.
  apply (Magento_init_arguments_first "1.0" an_environ
           (<["PYMAGENTO_TOKEN" := "third"]> an_environ) some_args).
  - intros H. vm_compute in H. discriminate H.
  - intros _. vm_compute. reflexivity.
  - intros _. vm_compute. reflexivity.
  - intros _. vm_compute. reflexivity.
Defined.

Lemma get_current_store_group_id_store_group_witness :
  get_current_store_group_id store_api repr (client_of "outlet") false (init_world tt)
  = (Ok (JNum 2),
     asked ["/V1/store/storeGroups"]).
Proof.
  apply (get_current_store_group_id_store_group store_api repr (client_of "outlet")
           (init_world tt) (asked ["/V1/store/storeGroups"]) store_groups
           [JObj [("id", JNum 1); ("code", JStr "main"); ("root_category_id", JNum 2)]]
           []
           (JObj [("id", JNum 2); ("code", JStr "outlet"); ("root_category_id", JNum 5)])).
  - reflexivity.
  - reflexivity.
  - repeat constructor. exists (JStr "main"). split; reflexivity.
  - exists (JStr "outlet"). split; reflexivity.
Defined.


Lemma get_current_store_group_id_unknown_scope_witness :
  get_current_store_group_id store_api repr (client_of "all") false (init_world tt)
  = (Raise (RuntimeError "Can't determine the store group id of scope 'all'"),
     asked ["/V1/store/storeGroups"; "/V1/store/websites"; "/V1/store/storeViews"]).
Proof.
  apply (get_current_store_group_id_unknown_scope store_api repr (client_of "all")
           (init_world tt) (asked ["/V1/store/storeGroups"])
           (asked ["/V1/store/storeGroups"; "/V1/store/websites"])
           (asked ["/V1/store/storeGroups"; "/V1/store/websites"; "/V1/store/storeViews"])
           store_groups websites store_views
           [JObj [("id", JNum 1); ("code", JStr "main"); ("root_category_id", JNum 2)];
            JObj [("id", JNum 2); ("code", JStr "outlet"); ("root_category_id", JNum 5)]]
           [JObj [("id", JNum 0); ("code", JStr "admin"); ("default_group_id", JNum 0)];
            JObj [("id", JNum 1); ("code", JStr "base"); ("default_group_id", JNum 1)]]
           [JObj [("id", JNum 1); ("code", JStr "default"); ("store_group_id", JNum 1)];
            JObj [("id", JNum 2); ("code", JStr "outlet_fr"); ("store_group_id", JNum 2)]]).
  - reflexivity.
  - reflexivity.
  - repeat constructor; eexists; split; reflexivity.
  - reflexivity.
  - reflexivity.
  - repeat constructor; eexists; split; reflexivity.
  - reflexivity.
  - reflexivity.
  - repeat constructor; eexists; split; reflexivity.
Defined.

Lemma get_root_category_id_by_scope_witness :
  get_root_category_id store_api repr (client_of "default") (init_world tt)
  = (Ok (JNum 2),
     asked ["/V1/store/storeGroups"; "/V1/store/websites"; "/V1/store/storeViews"]).
Proof.
  apply (proj2 (get_root_category_id_by_scope store_api repr (client_of "default")
                  (init_world tt) (asked ["/V1/store/storeGroups"]) store_groups
                  [JObj [("id", JNum 1); ("code", JStr "main"); ("root_category_id", JNum 2)];
                   JObj [("id", JNum 2); ("code", JStr "outlet");
                         ("root_category_id", JNum 5)]]
                  eq_refl eq_refl)
               [(JNum 1, JNum 2); (JNum 2, JNum 5)] (JNum 1)
               (asked ["/V1/store/storeGroups"; "/V1/store/websites";
                       "/V1/store/storeViews"])).
  - repeat constructor; eexists; split; reflexivity.
  - reflexivity.
Defined.

Lemma delete_default_source_items_honest_witness :
  exists (w1 : world unit) (t : list event),
    w_trace w1 = w_trace (init_world tt) ++ t /\
    length (http_requests t)
      = Nat.max 1 (pages_for (Z.to_nat (PAGE_SIZE client)) (length default_items)) /\
    delete_default_source_items stock_server one_filter_query client 4 (init_world tt)
    = match post_api stock_server client "/V1/inventory/source-items-delete"
              (Some (JObj [("sourceItems",
                 JArr [JObj [("sku", JStr "A1"); ("source_code", JStr "default")];
                       JObj [("sku", JStr "B/2"); ("source_code", JStr "default")];
                       JObj [("sku", JStr "C3"); ("source_code", JStr "default")]])]))
              false true 0 w1 with
      | (Ok r, w') => (Ok (Some (Some r)), w')
      | (Raise e, w') => (Raise e, w')
      end.
Proof.
  apply (delete_default_source_items_honest stock_server one_filter_query client
           default_items (db_server_honors _ _) eq_refl
           [JStr "A1"; JStr "B/2"; JStr "C3"] 4 (init_world tt)).
  - repeat constructor.
  - simpl. lia.
Defined.

(** The same run, computed: two pages read, then one POST, whose response
    is returned. *)
Example delete_default_source_items_run :
  let run := delete_default_source_items stock_server one_filter_query client 4
                                         (init_world tt) in
  run.1 = Ok (Some (Some success)) /\
  map req_method (http_requests (w_trace run.2)) = ["get"; "get"; "post"].
Proof. split; vm_compute; reflexivity. Qed.
